(** * Gateway Supervisor: process manager, webhook reconciler, mode switch

    A shallow embedding of the Gateway Supervisor of the dashboard:
    [GatewayProcessManager] (services/gatewayProcessManager.ts),
    [WebhookPollerService] (services/webhookPoller.ts), the gateway part of
    server/db.ts and the gatewayManager and webhookManager procedures of the
    router that act on them.

    The TypeScript code is asynchronous and talks to the operating system,
    the file system, a MySQL database and the Telegram Bot API.  Here every
    [async] method is a computation in a state-and-exception monad over a
    [World] that holds what those collaborators hold: the pid file, the
    process table, the clock, the provider-side webhook, the database tables.
    A rejected promise is a [Throw]; [try]/[catch] is [try_catch]. *)

From Stdlib Require Import QArith Ascii.
From stdpp Require Import base option list strings pretty gmap sorting.

Local Open Scope string_scope.
Local Open Scope Z_scope.

(** ** JavaScript values *)

Module Js.

(** Truthiness of a string and of a number: the empty string and [0] are
    falsy. *)
Definition truthy_string (s : string) : bool := negb (String.eqb s "").
Definition truthy_number (z : Z) : bool := negb (z =? 0).

(** [x || null] on an optional string: an empty string becomes [null]. *)
Definition string_or_null (o : option string) : option string :=
  match o with
  | Some s => if truthy_string s then Some s else None
  | None => None
  end.

(** [x || null] on an optional number: [0] becomes [null]. *)
Definition number_or_null (o : option Z) : option Z :=
  match o with
  | Some z => if truthy_number z then Some z else None
  | None => None
  end.

(** White space as [String.prototype.trim] and [parseInt] see it (the
    ASCII part: tab, line feed, vertical tab, form feed, carriage return,
    space). *)
Definition is_ws (c : ascii) : bool :=
  let n := Z.of_N (N_of_ascii c) in
  (n =? 32) || ((9 <=? n) && (n <=? 13)).

Fixpoint trimStart (s : string) : string :=
  match s with
  | String c r => if is_ws c then trimStart r else s
  | EmptyString => EmptyString
  end.

Definition trimEnd (s : string) : string :=
  String.rev (trimStart (String.rev s)).

Definition trim (s : string) : string := trimEnd (trimStart s).

Definition digit_of (c : ascii) : option Z :=
  let n := Z.of_N (N_of_ascii c) in
  if (48 <=? n) && (n <=? 57) then Some (n - 48) else None.

(** The longest prefix of decimal digits, as a number; [None] when the
    prefix is empty. *)
Fixpoint digits (acc : option Z) (s : string) : option Z :=
  match s with
  | String c r =>
      match digit_of c with
      | Some d => digits (Some (10 * default 0 acc + d)) r
      | None => acc
      end
  | EmptyString => acc
  end.

(** [parseInt(s, 10)]; [None] is [NaN]. *)
Definition parseInt (s : string) : option Z :=
  match trimStart s with
  | String "-"%char r => Z.opp <$> digits None r
  | String "+"%char r => digits None r
  | r => digits None r
  end.

(** [s.split('\n')]. *)
Fixpoint split_lines_go (cur : string) (s : string) : list string :=
  match s with
  | String c r =>
      if Ascii.eqb c "010"%char
      then String.rev cur :: split_lines_go "" r
      else split_lines_go (String c cur) r
  | EmptyString => [String.rev cur]
  end.

Definition split_lines (s : string) : list string := split_lines_go "" s.

(** [Number.prototype.toString] on an integer. *)
Definition toString (z : Z) : string := pretty z.

End Js.

(** ** Exceptions *)

(** What a rejected promise carries.  [process.kill] raises a system error
    whose [code] the callers inspect; everything else is only ever turned
    into text by [String(error)]. *)
Inductive Exn :=
| ESRCH                     (* kill: no such process *)
| EPERM                     (* kill: operation not permitted *)
| ENOENT                    (* fs: no such file *)
| EACCES                    (* fs: permission denied *)
| ExecFailed (cmd : string) (* child_process.exec: non-zero exit status *)
| FetchFailed (msg : string)(* fetch: network failure *)
| DbError (msg : string)    (* a failing query, rethrown by db.ts *)
| JsError (msg : string).   (* throw new Error(msg) *)

Definition exn_to_string (e : Exn) : string :=
  match e with
  | ESRCH => "Error: kill ESRCH"
  | EPERM => "Error: kill EPERM"
  | ENOENT => "Error: ENOENT: no such file or directory"
  | EACCES => "Error: EACCES: permission denied"
  | ExecFailed cmd => "Error: Command failed: " +:+ cmd
  | FetchFailed msg => "TypeError: " +:+ msg
  | DbError msg => "Error: " +:+ msg
  | JsError msg => "Error: " +:+ msg
  end.

Definition is_ESRCH (e : Exn) : bool :=
  match e with ESRCH => true | _ => false end.

Inductive Res (A : Type) :=
| Ok (a : A)
| Throw (e : Exn).
Arguments Ok {A} a.
Arguments Throw {A} e.

(** ** The world *)

(** *** Operating system: pid file and process table *)

Inductive Signal := SIG0 | SIGTERM | SIGKILL.

(** A process-table entry; the table maps a pid to its entry.  An entry is
    kept after the process has exited, with [proc_exitAt] in the past, until
    the pid is used again.  [proc_termDelay] is how long the process takes
    to exit once it receives SIGTERM ([None]: it ignores SIGTERM);
    [proc_listenFrom] is the time from which it accepts connections on the
    gateway port. *)
Record Proc := {
  proc_matches : bool;        (* command line matches "openclaw.*gateway" *)
  proc_signalable : bool;     (* false: kill(2) answers EPERM *)
  proc_termDelay : option Z;
  proc_exitAt : option Z;
  proc_listenFrom : option Z;
  proc_startedAt : Z;
  proc_pcpu : Q;
  proc_rss : Z;               (* KB *)
}.

Definition proc_live (t : Z) (p : Proc) : bool :=
  match proc_exitAt p with
  | Some e => t <? e
  | None => true
  end.

Definition proc_listening (t : Z) (p : Proc) : bool :=
  proc_live t p &&
  match proc_listenFrom p with
  | Some l => l <=? t
  | None => false
  end.

Definition proc_set_exitAt (e : option Z) (p : Proc) : Proc :=
  {| proc_matches := proc_matches p;
     proc_signalable := proc_signalable p; proc_termDelay := proc_termDelay p;
     proc_exitAt := e; proc_listenFrom := proc_listenFrom p;
     proc_startedAt := proc_startedAt p; proc_pcpu := proc_pcpu p;
     proc_rss := proc_rss p |}.

(** What the next [spawn] yields: a child without pid (the binary was not
    found), or a new process under a pid. *)
Inductive SpawnOutcome :=
| SpawnNoPid
| SpawnChild (pid : positive) (p : Proc).

(** The gateway's log file /tmp/openclaw/openclaw.log, as [start] meets
    it: it can be opened for appending, or it cannot (it belongs to another
    user, say).  The directory /tmp/openclaw, which holds the pid file as
    well, is taken to exist and to be writable throughout. *)
Inductive LogFile := LogReady | LogFileDenied.

Record OS := {
  pidFile : option string;          (* content of PID_FILE, if it exists *)
  procs : gmap positive Proc;
  spawnQueue : list SpawnOutcome;
  logFile : LogFile;
}.

(** *** Telegram Bot API *)

Record WebhookInfo := {
  url : string;
  has_custom_certificate : bool;
  pending_update_count : Z;
  last_error_date : option Z;
  last_error_message : option string;
}.

(** How the provider answers one request: the request does not get through,
    the HTTP status is not 2xx, the body says [ok: false], or the request is
    served. *)
Inductive FetchOutcome :=
| NetworkError (msg : string)
| HttpError (statusText : string)
| ApiError (description : option string)
| Served.

Record Reply := {
  latency : N;                      (* ms *)
  outcome : FetchOutcome;
}.

(** The provider holds the subscription; [script] fixes the outcome of the
    coming requests, one entry per request, and a request beyond the script
    is served at once. *)
Record Telegram := {
  subscription : WebhookInfo;
  script : list Reply;
}.

(** *** Database (drizzle/schema.ts) *)

(** [getDb()] yields [null] without a connection; with one, a query can still
    fail. *)
Inductive DbStatus := DbUnavailable | DbFailing | DbHealthy.

Record GatewaySetting := {
  value : string;
  description : option string;
}.

Inductive TriggerType := manual | webhook_check | health_check | scheduled.

Record GatewayRestartLog := {
  triggerType : TriggerType;
  triggerUserId : option string;
  reason : option string;
  oldPid : option Z;
  newPid : option Z;
  success : bool;
  errorMessage : option string;
  durationMs : Z;
  createdAt : Z;                    (* TIMESTAMP: whole seconds since the
                                       epoch, set by the database *)
}.

Module ActionTaken.
Inductive t := none | restart | alert.
End ActionTaken.

Record WebhookStatusLog := {
  checkTimestamp : Z;
  webhookUrl : option string;
  isActive : bool;
  pendingUpdateCount : Z;
  lastErrorDate : option Z;
  lastErrorMessage : option string;
  responseTimeMs : Z;
  actionTaken : ActionTaken.t;
}.

(** A Telegram row of [channel_configs], after [decryptConfig]. *)
Record ChannelConfig := {
  enabled : bool;
  botToken : option string;
}.

Record Database := {
  dbStatus : DbStatus;
  gatewaySettings : gmap string GatewaySetting;   (* [key] is unique *)
  gatewayRestartLogs : list GatewayRestartLog;    (* oldest first *)
  webhookStatusLogs : list WebhookStatusLog;      (* oldest first *)
  channelConfigs : list ChannelConfig;            (* by createdAt *)
}.

(** *** Calls, for the record *)

(** The trace is ghost state: it records which operations were invoked and
    when, so that "never invokes restart" can be stated.  No code reads it. *)
Inductive Call :=
| CallStart
| CallStop
| CallRestart (reason : option string).

Record World := {
  now : Z;                          (* Date.now(), ms *)
  os : OS;
  telegram : Telegram;
  database : Database;
  alerts : list (string * string);  (* what notifyOwner has sent *)
  trace : list (Z * Call);          (* newest first *)
}.

Definition set_now (f : Z -> Z) (w : World) : World :=
  {| now := f (now w); os := os w; telegram := telegram w;
     database := database w; alerts := alerts w; trace := trace w |}.
Definition set_os (f : OS -> OS) (w : World) : World :=
  {| now := now w; os := f (os w); telegram := telegram w;
     database := database w; alerts := alerts w; trace := trace w |}.
Definition set_telegram (f : Telegram -> Telegram) (w : World) : World :=
  {| now := now w; os := os w; telegram := f (telegram w);
     database := database w; alerts := alerts w; trace := trace w |}.
Definition set_database (f : Database -> Database) (w : World) : World :=
  {| now := now w; os := os w; telegram := telegram w;
     database := f (database w); alerts := alerts w; trace := trace w |}.
Definition set_alerts (f : list (string * string) -> list (string * string))
    (w : World) : World :=
  {| now := now w; os := os w; telegram := telegram w;
     database := database w; alerts := f (alerts w); trace := trace w |}.
Definition set_trace (f : list (Z * Call) -> list (Z * Call)) (w : World)
    : World :=
  {| now := now w; os := os w; telegram := telegram w;
     database := database w; alerts := alerts w; trace := f (trace w) |}.

(** ** The monad of asynchronous methods *)

Definition M (A : Type) : Type := World -> Res A * World.

Definition ret {A} (a : A) : M A := fun w => (Ok a, w).

Definition bind {A B} (m : M A) (k : A -> M B) : M B :=
  fun w =>
    match m w with
    | (Ok a, w') => k a w'
    | (Throw e, w') => (Throw e, w')
    end.

Definition throw {A} (e : Exn) : M A := fun w => (Throw e, w).

(** [try { m } catch (e) { h e }] *)
Definition try_catch {A} (m : M A) (h : Exn -> M A) : M A :=
  fun w =>
    match m w with
    | (Ok a, w') => (Ok a, w')
    | (Throw e, w') => h e w'
    end.

Definition gets {A} (f : World -> A) : M A := fun w => (Ok (f w), w).
Definition modify (f : World -> World) : M unit := fun w => (Ok tt, f w).

#[global] Instance M_ret : MRet M := @ret.
#[global] Instance M_bind : MBind M := fun A B k m => bind m k.

(** [Date.now()] *)
Definition dateNow : M Z := gets now.

(** [await new Promise(resolve => setTimeout(resolve, ms))] *)
Definition sleep (ms : Z) : M unit := modify (set_now (fun t => t + ms)).

Definition record (c : Call) : M unit :=
  modify (fun w => set_trace (cons (now w, c)) w).

(** ** Operating-system primitives *)

Module Sys.

Definition nl : string := String "010"%char "".

Definition set_procs (f : gmap positive Proc -> gmap positive Proc)
    (o : OS) : OS :=
  {| pidFile := pidFile o; procs := f (procs o);
     spawnQueue := spawnQueue o; logFile := logFile o |}.

Definition set_pidFile (c : option string) (o : OS) : OS :=
  {| pidFile := c; procs := procs o; spawnQueue := spawnQueue o;
     logFile := logFile o |}.

(** The live process with this pid, if any. *)
Definition find_proc (w : World) (pid : Z) : option Proc :=
  match pid with
  | Z.pos p =>
      match procs (os w) !! p with
      | Some q => if proc_live (now w) q then Some q else None
      | None => None
      end
  | _ => None
  end.

(** Does [kill(pid, 0)] succeed?  This is the signal probe by which the
    supervisor decides that a process is alive. *)
Definition probe (w : World) (pid : Z) : bool :=
  (pid =? 0) ||
  match find_proc w pid with
  | Some q => proc_signalable q
  | None => false
  end.

(** A process is alive, as the signal probe sees it: the table has a live
    entry under this pid, and the supervisor may signal it. *)
Definition alive (w : World) (pid : Z) : Prop :=
  exists q, find_proc w pid = Some q /\ proc_signalable q = true.

(** A signal reaches a process at time [t]. *)
Definition deliver (t : Z) (sig : Signal) (p : Proc) : Proc :=
  match sig with
  | SIG0 => p
  | SIGTERM =>
      match proc_termDelay p with
      | Some d =>
          let e := match proc_exitAt p with
                   | Some e0 => Z.min e0 (t + d)
                   | None => t + d
                   end in
          proc_set_exitAt (Some e) p
      | None => p
      end
  | SIGKILL => proc_set_exitAt (Some t) p
  end.

(** [process.kill(pid, sig)].  Signal 0 only checks existence and
    permission.  Pid 0 addresses the caller's own process group, which is
    outside the table; the callers never pass it. *)
Definition process_kill (pid : Z) (sig : Signal) : M unit :=
  fun w =>
    if pid =? 0 then (Ok tt, w)
    else
      match find_proc w pid with
      | None => (Throw ESRCH, w)
      | Some q =>
          if proc_signalable q then
            match sig with
            | SIG0 => (Ok tt, w)
            | _ =>
                (Ok tt,
                 set_os (set_procs
                   (alter (deliver (now w) sig) (Z.to_pos pid))) w)
            end
          else (Throw EPERM, w)
      end.

(** [fs.readFile(PID_FILE, 'utf-8')] *)
Definition readPidFile : M string :=
  fun w =>
    match pidFile (os w) with
    | Some s => (Ok s, w)
    | None => (Throw ENOENT, w)
    end.

(** [fs.mkdir(dirname(PID_FILE), {recursive: true})] then
    [fs.writeFile(PID_FILE, s, 'utf-8')]; the directory is taken to exist
    and the pid file to be writable, so neither call throws. *)
Definition writePidFile (s : string) : M unit :=
  modify (set_os (set_pidFile (Some s))).

(** [fs.unlink(PID_FILE)] *)
Definition unlinkPidFile : M unit :=
  fun w =>
    match pidFile (os w) with
    | Some _ => (Ok tt, set_os (set_pidFile None) w)
    | None => (Throw ENOENT, w)
    end.

(** [fs.mkdir(dirname(LOG_FILE), {recursive: true})]: the directory is
    the pid file's, which exists, so the call changes nothing and does not
    throw. *)
Definition mkdirLogDir : M unit := mret tt.

(** [fs.open(LOG_FILE, 'a')]; the streams piped into it are not part of
    the world. *)
Definition openLogFile : M unit :=
  fun w =>
    match logFile (os w) with
    | LogReady => (Ok tt, w)
    | LogFileDenied => (Throw EACCES, w)
    end.

(** The pids of the live processes that satisfy [f], in ascending order. *)
Definition live_pids (f : Proc -> bool) (w : World) : list positive :=
  merge_sort Pos.le
    (List.map fst
       (List.filter (fun kv => f (snd kv) && proc_live (now w) (snd kv))
          (map_to_list (procs (os w))))).

Definition print_pids (l : list positive) : string :=
  foldr (fun p acc => Js.toString (Z.pos p) +:+ nl +:+ acc) "" l.

(** [execAsync('pgrep -f "openclaw.*gateway"')]: one pid per line, exit
    status 1 when nothing matches. *)
Definition pgrep : M string :=
  fun w =>
    match live_pids proc_matches w with
    | [] => (Throw (ExecFailed "pgrep -f openclaw.*gateway"), w)
    | l => (Ok (print_pids l), w)
    end.

(** [execAsync(`lsof -i :${port} -t`)]: the pids that listen on the port,
    exit status 1 when there is none. *)
Definition lsof : M string :=
  fun w =>
    match live_pids (proc_listening (now w)) w with
    | [] => (Throw (ExecFailed "lsof -i :18789 -t"), w)
    | l => (Ok (print_pids l), w)
    end.

(** [execAsync(`ps -p ${pid} -o etimes,pcpu,rss --no-headers`)], with the
    three columns already read as numbers (seconds, percent, KB). *)
Definition ps (pid : Z) : M (Z * Q * Z) :=
  fun w =>
    match find_proc w pid with
    | Some p =>
        (Ok ((now w - proc_startedAt p) / 1000, proc_pcpu p, proc_rss p), w)
    | None => (Throw (ExecFailed "ps -p"), w)
    end.

(** [spawn('pnpm', ['openclaw', 'gateway'], ...)] and its [.pid]. *)
Definition spawn : M (option Z) :=
  fun w =>
    match spawnQueue (os w) with
    | [] => (Ok None, w)
    | SpawnNoPid :: q =>
        (Ok None, set_os (fun o =>
           {| pidFile := pidFile o; procs := procs o; spawnQueue := q;
              logFile := logFile o |}) w)
    | SpawnChild pid p :: q =>
        (Ok (Some (Z.pos pid)), set_os (fun o =>
           {| pidFile := pidFile o; procs := <[pid := p]> (procs o);
              spawnQueue := q; logFile := logFile o |}) w)
    end.

End Sys.

(** ** GatewayProcessManager *)

Module Status.
Inductive t := running | stopped | error.
End Status.

Module GatewayStatus.
Record t := mk {
  status : Status.t;
  pid : option Z;
  port : Z;
  uptime : Z;                     (* seconds *)
  cpuUsage : Q;                   (* percentage *)
  memoryUsage : Q;                (* MB *)
  lastRestart : option Z;
}.
End GatewayStatus.

Module StartResult.
Record t := mk { success : bool; pid : option Z; message : string }.
End StartResult.

Module StopResult.
Record t := mk { success : bool; message : string }.
End StopResult.

Module RestartResult.
Record t := mk {
  success : bool;
  oldPid : option Z;
  newPid : option Z;
  duration : Z;                   (* milliseconds *)
  message : string;
  error : option string;
}.
End RestartResult.

Module Metrics.
Record t := mk { uptime : Z; cpuUsage : Q; memoryUsage : Q }.
End Metrics.

Module GatewayProcessManager.

Definition DEFAULT_PORT : Z := 18789.
Definition STARTUP_TIMEOUT : Z := 30000.
Definition SHUTDOWN_TIMEOUT : Z := 10000.

Definition savePid (pid : Z) : M unit :=
  Sys.writePidFile (Js.toString pid).

Definition clearPidFile : M unit :=
  try_catch Sys.unlinkPidFile (fun _ => mret tt).

Definition isProcessRunning (pid : Z) : M bool :=
  try_catch (Sys.process_kill pid SIG0;; mret true) (fun _ => mret false).

(** [stdout.trim().split('\n').filter(Boolean)] and the parse of its last
    element. *)
Definition last_pid (stdout : string) : option Z :=
  let pids := List.filter Js.truthy_string
                (Js.split_lines (Js.trim stdout)) in
  match last pids with
  | Some l => Js.parseInt l
  | None => None
  end.

Definition getCurrentPid : M (option Z) :=
  try_catch
    (pidContent ← Sys.readPidFile;
     mret (Js.parseInt (Js.trim pidContent)))
    (fun _ =>
       try_catch
         (stdout ← Sys.pgrep;
          match last_pid stdout with
          | Some pid => savePid pid;; mret (Some pid)
          | None => mret None
          end)
         (fun _ => mret None)).

(** What the process-table scan of [getCurrentPid] finds. *)
Definition discovered (w : World) : option Z :=
  match Sys.pgrep w with
  | (Ok stdout, _) => last_pid stdout
  | (Throw _, _) => None
  end.

(** The pid the pid file records. *)
Definition recorded (w : World) : option Z :=
  match pidFile (os w) with
  | Some pidContent => Js.parseInt (Js.trim pidContent)
  | None => None
  end.

Definition isPortListening : M bool :=
  try_catch
    (stdout ← Sys.lsof;
     mret (Js.truthy_string (Js.trim stdout)))
    (fun _ => mret false).

Definition number_or_zero (q : Q) : Q :=
  if Qeq_bool q 0 then 0%Q else q.

Definition getProcessMetrics (pid : Z) : M Metrics.t :=
  try_catch
    ('(uptime, cpu, rss) ← Sys.ps pid;
     mret (Metrics.mk uptime (number_or_zero cpu)
             (number_or_zero (inject_Z rss / 1024)%Q)))
    (fun _ => mret (Metrics.mk 0 0%Q 0%Q)).

(** The polling loops run while [Date.now() - startTime < timeout]; every
    round sleeps, so [fuel] rounds suffice when [fuel * step >= timeout]
    (see [waitForShutdown_loop_fuel]). *)
Fixpoint waitForStartup_loop (fuel : nat) (pid startTime : Z) : M bool :=
  match fuel with
  | O => mret false
  | S n =>
      t ← dateNow;
      if t - startTime <? STARTUP_TIMEOUT then
        alive ← isProcessRunning pid;
        if negb alive then mret false
        else
          listening ← isPortListening;
          if (listening : bool) then mret true
          else sleep 1000;; waitForStartup_loop n pid startTime
      else mret false
  end.

Definition waitForStartup (pid : Z) : M bool :=
  startTime ← dateNow;
  waitForStartup_loop (Z.to_nat (STARTUP_TIMEOUT / 1000) + 1) pid startTime.

Fixpoint waitForShutdown_loop (fuel : nat) (pid startTime timeout : Z)
    : M bool :=
  match fuel with
  | O => mret false
  | S n =>
      t ← dateNow;
      if t - startTime <? timeout then
        alive ← isProcessRunning pid;
        if negb alive then mret true
        else sleep 500;; waitForShutdown_loop n pid startTime timeout
      else mret false
  end.

Definition waitForShutdown (pid timeout : Z) : M bool :=
  startTime ← dateNow;
  waitForShutdown_loop (Z.to_nat (timeout / 500) + 1) pid startTime timeout.

Definition stopped_status (s : Status.t) : GatewayStatus.t :=
  GatewayStatus.mk s None DEFAULT_PORT 0 0%Q 0%Q None.

Definition getStatus : M GatewayStatus.t :=
  try_catch
    (pid ← getCurrentPid;
     match Js.number_or_null pid with
     | None => mret (stopped_status Status.stopped)
     | Some pid =>
         isRunning ← isProcessRunning pid;
         if negb isRunning then
           clearPidFile;; mret (stopped_status Status.stopped)
         else
           metrics ← getProcessMetrics pid;
           mret (GatewayStatus.mk Status.running (Some pid) DEFAULT_PORT
                   (Metrics.uptime metrics) (Metrics.cpuUsage metrics)
                   (Metrics.memoryUsage metrics) None)
     end)
    (fun _ => mret (stopped_status Status.error)).

Definition stop : M StopResult.t :=
  record CallStop;;
  try_catch
    (pid ← getCurrentPid;
     match Js.number_or_null pid with
     | None => mret (StopResult.mk true "Gateway is not running")
     | Some pid =>
         gone ← try_catch
           (Sys.process_kill pid SIGTERM;; mret false)
           (fun e =>
              if is_ESRCH e then clearPidFile;; mret true else throw e);
         if (gone : bool) then
           mret (StopResult.mk true "Gateway process was not running")
         else
           stopped ← waitForShutdown pid SHUTDOWN_TIMEOUT;
           (if negb stopped then
              try_catch (Sys.process_kill pid SIGKILL)
                (fun e => if negb (is_ESRCH e) then throw e else mret tt);;
              sleep 1000
            else mret tt);;
           clearPidFile;;
           mret (StopResult.mk true "Gateway stopped successfully")
     end)
    (fun e =>
       mret (StopResult.mk false
               ("Failed to stop Gateway: " +:+ exn_to_string e))).

(** [start()].  Of its file-system steps, the two on the directory and the
    pid file ([fs.mkdir], [savePid]) do not throw in the worlds modelled
    here, and [fs.open] of the log file throws when the file cannot be
    opened: that is the throw after the spawn which the outer [catch]
    turns into "Failed to start Gateway", with the child left running. *)
Definition start : M StartResult.t :=
  record CallStart;;
  try_catch
    (currentPid ← getCurrentPid;
     alreadyRunning ←
       match Js.number_or_null currentPid with
       | Some p => isProcessRunning p
       | None => mret false
       end;
     if (alreadyRunning : bool) then
       mret (StartResult.mk false currentPid
               ("Gateway is already running with PID " +:+
                Js.toString (default 0 currentPid)))
     else
       Sys.mkdirLogDir;;
       child ← Sys.spawn;
       match Js.number_or_null child with
       | None =>
           mret (StartResult.mk false None
                   "Failed to spawn Gateway process")
       | Some childPid =>
           savePid childPid;;
           Sys.openLogFile;;
           started ← waitForStartup childPid;
           if negb started then
             stop;;
             mret (StartResult.mk false None
                     "Gateway failed to start within timeout period")
           else
             mret (StartResult.mk true (Some childPid)
                     ("Gateway started successfully with PID " +:+
                      Js.toString childPid))
       end)
    (fun e =>
       mret (StartResult.mk false None
               ("Failed to start Gateway: " +:+ exn_to_string e))).

Definition healthCheck : M bool :=
  try_catch
    (pid ← getCurrentPid;
     alive ←
       match Js.number_or_null pid with
       | Some p => isProcessRunning p
       | None => mret false
       end;
     if negb alive then mret false
     else
       portListening ← isPortListening;
       if negb portListening then mret false else mret true)
    (fun _ => mret false).

Definition restart (reason : option string) : M RestartResult.t :=
  record (CallRestart reason);;
  startTime ← dateNow;
  try_catch
    (oldPid ← getCurrentPid;
     stopResult ← stop;
     if negb (StopResult.success stopResult) then
       t ← dateNow;
       mret (RestartResult.mk false oldPid None (t - startTime)
               "Failed to stop old process"
               (Some (StopResult.message stopResult)))
     else
       sleep 2000;;
       startResult ← start;
       t ← dateNow;
       let duration := t - startTime in
       if negb (StartResult.success startResult) then
         mret (RestartResult.mk false oldPid None duration
                 "Failed to start new process"
                 (Some (StartResult.message startResult)))
       else
         sleep 3000;;
         healthy ← healthCheck;
         if negb healthy then
           mret (RestartResult.mk false oldPid
                   (StartResult.pid startResult) duration
                   "New process started but health check failed" None)
         else
           mret (RestartResult.mk true oldPid
                   (StartResult.pid startResult) duration
                   ("Gateway restarted successfully in " +:+
                    Js.toString duration +:+ "ms") None))
    (fun e =>
       t ← dateNow;
       mret (RestartResult.mk false None None (t - startTime)
               "Failed to restart Gateway" (Some (exn_to_string e)))).

End GatewayProcessManager.

(** ** server/db.ts, gateway part *)

Module InsertGatewayRestartLog.
Record t := mk {
  triggerType : TriggerType;
  triggerUserId : option string;
  reason : option string;
  oldPid : option Z;
  newPid : option Z;
  success : bool;
  errorMessage : option string;
  durationMs : Z;
}.
End InsertGatewayRestartLog.

Module Db.

Definition set_settings (f : gmap string GatewaySetting ->
                             gmap string GatewaySetting) (d : Database)
    : Database :=
  {| dbStatus := dbStatus d; gatewaySettings := f (gatewaySettings d);
     gatewayRestartLogs := gatewayRestartLogs d;
     webhookStatusLogs := webhookStatusLogs d;
     channelConfigs := channelConfigs d |}.

Definition set_restartLogs (f : list GatewayRestartLog ->
                                list GatewayRestartLog) (d : Database)
    : Database :=
  {| dbStatus := dbStatus d; gatewaySettings := gatewaySettings d;
     gatewayRestartLogs := f (gatewayRestartLogs d);
     webhookStatusLogs := webhookStatusLogs d;
     channelConfigs := channelConfigs d |}.

Definition set_webhookLogs (f : list WebhookStatusLog ->
                                list WebhookStatusLog) (d : Database)
    : Database :=
  {| dbStatus := dbStatus d; gatewaySettings := gatewaySettings d;
     gatewayRestartLogs := gatewayRestartLogs d;
     webhookStatusLogs := f (webhookStatusLogs d);
     channelConfigs := channelConfigs d |}.

(** [getDb()]: is there a connection? *)
Definition getDb : M bool :=
  gets (fun w =>
    match dbStatus (database w) with
    | DbUnavailable => false
    | _ => true
    end).

(** A statement on the connection: it fails when the database does. *)
Definition query {A} (f : World -> A * World) : M A :=
  fun w =>
    match dbStatus (database w) with
    | DbHealthy => let '(a, w') := f w in (Ok a, w')
    | _ => (Throw (DbError "query failed"), w)
    end.

Definition getGatewaySetting (key : string) (defaultValue : option string)
    : M (option string) :=
  db ← getDb;
  if negb db then mret (Js.string_or_null defaultValue)
  else
    try_catch
      (results ← query (fun w => (gatewaySettings (database w) !! key, w));
       match (results : option GatewaySetting) with
       | Some row => mret (Some (value row))
       | None =>
           match defaultValue with
           | Some d =>
               query (fun w =>
                 (tt, set_database (set_settings
                        <[key := {| value := d; description := None |}]>)
                        w));;
               mret (Some d)
           | None => mret None
           end
       end)
      (fun _ => mret (Js.string_or_null defaultValue)).

Definition setGatewaySetting (key value : string)
    (description : option string) : M unit :=
  db ← getDb;
  if negb db then mret tt
  else
    try_catch
      (existing ← query (fun w =>
                           (gatewaySettings (database w) !! key, w));
       match (existing : option GatewaySetting) with
       | Some row =>
           query (fun w =>
             (tt, set_database (set_settings
                    <[key := {| value := value;
                                description :=
                                  match Js.string_or_null description with
                                  | Some d => Some d
                                  | None => let '{| description := old |} := row in old
                                  end |}]>) w))
       | None =>
           query (fun w =>
             (tt, set_database (set_settings
                    <[key := {| value := value;
                                description :=
                                  Js.string_or_null description |}]>) w))
       end)
      (fun e => throw e).

Definition stamp (t : Z) (log : InsertGatewayRestartLog.t)
    : GatewayRestartLog :=
  {| triggerType := InsertGatewayRestartLog.triggerType log;
     triggerUserId := InsertGatewayRestartLog.triggerUserId log;
     reason := InsertGatewayRestartLog.reason log;
     oldPid := InsertGatewayRestartLog.oldPid log;
     newPid := InsertGatewayRestartLog.newPid log;
     success := InsertGatewayRestartLog.success log;
     errorMessage := InsertGatewayRestartLog.errorMessage log;
     durationMs := InsertGatewayRestartLog.durationMs log;
     createdAt := t |}.

(** The row gets [createdAt] from the database: the column is
    [timestamp NOT NULL DEFAULT (now())], whole seconds.  The database's
    clock is taken to be the clock of [Date.now()]. *)
Definition insertGatewayRestartLog (log : InsertGatewayRestartLog.t)
    : M unit :=
  db ← getDb;
  if negb db then mret tt
  else
    try_catch
      (query (fun w =>
         (tt, set_database (set_restartLogs
                (fun l => (l ++ [stamp (now w / 1000) log])%list)) w)))
      (fun e => throw e).

(** The rows with [UNIX_TIMESTAMP(createdAt) * 1000 >= cutoffTime]. *)
Definition recent_restarts (cutoffTime : Z) (l : list GatewayRestartLog)
    : list GatewayRestartLog :=
  List.filter (fun r => cutoffTime <=? createdAt r * 1000) l.

Definition getRecentRestartAttempts (windowMinutes : Z) : M Z :=
  db ← getDb;
  if negb db then mret 0
  else
    try_catch
      (t ← dateNow;
       let cutoffTime := t - windowMinutes * 60 * 1000 in
       results ← query (fun w =>
         (recent_restarts cutoffTime (gatewayRestartLogs (database w)), w));
       mret (Z.of_nat (length (results : list GatewayRestartLog))))
      (fun _ => mret 0).

Definition insertWebhookStatusLog (log : WebhookStatusLog) : M unit :=
  db ← getDb;
  if negb db then mret tt
  else
    try_catch
      (query (fun w =>
         (tt, set_database (set_webhookLogs (fun l => (l ++ [log])%list)) w)))
      (fun e => throw e).

(** The first enabled Telegram config, or else the first one, and its bot
    token. *)
Definition getTelegramBotToken : M (option string) :=
  db ← getDb;
  if negb db then mret None
  else
    try_catch
      (result ← query (fun w => (channelConfigs (database w), w));
       let enabledConfig := List.find enabled (result : list ChannelConfig) in
       let config := match enabledConfig with
                     | Some c => Some c
                     | None => head result
                     end in
       match config with
       | None => mret None
       | Some c => mret (Js.string_or_null (botToken c))
       end)
      (fun _ => mret None).

End Db.

(** Modelled from the spec: [notifyOwner] of [_core/notification], which is
    not part of the sources.  The spec (section 6): "Alert notifier:
    notify(title, body) -- fire-and-forget, failures ignored".  The
    notification is appended to [alerts]; the call never throws. *)
Definition notifyOwner (title content : string) : M bool :=
  modify (set_alerts (fun l => (l ++ [(title, content)])%list));; mret true.

(** ** WebhookPollerService *)

(** The three Bot API methods the poller calls. *)
Inductive Request :=
| GetWebhookInfo
| SetWebhook (target : string)
| DeleteWebhook.

(** The JSON body of an answer. *)
Record Body := {
  body_ok : bool;
  body_result : option WebhookInfo;
  body_description : option string;
}.

(** A [Response] of [fetch], with its body already read. *)
Record Response := {
  resp_ok : bool;
  resp_statusText : string;
  resp_json : Body;
}.

Module Tg.

Definition set_url (u : string) (i : WebhookInfo) : WebhookInfo :=
  {| url := u; has_custom_certificate := has_custom_certificate i;
     pending_update_count := pending_update_count i;
     last_error_date := last_error_date i;
     last_error_message := last_error_message i |}.

(** What a served request does to the subscription and what it answers. *)
Definition serve (req : Request) (i : WebhookInfo) : WebhookInfo * Body :=
  match req with
  | GetWebhookInfo =>
      (i, {| body_ok := true; body_result := Some i;
             body_description := None |})
  | SetWebhook target =>
      (set_url target i,
       {| body_ok := true; body_result := None;
          body_description := Some "Webhook was set" |})
  | DeleteWebhook =>
      (set_url "" i,
       {| body_ok := true; body_result := None;
          body_description := Some "Webhook was deleted" |})
  end.

(** [await fetch(`https://api.telegram.org/bot${botToken}/...`)] followed
    by [await response.json()]. *)
Definition fetch (req : Request) : M Response :=
  fun w =>
    let tg := telegram w in
    let '(reply, rest) :=
      match script tg with
      | r :: rest => (r, rest)
      | [] => ({| latency := 0%N; outcome := Served |}, [])
      end in
    let w1 := set_now (fun t => t + Z.of_N (latency reply)) w in
    let keep := set_telegram (fun g =>
      {| subscription := subscription g; script := rest |}) w1 in
    match outcome reply with
    | NetworkError msg => (Throw (FetchFailed msg), keep)
    | HttpError statusText =>
        (Ok {| resp_ok := false; resp_statusText := statusText;
               resp_json := {| body_ok := false; body_result := None;
                               body_description := None |} |}, keep)
    | ApiError d =>
        (Ok {| resp_ok := true; resp_statusText := "OK";
               resp_json := {| body_ok := false; body_result := None;
                               body_description := d |} |}, keep)
    | Served =>
        let '(i, b) := serve req (subscription tg) in
        (Ok {| resp_ok := true; resp_statusText := "OK"; resp_json := b |},
         set_telegram (fun g => {| subscription := i; script := rest |}) w1)
    end.

End Tg.

Module WebhookStatus.
Record t := mk {
  isActive : bool;
  url : option string;
  pendingUpdateCount : Z;
  lastErrorDate : option Z;
  lastErrorMessage : option string;
}.
End WebhookStatus.

Module ApplyResult.
Record t := mk { success : bool; message : string; url : option string }.
End ApplyResult.

Module DeleteResult.
Record t := mk { success : bool; message : string }.
End DeleteResult.

Module WebhookPoller.

Import GatewayProcessManager.

Definition getBotToken : M (option string) :=
  try_catch
    (botToken ← Db.getTelegramBotToken;
     match Js.string_or_null botToken with
     | None => mret None
     | Some t => mret (Some t)
     end)
    (fun _ => mret None).

(** [!!(info.url && (!info.last_error_date || info.pending_update_count === 0))] *)
Definition is_active (info : WebhookInfo) : bool :=
  Js.truthy_string (url info) &&
  (negb (match last_error_date info with
         | Some d => Js.truthy_number d
         | None => false
         end)
   || (pending_update_count info =? 0)).

Definition checkWebhookStatus : M WebhookStatus.t :=
  try_catch
    (botToken ← getBotToken;
     match botToken with
     | None =>
         mret (WebhookStatus.mk false None 0 None
                 (Some "Bot token not configured"))
     | Some _ =>
         response ← Tg.fetch GetWebhookInfo;
         if negb (resp_ok response) then
           throw (JsError ("Telegram API error: " +:+
                           resp_statusText response))
         else
           let data := resp_json response in
           if negb (body_ok data) then
             throw (JsError "Telegram API returned ok: false")
           else
             match body_result data with
             | None =>
                 throw (JsError "Cannot read properties of undefined")
             | Some info =>
                 mret (WebhookStatus.mk (is_active info)
                         (Js.string_or_null (Some (url info)))
                         (pending_update_count info)
                         (last_error_date info)
                         (last_error_message info))
             end
     end)
    (fun e =>
       mret (WebhookStatus.mk false None 0 None (Some (exn_to_string e)))).

Definition api_error (d : option string) : string :=
  "Telegram API error: " +:+
  default "Unknown error" (Js.string_or_null d).

Definition applyWebhook : M ApplyResult.t :=
  try_catch
    (productionUrl ← Db.getGatewaySetting "production_webhook_url" None;
     match Js.string_or_null productionUrl with
     | None =>
         mret (ApplyResult.mk false
                 "Production webhook URL not configured. Please set it first."
                 None)
     | Some productionUrl =>
         botToken ← getBotToken;
         match botToken with
         | None =>
             mret (ApplyResult.mk false
                     "Bot token not found in config. Please configure Telegram channel first."
                     None)
         | Some _ =>
             response ← Tg.fetch (SetWebhook productionUrl);
             if negb (resp_ok response) then
               mret (ApplyResult.mk false
                       ("Telegram API error: " +:+ resp_statusText response)
                       None)
             else
               let data := resp_json response in
               if body_ok data then
                 mret (ApplyResult.mk true "Webhook applied successfully"
                         (Some productionUrl))
               else
                 mret (ApplyResult.mk false
                         (api_error (body_description data)) None)
         end
     end)
    (fun e => mret (ApplyResult.mk false (exn_to_string e) None)).

Definition resetWebhook : M unit :=
  try_catch
    (productionUrl ← Db.getGatewaySetting "production_webhook_url" None;
     match Js.string_or_null productionUrl with
     | None => mret tt
     | Some productionUrl =>
         botToken ← getBotToken;
         match botToken with
         | None => mret tt
         | Some _ =>
             response ← Tg.fetch (SetWebhook productionUrl);
             if negb (resp_ok response) then
               throw (JsError ("Failed to set webhook: " +:+
                               resp_statusText response))
             else mret tt
         end
     end)
    (fun _ => mret tt).

Definition deleteWebhook : M DeleteResult.t :=
  try_catch
    (botToken ← getBotToken;
     match botToken with
     | None =>
         mret (DeleteResult.mk false
                 "Bot token not found in config. Please configure Telegram channel first.")
     | Some _ =>
         response ← Tg.fetch DeleteWebhook;
         if negb (resp_ok response) then
           mret (DeleteResult.mk false
                   ("Telegram API error: " +:+ resp_statusText response))
         else
           let data := resp_json response in
           if body_ok data then
             mret (DeleteResult.mk true
                     "Webhook deleted successfully. Gateway can now use getUpdates polling.")
           else
             mret (DeleteResult.mk false (api_error (body_description data)))
     end)
    (fun e => mret (DeleteResult.mk false (exn_to_string e))).

(** [parseInt(await getGatewaySetting('max_restart_attempts', '3') || '3', 10)] *)
Definition parse_max (v : option string) : option Z :=
  Js.parseInt (default "3" (Js.string_or_null v)).

(** [recentAttempts >= maxAttempts]; a comparison with [NaN] is false. *)
Definition limit_reached (recentAttempts : Z) (maxAttempts : option Z)
    : bool :=
  match maxAttempts with
  | Some m => m <=? recentAttempts
  | None => false
  end.

Definition check_log (st : WebhookStatus.t) (t : Z) (active : bool)
    (msg : option string) (rt : Z) (a : ActionTaken.t) : WebhookStatusLog :=
  {| checkTimestamp := t;
     webhookUrl := Js.string_or_null (WebhookStatus.url st);
     isActive := active;
     pendingUpdateCount := WebhookStatus.pendingUpdateCount st;
     lastErrorDate := Js.number_or_null (WebhookStatus.lastErrorDate st);
     lastErrorMessage := msg;
     responseTimeMs := rt;
     actionTaken := a |}.

Definition checkAndRestart : M unit :=
  try_catch
    (startTime ← dateNow;
     webhookStatus ← checkWebhookStatus;
     t1 ← dateNow;
     let responseTime := t1 - startTime in
     t2 ← dateNow;
     Db.insertWebhookStatusLog
       (check_log webhookStatus t2 (WebhookStatus.isActive webhookStatus)
          (Js.string_or_null (WebhookStatus.lastErrorMessage webhookStatus))
          responseTime ActionTaken.none);;
     if negb (WebhookStatus.isActive webhookStatus) then
       setting ← Db.getGatewaySetting "auto_restart_enabled" (Some "true");
       let autoRestartEnabled := bool_decide (setting = Some "true") in
       if negb autoRestartEnabled then mret tt
       else
         recentAttempts ← Db.getRecentRestartAttempts 5;
         maxSetting ← Db.getGatewaySetting "max_restart_attempts" (Some "3");
         let maxAttempts := parse_max maxSetting in
         if limit_reached recentAttempts maxAttempts then
           notifyOwner "Gateway Webhook 持续失败"
             ("Webhook 检查失败，已尝试重启 " +:+
              Js.toString recentAttempts +:+
              " 次，仍然失败。请手动检查 Gateway 状态。");;
           t3 ← dateNow;
           Db.insertWebhookStatusLog
             (check_log webhookStatus t3 false
                (Some "Max restart attempts reached") 0 ActionTaken.alert)
         else
           restartResult ←
             try_catch (restart (Some "webhook_check"))
               (fun restartError =>
                  mret (RestartResult.mk false None None 0
                          "Gateway restart failed"
                          (Some (exn_to_string restartError))));
           Db.insertGatewayRestartLog
             (InsertGatewayRestartLog.mk webhook_check None
                (Some ("Webhook inactive: " +:+
                       default "No error message"
                         (Js.string_or_null
                            (WebhookStatus.lastErrorMessage webhookStatus))))
                (Js.number_or_null (RestartResult.oldPid restartResult))
                (Js.number_or_null (RestartResult.newPid restartResult))
                (RestartResult.success restartResult)
                (Js.string_or_null (RestartResult.error restartResult))
                (RestartResult.duration restartResult));;
           if RestartResult.success restartResult then
             sleep 5000;;
             resetWebhook;;
             t4 ← dateNow;
             Db.insertWebhookStatusLog
               (check_log webhookStatus t4 false (Some "Restarted Gateway")
                  (RestartResult.duration restartResult)
                  ActionTaken.restart)
           else mret tt
     else mret tt)
    (fun _ => mret tt).

(** *** A cycle in two halves

    [checkAndRestart] is an async function: between two of its awaits
    another cycle can run.  The halves below cut it where the decision is
    made: [decide] is the body up to the comparison with the limit, [act]
    is what follows.  [checkAndRestart_halves] shows that they make up the
    method. *)
Inductive Decision :=
| Idle
| Escalate (webhookStatus : WebhookStatus.t) (recentAttempts : Z)
| Repair (webhookStatus : WebhookStatus.t).

Definition decide : M Decision :=
  startTime ← dateNow;
  webhookStatus ← checkWebhookStatus;
  t1 ← dateNow;
  let responseTime := t1 - startTime in
  t2 ← dateNow;
  Db.insertWebhookStatusLog
    (check_log webhookStatus t2 (WebhookStatus.isActive webhookStatus)
       (Js.string_or_null (WebhookStatus.lastErrorMessage webhookStatus))
       responseTime ActionTaken.none);;
  if negb (WebhookStatus.isActive webhookStatus) then
    setting ← Db.getGatewaySetting "auto_restart_enabled" (Some "true");
    let autoRestartEnabled := bool_decide (setting = Some "true") in
    if negb autoRestartEnabled then mret Idle
    else
      recentAttempts ← Db.getRecentRestartAttempts 5;
      maxSetting ← Db.getGatewaySetting "max_restart_attempts" (Some "3");
      let maxAttempts := parse_max maxSetting in
      if limit_reached recentAttempts maxAttempts
      then mret (Escalate webhookStatus recentAttempts)
      else mret (Repair webhookStatus)
  else mret Idle.

Definition act (d : Decision) : M unit :=
  match d with
  | Idle => mret tt
  | Escalate webhookStatus recentAttempts =>
      notifyOwner "Gateway Webhook 持续失败"
        ("Webhook 检查失败，已尝试重启 " +:+
         Js.toString recentAttempts +:+
         " 次，仍然失败。请手动检查 Gateway 状态。");;
      t3 ← dateNow;
      Db.insertWebhookStatusLog
        (check_log webhookStatus t3 false
           (Some "Max restart attempts reached") 0 ActionTaken.alert)
  | Repair webhookStatus =>
      restartResult ←
        try_catch (restart (Some "webhook_check"))
          (fun restartError =>
             mret (RestartResult.mk false None None 0
                     "Gateway restart failed"
                     (Some (exn_to_string restartError))));
      Db.insertGatewayRestartLog
        (InsertGatewayRestartLog.mk webhook_check None
           (Some ("Webhook inactive: " +:+
                  default "No error message"
                    (Js.string_or_null
                       (WebhookStatus.lastErrorMessage webhookStatus))))
           (Js.number_or_null (RestartResult.oldPid restartResult))
           (Js.number_or_null (RestartResult.newPid restartResult))
           (RestartResult.success restartResult)
           (Js.string_or_null (RestartResult.error restartResult))
           (RestartResult.duration restartResult));;
      if RestartResult.success restartResult then
        sleep 5000;;
        resetWebhook;;
        t4 ← dateNow;
        Db.insertWebhookStatusLog
          (check_log webhookStatus t4 false (Some "Restarted Gateway")
             (RestartResult.duration restartResult)
             ActionTaken.restart)
      else mret tt
  end.

(** The first half of a cycle and the second, each under the cycle's
    [try]/[catch]. *)
Definition cycle_decide : M (option Decision) :=
  try_catch (d ← decide; mret (Some d)) (fun _ => mret None).

Definition cycle_act (d : option Decision) : M unit :=
  match d with
  | Some d => try_catch (act d) (fun _ => mret tt)
  | None => mret tt
  end.

(** [n] cycles that overlap: each has decided before any of them acts. *)
Fixpoint decide_all (n : nat) : M (list (option Decision)) :=
  match n with
  | O => mret []
  | S k =>
      d ← cycle_decide;
      ds ← decide_all k;
      mret (d :: ds)
  end.

Fixpoint act_all (ds : list (option Decision)) : M unit :=
  match ds with
  | [] => mret tt
  | d :: rest => cycle_act d;; act_all rest
  end.

Definition overlapped (n : nat) : M unit :=
  ds ← decide_all n;
  act_all ds.

End WebhookPoller.

(** ** The mode switch (gatewayManager router) *)

Module Mode.
Inductive t := gateway | webhook.
Definition to_string (m : t) : string :=
  match m with
  | gateway => "gateway"
  | webhook => "webhook"
  end.
End Mode.

Module SetModeResult.
Record t := mk {
  success : bool;
  message : string;
  previousMode : option (option string);
  newMode : option Mode.t;
}.
End SetModeResult.

Definition setConnectionMode (mode : Mode.t) : M SetModeResult.t :=
  currentMode ← Db.getGatewaySetting "telegram_connection_mode"
                   (Some "webhook");
  if bool_decide (currentMode = Some (Mode.to_string mode)) then
    mret (SetModeResult.mk true "Mode unchanged" None None)
  else
    match mode with
    | Mode.webhook =>
        try_catch (GatewayProcessManager.stop;; mret tt) (fun _ => mret tt);;
        try_catch (WebhookPoller.applyWebhook;; mret tt) (fun _ => mret tt)
    | Mode.gateway =>
        try_catch (WebhookPoller.deleteWebhook;; mret tt) (fun _ => mret tt);;
        try_catch (GatewayProcessManager.start;; mret tt) (fun _ => mret tt)
    end;;
    Db.setGatewaySetting "telegram_connection_mode" (Mode.to_string mode)
      None;;
    mret (SetModeResult.mk true
            ("Switched to " +:+ Mode.to_string mode +:+ " mode")
            (Some currentMode) (Some mode)).

(** ** The other procedures of the gatewayManager and webhookManager
    routers *)

Module Router.

(** [gatewayManager.restart]: the manual restart and its record.  [openId]
    is [ctx.user.openId]. *)
Definition restart (openId : string) (reason : option string)
    : M RestartResult.t :=
  result ← GatewayProcessManager.restart
              (Some (default "manual" (Js.string_or_null reason)));
  Db.insertGatewayRestartLog
    (InsertGatewayRestartLog.mk manual (Some openId)
       (Some (default "Manual restart from dashboard"
                (Js.string_or_null reason)))
       (Js.number_or_null (RestartResult.oldPid result))
       (Js.number_or_null (RestartResult.newPid result))
       (RestartResult.success result)
       (Js.string_or_null (RestartResult.error result))
       (RestartResult.duration result));;
  mret result.

Definition stop : M StopResult.t := GatewayProcessManager.stop.

Definition start : M StartResult.t := GatewayProcessManager.start.

Definition getConnectionMode : M (option string) :=
  Db.getGatewaySetting "telegram_connection_mode" (Some "webhook").

(** [Boolean.prototype.toString] *)
Definition bool_to_string (b : bool) : string :=
  if b then "true" else "false".

(** [webhookManager.configureAutoCheck]; [enabled] is required by the input
    schema, [intervalSeconds] is taken as an integer, and [autoRestart] is
    accepted and not used. *)
Definition configureAutoCheck (enabled : bool) (intervalSeconds : option Z)
    (autoRestart : option bool) : M bool :=
  Db.setGatewaySetting "auto_restart_enabled" (bool_to_string enabled) None;;
  match intervalSeconds with
  | Some n =>
      Db.setGatewaySetting "webhook_check_interval" (Js.toString n) None
  | None => mret tt
  end;;
  mret true.

Definition setProductionUrl (target : string) : M bool :=
  Db.setGatewaySetting "production_webhook_url" target None;;
  mret true.

Definition applyWebhook : M ApplyResult.t := WebhookPoller.applyWebhook.

End Router.

(** ** initializeGatewaySettings (server/db.ts) *)

Definition gateway_defaults : list (string * string * string) :=
  [ ("webhook_check_interval", "300", "Webhook check interval (seconds)");
    ("production_webhook_url", "", "Production webhook URL");
    ("auto_restart_enabled", "true",
     "Enable automatic restart on webhook failure");
    ("max_restart_attempts", "3",
     "Maximum restart attempts within time window");
    ("health_check_timeout", "10", "Health check timeout (seconds)");
    ("telegram_connection_mode", "webhook",
     "Telegram connection mode: gateway (local polling) or webhook (server push)") ].

(** [for (const setting of defaults) { ... }] *)
Fixpoint initialize_each (defaults : list (string * string * string))
    : M unit :=
  match defaults with
  | [] => mret tt
  | (key, v, dsc) :: rest =>
      Db.getGatewaySetting key (Some v);;
      Db.setGatewaySetting key v (Some dsc);;
      initialize_each rest
  end.

Definition initializeGatewaySettings : M unit :=
  initialize_each gateway_defaults.

(** ** getLogs (GatewayProcessManager) *)

Module JsArray.

(** [arr.slice(start)]: a negative [start] counts from the end. *)
Definition slice {A} (start : Z) (l : list A) : list A :=
  let len := Z.of_nat (length l) in
  let k := if start <? 0 then Z.max (len + start) 0 else Z.min start len in
  drop (Z.to_nat k) l.

End JsArray.

Module JsRegExp.

(** The canonical form of a character under the flag [i]: its upper case.
    A character outside ASCII never has an ASCII canonical form. *)
Definition canonicalize (c : ascii) : ascii :=
  let n := N_of_ascii c in
  if ((97 <=? n) && (n <=? 122))%N then ascii_of_N (n - 32) else c.

(** The literal [pat] matches at the start of [s], ignoring case. *)
Fixpoint matches_at (pat s : string) : bool :=
  match pat, s with
  | EmptyString, _ => true
  | String p pat', String c s' =>
      Ascii.eqb (canonicalize p) (canonicalize c) && matches_at pat' s'
  | String _ _, EmptyString => false
  end.

(** [new RegExp(pat, 'i').test(s)] for a pattern that matches the literal
    text [pat]. *)
Fixpoint test_i (pat s : string) : bool :=
  matches_at pat s ||
  match s with
  | String _ s' => test_i pat s'
  | EmptyString => false
  end.

End JsRegExp.

Module LogLevel.
Inductive t := all | error | warn | info.
Definition to_string (l : t) : string :=
  match l with
  | all => "all"
  | error => "error"
  | warn => "warn"
  | info => "info"
  end.
End LogLevel.

(** [line => line.trim()] as a filter. *)
Definition non_blank (line : string) : bool :=
  Js.truthy_string (Js.trim line).

(** [new RegExp(`\\[${level}\\]`, 'i').test(line)] *)
Definition level_test (level : LogLevel.t) (line : string) : bool :=
  JsRegExp.test_i ("[" +:+ LogLevel.to_string level +:+ "]") line.

(** [getLogs(lines, level)].  The log file is not part of the [World]:
    [readLogFile] stands for [fs.readFile(this.LOG_FILE, 'utf-8')], which
    yields the content or throws. *)
Definition getLogs (readLogFile : M string) (lines : Z)
    (level : option LogLevel.t) : M (list string) :=
  try_catch
    (logContent ← readLogFile;
     let allLines := List.filter non_blank (Js.split_lines logContent) in
     let filteredLines :=
       match level with
       | None | Some LogLevel.all => allLines
       | Some l => List.filter (level_test l) allLines
       end in
     mret (JsArray.slice (- lines) filteredLines))
    (fun _ => mret []).

(** ** WebhookPollerService: the timer *)

(** The fields [intervalId] and [isRunning] of the service.  A timer is
    known by its period in milliseconds, [None] for [NaN]. *)
Module PollerService.

Record t := mk {
  intervalId : option (option Z);
  isRunning : bool;
}.

Definition initial : t := mk None false.

(** [start()]: nothing when the service runs; else the interval is read,
    one check is made at once and the timer is set.  Neither call in
    between throws, so the fields are returned with the result. *)
Definition start (s : t) : M t :=
  if isRunning s then mret s
  else
    setting ← Db.getGatewaySetting "webhook_check_interval" (Some "300");
    let intervalSeconds :=
      Js.parseInt (default "300" (Js.string_or_null setting)) in
    WebhookPoller.checkAndRestart;;
    mret (mk (Some ((fun n => n * 1000) <$> intervalSeconds)) true).

(** [stop()] *)
Definition stop (s : t) : t := mk None false.

End PollerService.

(** ** Vocabulary of the properties *)

(** The times at which [restart] was invoked, newest first. *)
Definition restart_calls (tr : list (Z * Call)) : list Z :=
  omap (fun tc => match snd tc with
                  | CallRestart _ => Some (fst tc)
                  | _ => None
                  end) tr.

(** How often [start] was invoked. *)
Definition start_calls (tr : list (Z * Call)) : nat :=
  length (List.filter (fun tc => match snd tc with
                                 | CallStart => true
                                 | _ => false
                                 end) tr).

(** The activity test in the words of the specification: the subscription
    has a non-empty URL and (there is no recorded last-error date or the
    pending update count is zero). *)
Definition spec_active (info : WebhookInfo) : Prop :=
  url info <> "" /\
  (last_error_date info = None \/ pending_update_count info = 0).

(** The next request to the provider is served. *)
Definition served_next (w : World) : Prop :=
  match script (telegram w) with
  | r :: _ => outcome r = Served
  | [] => True
  end.

(** The records one cycle of [checkAndRestart] writes. *)
Definition first_log (st : WebhookStatus.t) (t responseTime : Z)
    : WebhookStatusLog :=
  WebhookPoller.check_log st t (WebhookStatus.isActive st)
    (Js.string_or_null (WebhookStatus.lastErrorMessage st))
    responseTime ActionTaken.none.

Definition alert_log (st : WebhookStatus.t) (t : Z) : WebhookStatusLog :=
  WebhookPoller.check_log st t false (Some "Max restart attempts reached") 0
    ActionTaken.alert.

Definition restart_log (st : WebhookStatus.t) (t : Z)
    (rr : RestartResult.t) : WebhookStatusLog :=
  WebhookPoller.check_log st t false (Some "Restarted Gateway")
    (RestartResult.duration rr) ActionTaken.restart.

Definition attempt_log (st : WebhookStatus.t) (rr : RestartResult.t)
    : InsertGatewayRestartLog.t :=
  InsertGatewayRestartLog.mk webhook_check None
    (Some ("Webhook inactive: " +:+
           default "No error message"
             (Js.string_or_null (WebhookStatus.lastErrorMessage st))))
    (Js.number_or_null (RestartResult.oldPid rr))
    (Js.number_or_null (RestartResult.newPid rr))
    (RestartResult.success rr)
    (Js.string_or_null (RestartResult.error rr))
    (RestartResult.duration rr).

(** What [getGatewaySetting key defaultValue] resolves to in a database. *)
Definition resolve (d : Database) (key : string)
    (defaultValue : option string) : option string :=
  match dbStatus d with
  | DbHealthy =>
      match gatewaySettings d !! key with
      | Some row => Some (value row)
      | None => defaultValue
      end
  | _ => Js.string_or_null defaultValue
  end.

(** The world after [getGatewaySetting key defaultValue]: a default that was
    used is stored. *)
Definition materialize (key : string) (defaultValue : option string)
    (w : World) : World :=
  match dbStatus (database w), gatewaySettings (database w) !! key,
        defaultValue with
  | DbHealthy, None, Some d =>
      set_database (Db.set_settings
        <[key := {| value := d; description := None |}]>) w
  | _, _, _ => w
  end.

(** The number that [getRecentRestartAttempts(5)] returns in a world. *)
Definition recent_attempts (w : World) : Z :=
  match dbStatus (database w) with
  | DbHealthy =>
      Z.of_nat (length (Db.recent_restarts (now w - 5 * 60 * 1000)
                          (gatewayRestartLogs (database w))))
  | _ => 0
  end.

(** [stop()] called [n] times in a row, with the results in order. *)
Fixpoint stop_times (n : nat) : M (list StopResult.t) :=
  match n with
  | O => mret []
  | S k =>
      r ← GatewayProcessManager.stop;
      rs ← stop_times k;
      mret (r :: rs)
  end.

(** There is nothing for [stop] to stop: no pid is recorded (the pid file is
    absent and the scan finds no matching process), or the recorded pid
    names no live process. *)
Definition nothing_to_stop (w : World) : Prop :=
  (pidFile (os w) = None /\ GatewayProcessManager.discovered w = None) \/
  (exists p, GatewayProcessManager.recorded w = Some p /\
             Sys.find_proc w p = None).

(** No gateway process is alive: every entry of the process table whose
    command line matches has exited. *)
Definition no_live_gateway (w : World) : Prop :=
  forall p q, procs (os w) !! p = Some q -> proc_matches q = true ->
    proc_live (now w) q = false.

(** The world in which the body of [restart] starts. *)
Definition restart_entry (reason : option string) (w : World) : World :=
  set_trace (cons (now w, CallRestart reason)) w.

(** The pid that [getCurrentPid] resolves: the recorded one, or else the
    discovered one. *)
Definition resolved_pid (w : World) : option Z :=
  match pidFile (os w) with
  | Some pidContent => Js.parseInt (Js.trim pidContent)
  | None => GatewayProcessManager.discovered w
  end.

(** The setting [max_restart_attempts] reads as the number [m]. *)
Definition max_attempts_is (m : Z) (w : World) : Prop :=
  WebhookPoller.parse_max
    (resolve (database w) "max_restart_attempts" (Some "3")) = Some m.

(** The setting [auto_restart_enabled] reads as true. *)
Definition auto_restart_on (w : World) : Prop :=
  resolve (database w) "auto_restart_enabled" (Some "true") = Some "true".

(** The restart calls of a trace that fall into the five minutes up to [T]. *)
Definition in_window (T : Z) (calls : list Z) : list Z :=
  List.filter (fun t => (T - 5 * 60 * 1000 <=? t) && (t <=? T)) calls.

(** The restart calls of a trace since [x]. *)
Definition since (x : Z) (calls : list Z) : list Z :=
  List.filter (fun t => x <=? t) calls.

(** The three ways a cycle ends: without action, with an alert, or with a
    restart attempt. *)
Definition quiet_cycle (w w1 w' : World) (st : WebhookStatus.t) : Prop :=
  webhookStatusLogs (database w') =
    (webhookStatusLogs (database w) ++
     [first_log st (now w1) (now w1 - now w)])%list /\
  gatewayRestartLogs (database w') = gatewayRestartLogs (database w) /\
  os w' = os w /\ trace w' = trace w /\ alerts w' = alerts w /\
  telegram w' = telegram w1 /\ now w' = now w1.

Definition alert_cycle (w w1 w' : World) (st : WebhookStatus.t) : Prop :=
  webhookStatusLogs (database w') =
    (webhookStatusLogs (database w) ++
     [first_log st (now w1) (now w1 - now w);
      alert_log st (now w1)])%list /\
  gatewayRestartLogs (database w') = gatewayRestartLogs (database w) /\
  os w' = os w /\ trace w' = trace w /\
  (exists a, alerts w' = (alerts w ++ [a])%list) /\
  telegram w' = telegram w1 /\ now w' = now w1.

Definition restart_cycle (w w1 w' : World) (st : WebhookStatus.t) : Prop :=
  exists wr rr w3 extra,
    GatewayProcessManager.restart (Some "webhook_check") wr = (Ok rr, w3) /\
    os wr = os w /\ now wr = now w1 /\ trace wr = trace w /\
    gatewayRestartLogs (database w') =
      (gatewayRestartLogs (database w) ++
       [Db.stamp (now w3 / 1000) (attempt_log st rr)])%list /\
    now w1 <= now w3 /\ now w3 <= now w' /\
    restart_calls (trace w') = now w1 :: restart_calls (trace w) /\
    alerts w' = alerts w /\
    webhookStatusLogs (database w') =
      (webhookStatusLogs (database w) ++
       first_log st (now w1) (now w1 - now w) :: extra)%list /\
    ((RestartResult.success rr = true /\
      exists t6, extra = [restart_log st t6 rr]) \/
     (RestartResult.success rr = false /\ extra = [])).

(** A restart record is recent at the time [T] (in milliseconds): its
    stamp, which the database keeps in whole seconds, is at most five
    minutes old. *)
Definition recent (T : Z) (r : GatewayRestartLog) : Prop :=
  T - createdAt r * 1000 <= 5 * 60 * 1000.

#[global] Instance TriggerType_eq_dec : EqDecision TriggerType.
Proof. solve_decision. Defined.

#[global] Instance recent_dec T r : Decision (recent T r).
Proof. unfold recent. apply _. Defined.

(** How many records of the trigger type [tt] are recent at [T]. *)
Definition recent_of (tt : TriggerType) (T : Z)
    (l : list GatewayRestartLog) : Z :=
  Z.of_nat (length (filter (fun r => triggerType r = tt /\ recent T r) l)).

(** The restart records that count at the time [T], in the words of the
    specification: every record of the last five minutes, whatever
    triggered it. *)
Definition counted (T : Z) (w : World) : Z :=
  let l := gatewayRestartLogs (database w) in
  recent_of webhook_check T l + recent_of manual T l +
  recent_of health_check T l + recent_of scheduled T l.


(** A sequential run of the reconciler: no two cycles overlap, each one
    returns before the next begins (the source does not see to that: the
    timer and the checkStatus mutation start a cycle whether or not one is
    under way; see [overlapped] for what happens then).  The database is
    healthy and max_restart_attempts = [m] at every cycle.  Between two
    cycles the environment may change the world in any way that leaves the
    record of calls alone and only adds restart records (time passes, a
    restart is logged by hand). *)
Inductive seq_step (m : Z) : World -> World -> Prop :=
| step_cycle w w' :
    dbStatus (database w) = DbHealthy ->
    max_attempts_is m w ->
    WebhookPoller.checkAndRestart w = (Ok tt, w') ->
    seq_step m w w'
| step_env w w' more :
    trace w' = trace w ->
    gatewayRestartLogs (database w') =
      (gatewayRestartLogs (database w) ++ more)%list ->
    seq_step m w w'.

Definition sequential_run (m : Z) : relation World := rtc (seq_step m).

(** The restart calls of a trace that fall into the [len] milliseconds up
    to [T]. *)
Definition in_span (len T : Z) (calls : list Z) : list Z :=
  List.filter (fun t => (T - len <=? t) && (t <=? T)) calls.

(** The length of a window in which the limit is sure to hold: five
    minutes less the second by which a stamp in whole seconds may precede
    the restart it records. *)
Definition SAFE_WINDOW : Z := 5 * 60 * 1000 - 999.

(** Every restart call has fewer than [m] earlier calls in the safe window
    before it (the list is newest first). *)
Fixpoint windowed (m : Z) (calls : list Z) : Prop :=
  match calls with
  | [] => True
  | t :: earlier =>
      Z.of_nat (length (since (t - SAFE_WINDOW) earlier)) < m /\
      windowed m earlier
  end.

(** Every restart call has its restart record: at every time [T], the
    calls made in the safe window up to [T] are no more than the records
    that count at [T]. *)
Definition calls_recorded (w : World) : Prop :=
  forall T,
    Z.of_nat (length (since (T - SAFE_WINDOW) (restart_calls (trace w))))
    <= counted T w.

(** The table entry under a pid, alive or not. *)
Definition entry (w : World) (pid : Z) : option Proc :=
  match pid with
  | Z.pos p => procs (os w) !! p
  | _ => None
  end.

(** [n] cycles of [checkAndRestart] in a row. *)
Fixpoint cycles (n : nat) (w : World) : World :=
  match n with
  | O => w
  | S k => cycles k (snd (WebhookPoller.checkAndRestart w))
  end.

(** ** Vocabulary of the further properties *)

(** A character that is part of a printed number: a digit. *)
Definition is_digit (c : ascii) : Prop := exists d, Js.digit_of c = Some d.

(** Every character of a string satisfies [P]. *)
Fixpoint all_chars (P : ascii -> Prop) (s : string) : Prop :=
  match s with
  | String c r => P c /\ all_chars P r
  | EmptyString => True
  end.

Definition not_ws (c : ascii) : Prop := Js.is_ws c = false.

Definition no_nl (c : ascii) : Prop := c <> "010"%char.

Definition head_not_ws (s : string) : Prop :=
  match s with String c _ => not_ws c | EmptyString => True end.

(** A pid is the greatest among the live processes whose command line
    matches. *)
Definition highest_match (w : World) (p : positive) : Prop :=
  (exists q, procs (os w) !! p = Some q /\ proc_matches q = true /\
             proc_live (now w) q = true) /\
  forall p' q', procs (os w) !! p' = Some q' -> proc_matches q' = true ->
    proc_live (now w) q' = true -> (p' <= p)%positive.

(** The trace and the spawn queue are left alone. *)
Definition keeps (w w' : World) : Prop :=
  trace w' = trace w /\ spawnQueue (os w') = spawnQueue (os w).

(** Some live process accepts connections on the gateway port. *)
Definition listening (w : World) : Prop :=
  exists p q, procs (os w) !! p = Some q /\
              proc_listening (now w) q = true.

(** The description a row gets from [setGatewaySetting]: the given one, or
    else the one the row had. *)
Definition new_description (dsc : option string)
    (old : option GatewaySetting) : option string :=
  match Js.string_or_null dsc with
  | Some d => Some d
  | None => old ≫= description
  end.

(** The world after [setGatewaySetting key v dsc] on a healthy database. *)
Definition store (key v : string) (dsc : option string) (w : World)
    : World :=
  set_database (Db.set_settings
    <[key := {| value := v;
                description :=
                  new_description dsc
                    (gatewaySettings (database w) !! key) |}]>) w.

(** The bot token a database yields: that of the first enabled Telegram
    config, or else of the first config; none when the token is empty or
    the database cannot be read. *)
Definition bot_token (d : Database) : option string :=
  match dbStatus d with
  | DbHealthy =>
      match List.find enabled (channelConfigs d) with
      | Some c => Js.string_or_null (botToken c)
      | None =>
          match head (channelConfigs d) with
          | Some c => Js.string_or_null (botToken c)
          | None => None
          end
      end
  | _ => None
  end.

(** What one request to the provider leaves alone. *)
Definition fetch_frame (w w' : World) : Prop :=
  os w' = os w /\ database w' = database w /\ alerts w' = alerts w /\
  trace w' = trace w /\ now w <= now w'.

(** The lines [getLogs] selects from a log, before it cuts the list. *)
Definition selected_lines (level : option LogLevel.t) (content : string)
    : list string :=
  let allLines := List.filter non_blank (Js.split_lines content) in
  match level with
  | None | Some LogLevel.all => allLines
  | Some l => List.filter (level_test l) allLines
  end.

(** ** Sample worlds *)

Module Samples.

Definition gateway_proc (signalable : bool) : Proc :=
  {| proc_matches := true; proc_signalable := signalable;
     proc_termDelay := Some 700; proc_exitAt := None;
     proc_listenFrom := Some 0; proc_startedAt := 0;
     proc_pcpu := 5 # 2; proc_rss := 2048 |}.

(** A subscription with an outstanding error and updates piling up. *)
Definition info_failing : WebhookInfo :=
  {| url := "https://example.org/webhook";
     has_custom_certificate := false;
     pending_update_count := 5;
     last_error_date := Some 1700000000;
     last_error_message := Some "Connection refused" |}.

(** The same, with a last-error date of 0. *)
Definition info_zero_date : WebhookInfo :=
  {| url := "https://example.org/webhook";
     has_custom_certificate := false;
     pending_update_count := 5;
     last_error_date := Some 0;
     last_error_message := Some "Connection refused" |}.

Definition setting (v : string) : GatewaySetting :=
  {| value := v; description := None |}.

Definition db (st : DbStatus) (settings : gmap string GatewaySetting)
    (restarts : list GatewayRestartLog) : Database :=
  {| dbStatus := st; gatewaySettings := settings;
     gatewayRestartLogs := restarts; webhookStatusLogs := [];
     channelConfigs := [ {| enabled := true; botToken := Some "123:abc" |} ] |}.

Definition world (file : option string) (table : gmap positive Proc)
    (info : WebhookInfo) (d : Database) : World :=
  {| now := 1000000;
     os := {| pidFile := file; procs := table; spawnQueue := [];
              logFile := LogReady |};
     telegram := {| subscription := info; script := [] |};
     database := d; alerts := []; trace := [] |}.

Definition restart_record (tt : TriggerType) (t : Z) : GatewayRestartLog :=
  {| triggerType := tt; triggerUserId := None; reason := None;
     oldPid := None; newPid := None; success := false;
     errorMessage := None; durationMs := 2000; createdAt := t |}.

(** The pid file is lost, the gateway runs under pid 4242. *)
Definition w_lost : World :=
  world None {[ 4242%positive := gateway_proc true ]} info_failing
    (db DbHealthy ∅ []).

(** The pid file names a process that is gone. *)
Definition w_stale : World :=
  world (Some "4242") ∅ info_failing (db DbHealthy ∅ []).

(** The pid file names a process that is gone, and the gateway runs under
    another pid. *)
Definition w_stale_other : World :=
  world (Some "4242") {[ 5000%positive := gateway_proc true ]} info_failing
    (db DbHealthy ∅ []).

(** The pid file is lost, and the gateway runs under pid 4242 as another
    user: the supervisor may not signal it. *)
Definition w_lost_eperm : World :=
  world None {[ 4242%positive := gateway_proc false ]} info_failing
    (db DbHealthy ∅ []).

(** The gateway runs under the recorded pid; the mode is gateway. *)
Definition w_running : World :=
  world (Some "4242") {[ 4242%positive := gateway_proc true ]} info_failing
    (db DbHealthy {[ "telegram_connection_mode" := setting "gateway" ]} []).

(** The same, but the supervisor may not signal the process. *)
Definition w_eperm : World :=
  world (Some "4242") {[ 4242%positive := gateway_proc false ]}
    info_failing
    (db DbHealthy {[ "telegram_connection_mode" := setting "gateway" ]} []).

(** No Telegram channel is configured; the mode is webhook. *)
Definition w_no_token : World :=
  {| now := 1000000;
     os := {| pidFile := None; procs := ∅; spawnQueue := [];
              logFile := LogReady |};
     telegram := {| subscription := info_failing; script := [] |};
     database := {| dbStatus := DbHealthy; gatewaySettings := ∅;
                    gatewayRestartLogs := []; webhookStatusLogs := [];
                    channelConfigs := [] |};
     alerts := []; trace := [] |}.

(** The webhook is inactive, nothing runs, the history is empty. *)
Definition w_flap : World :=
  world None ∅ info_failing (db DbHealthy ∅ []).

(** The same without a database connection. *)
Definition w_nodb : World :=
  world None ∅ info_failing (db DbUnavailable ∅ []).

(** Auto-restart is switched off; three restarts are on record. *)
Definition w_off : World :=
  world None ∅ info_failing
    (db DbHealthy {[ "auto_restart_enabled" := setting "false" ]}
       [restart_record webhook_check 990;
        restart_record webhook_check 992;
        restart_record webhook_check 994]).

(** Two manual restarts and one webhook-triggered one in the window. *)
Definition w_manual : World :=
  world None ∅ info_failing
    (db DbHealthy ∅
       [restart_record manual 990; restart_record manual 992;
        restart_record webhook_check 994]).

(** The same history, and no database connection. *)
Definition w_nodb_manual : World :=
  world None ∅ info_failing
    (db DbUnavailable ∅
       [restart_record manual 990; restart_record manual 992;
        restart_record webhook_check 994]).

(** The provider reports a last-error date of 0. *)
Definition w_zero_date : World :=
  world None ∅ info_zero_date (db DbHealthy ∅ []).

(** The gateway runs under the recorded pid and the supervisor may not
    signal it, so every restart fails at once, in its stop phase.  The
    clock stands half a second after a full second. *)
Definition w_busy : World :=
  set_now (fun _ => 1000500)
    (world (Some "4242") {[ 4242%positive := gateway_proc false ]}
       info_failing (db DbHealthy ∅ [])).

(** The same world at the later time [t]. *)
Definition later (t : Z) (w : World) : World := set_now (fun _ => t) w.

(** Four cycles from [w_busy], one after the other: at 0, 60, 120 and
    299.9 seconds. *)
Definition w_busy1 : World := cycles 1 w_busy.
Definition w_busy2 : World := cycles 1 (later 1060500 w_busy1).
Definition w_busy3 : World := cycles 1 (later 1120500 w_busy2).
Definition w_busy4 : World := cycles 1 (later 1300400 w_busy3).

End Samples.

(** More sample worlds. *)
Module MoreSamples.
Import Samples.

(** A gateway that ignores SIGTERM. *)
Definition stubborn_proc : Proc :=
  {| proc_matches := true; proc_signalable := true;
     proc_termDelay := None; proc_exitAt := None;
     proc_listenFrom := Some 0; proc_startedAt := 0;
     proc_pcpu := 5 # 2; proc_rss := 2048 |}.

(** A gateway that never opens its port. *)
Definition mute_proc : Proc :=
  {| proc_matches := true; proc_signalable := true;
     proc_termDelay := Some 700; proc_exitAt := None;
     proc_listenFrom := None; proc_startedAt := 1000000;
     proc_pcpu := 0; proc_rss := 1024 |}.

Definition w_stubborn : World :=
  world (Some "4242") {[ 4242%positive := stubborn_proc ]} info_failing
    (db DbHealthy ∅ []).

(** Nothing runs; the next spawn yields [p] under pid 5000. *)
Definition w_spawn (p : Proc) : World :=
  {| now := 1000000;
     os := {| pidFile := None; procs := ∅;
              spawnQueue := [SpawnChild 5000 p]; logFile := LogReady |};
     telegram := {| subscription := info_failing; script := [] |};
     database := db DbHealthy ∅ []; alerts := []; trace := [] |}.

(** The same, but the gateway's log file cannot be opened. *)
Definition w_spawn_nolog (p : Proc) : World :=
  {| now := 1000000;
     os := {| pidFile := None; procs := ∅;
              spawnQueue := [SpawnChild 5000 p]; logFile := LogFileDenied |};
     telegram := {| subscription := info_failing; script := [] |};
     database := db DbHealthy ∅ []; alerts := []; trace := [] |}.

(** The database fails every query. *)
Definition w_failing : World :=
  world None ∅ info_failing (db DbFailing ∅ []).

(** A production URL is stored. *)
Definition w_configured : World :=
  world None ∅ info_failing
    (db DbHealthy
       {[ "production_webhook_url" := setting "https://prod.example/hook" ]}
       []).

(** A log of four lines, one of them blank. *)
Definition sample_log : string :=
  "[info] gateway up" +:+ Sys.nl +:+ "[ERROR] poll failed" +:+ Sys.nl +:+
  "   " +:+ Sys.nl +:+ "[warn] retrying" +:+ Sys.nl.

(** Reading that log succeeds. *)
Definition read_sample_log : M string := mret sample_log.

End MoreSamples.

(** ** Four claims as they are stated *)

(** Mode mutual exclusion as stated: from every world, after a switch to
    webhook the supervised process (the one [getCurrentPid] resolves) is not
    running, and after a switch to gateway no subscription URL is set. *)
Definition mode_exclusion_as_stated : Prop :=
  forall w r w',
    (setConnectionMode Mode.webhook w = (Ok r, w') ->
     forall p, resolved_pid w = Some p -> Sys.find_proc w' p = None) /\
    (setConnectionMode Mode.gateway w = (Ok r, w') ->
     url (subscription (telegram w')) = "").

(** The rate limit as stated: in every run of cycles with
    max_restart_attempts = 3, no five-minute window holds more than 3
    restart attempts. *)
Definition rate_limit_as_stated : Prop :=
  forall w0 n T,
    restart_calls (trace w0) = [] ->
    (forall i, (i < n)%nat -> max_attempts_is 3 (cycles i w0)) ->
    (length (in_window T (restart_calls (trace (cycles n w0)))) <= 3)%nat.

(** The activity test as stated. *)
Definition activity_as_stated : Prop :=
  forall info, WebhookPoller.is_active info = true <-> spec_active info.

(** One record per cycle as stated. *)
Definition one_record_as_stated : Prop :=
  forall w w',
    WebhookPoller.checkAndRestart w = (Ok tt, w') ->
    exists r, webhookStatusLogs (database w') =
              (webhookStatusLogs (database w) ++ [r])%list.

(** The count over every trigger type as stated: once the webhook-triggered
    records of the last five minutes have reached max_restart_attempts less
    the number of the other records of the last five minutes, a cycle that
    finds the webhook inactive does not restart. *)
Definition counts_every_trigger_as_stated : Prop :=
  forall w m st w1 w',
    max_attempts_is m w -> auto_restart_on w ->
    WebhookPoller.checkWebhookStatus w = (Ok st, w1) ->
    WebhookStatus.isActive st = false ->
    WebhookPoller.checkAndRestart w = (Ok tt, w') ->
    let logs := gatewayRestartLogs (database w) in
    let j := recent_of webhook_check (now w1) logs in
    let k := recent_of manual (now w1) logs +
             recent_of health_check (now w1) logs +
             recent_of scheduled (now w1) logs in
    m - k <= j ->
    restart_calls (trace w') = restart_calls (trace w).

(** Idempotent stop as stated: whenever there is nothing for [stop] to
    stop, it returns success and no gateway process is alive afterwards. *)
Definition stop_idempotent_as_stated : Prop :=
  forall w, nothing_to_stop w ->
    exists r w', GatewayProcessManager.stop w = (Ok r, w') /\
      StopResult.success r = true /\ no_live_gateway w'.

(** Status self-heals as stated: whenever the pid file is absent and the
    scan finds a live process, [getStatus] reports it as running and
    writes the pid file. *)
Definition self_heal_as_stated : Prop :=
  forall w p q,
    pidFile (os w) = None ->
    GatewayProcessManager.discovered w = Some p ->
    Sys.find_proc w p = Some q ->
    exists st w', GatewayProcessManager.getStatus w = (Ok st, w') /\
      GatewayStatus.status st = Status.running /\
      GatewayStatus.pid st = Some p /\
      pidFile (os w') = Some (Js.toString p).

(** A method returns (its promise is fulfilled) in every world. *)
Definition no_throw {A} (m : M A) : Prop :=
  forall w, exists a w', m w = (Ok a, w').

(** Every run of [m] takes a world to an [R]-related one. *)
Definition preserves {A} (R : relation World) (m : M A) : Prop :=
  forall w r w', m w = (r, w') -> R w w'.

(** The part [f] of the world is left as it was. *)
Definition same {B} (f : World -> B) : relation World :=
  fun w w' => f w' = f w.

Definition clock_mono : relation World := fun w w' => now w <= now w'.

Example parseInt_ex1 : Js.parseInt " 42abc" = Some 42. Proof. reflexivity. Qed.
Example parseInt_ex2 : Js.parseInt "-17" = Some (-17). Proof. reflexivity. Qed.
Example parseInt_ex3 : Js.parseInt "abc" = None. Proof. reflexivity. Qed.
Example trim_ex : Js.trim "  100
200
" = "100
200". Proof. reflexivity. Qed.
Example split_ex : Js.split_lines "100
200" = ["100"; "200"]. Proof. reflexivity. Qed.
Example toString_ex : Js.toString 1234 = "1234". Proof. vm_compute. reflexivity. Qed.
Example slice_ex1 : JsArray.slice (-2) [1; 2; 3] = [2; 3]. Proof. reflexivity. Qed.
Example slice_ex2 : JsArray.slice (-5) [1; 2; 3] = [1; 2; 3]. Proof. reflexivity. Qed.
Example slice_ex3 : JsArray.slice 1 [1; 2; 3] = [2; 3]. Proof. reflexivity. Qed.
Example level_test_ex1 : level_test LogLevel.error "12:00 [ERROR] poll failed" = true.
Proof. reflexivity. Qed.
Example level_test_ex2 : level_test LogLevel.error "error without brackets" = false.
Proof. reflexivity. Qed.
Example level_test_ex3 : level_test LogLevel.warn "[Warn] retrying" = true.
Proof. reflexivity. Qed.

(** * Proofs *)

(** ** Reasoning about methods *)

Ltac monad_unfold :=
  unfold record, sleep, dateNow, mbind, mret, M_bind, M_ret, bind, ret,
    try_catch, throw, gets, modify in *;
  cbv beta in *.

#[global] Instance same_preorder {B} (f : World -> B) : PreOrder (same f).
Proof.
  split.
  - intros w. reflexivity.
  - intros w1 w2 w3 H12 H23. unfold same in *. congruence.
Qed.

#[global] Instance clock_mono_preorder : PreOrder clock_mono.
Proof.
  split.
  - intros w. unfold clock_mono. lia.
  - intros w1 w2 w3. unfold clock_mono. lia.
Qed.

Section Preserves.
Context (R : relation World) `{!PreOrder R}.

Lemma preserves_mret {A} (a : A) : preserves R (mret a).
Proof. intros w r w' H. monad_unfold. simplify_eq. reflexivity. Qed.

Lemma preserves_throw {A} (e : Exn) : preserves R (@throw A e).
Proof. intros w r w' H. monad_unfold. simplify_eq. reflexivity. Qed.

Lemma preserves_gets {A} (f : World -> A) : preserves R (gets f).
Proof. intros w r w' H. monad_unfold. simplify_eq. reflexivity. Qed.

Lemma preserves_dateNow : preserves R dateNow.
Proof. apply preserves_gets. Qed.

Lemma preserves_modify (g : World -> World) :
  (forall w, R w (g w)) -> preserves R (modify g).
Proof. intros Hg w r w' H. monad_unfold. simplify_eq. apply Hg. Qed.

Lemma preserves_bind {A B} (m : M A) (k : A -> M B) :
  preserves R m -> (forall a, preserves R (k a)) -> preserves R (m ≫= k).
Proof.
  intros Hm Hk w r w' H. monad_unfold.
  destruct (m w) as [[a|e] w1] eqn:E.
  - transitivity w1; [exact (Hm _ _ _ E) | exact (Hk _ _ _ _ H)].
  - simplify_eq. exact (Hm _ _ _ E).
Qed.

Lemma preserves_try_catch {A} (m : M A) (h : Exn -> M A) :
  preserves R m -> (forall e, preserves R (h e)) ->
  preserves R (try_catch m h).
Proof.
  intros Hm Hh w r w' H. monad_unfold.
  destruct (m w) as [[a|e] w1] eqn:E.
  - simplify_eq. exact (Hm _ _ _ E).
  - transitivity w1; [exact (Hm _ _ _ E) | exact (Hh _ _ _ _ H)].
Qed.

Lemma preserves_query {A} (f : World -> A * World) :
  (forall w, R w (f w).2) -> preserves R (Db.query f).
Proof.
  intros Hf w r w' H. unfold Db.query in H.
  destruct (dbStatus (database w)); simplify_eq; try reflexivity.
  specialize (Hf w). destruct (f w). simplify_eq. exact Hf.
Qed.

End Preserves.

Lemma preserves_and {A} (R1 R2 : relation World) (m : M A) :
  preserves R1 m -> preserves R2 m ->
  preserves (fun w w' => R1 w w' /\ R2 w w') m.
Proof. intros H1 H2 w r w' H. split; eauto. Qed.

Create HintDb preserves discriminated.

(** One step of a proof that a method preserves a relation: follow the
    structure of the method, and close the leaves with what is known about
    the methods it calls. *)
Ltac preserves_step :=
  lazymatch goal with
  | |- preserves ?R (mret _) => apply (preserves_mret R)
  | |- preserves ?R (throw _) => apply (preserves_throw R)
  | |- preserves ?R dateNow => apply (preserves_dateNow R)
  | |- preserves ?R (gets _) => apply (preserves_gets R)
  | |- preserves ?R (_ ≫= _) => apply (preserves_bind R); [ | intros ? ]
  | |- preserves ?R (try_catch _ _) =>
      apply (preserves_try_catch R); [ | intros ? ]
  | |- preserves _ (if ?b then _ else _) => destruct b
  | |- preserves _ (match ?x with _ => _ end) => destruct x
  | |- preserves _ _ => solve [ eauto with preserves ]
  end.

Ltac preserves_tac := repeat (cbv zeta; preserves_step).

(** A primitive given as a function on worlds. *)
Ltac preserves_prim f :=
  let w := fresh "w" in let r := fresh "r" in let w' := fresh "w'" in
  let H := fresh "H" in
  intros w r w' H; unfold f in H; unfold same, clock_mono in *;
  repeat case_match; simplify_eq; cbn; try reflexivity; try lia.

(** *** What a relation must tolerate *)

(** A relation tolerates a kind of update when every world is related to
    its update.  The methods change the world only through such updates. *)
Definition os_inv (R : relation World) : Prop :=
  forall g w, R w (set_os g w).
Definition wait_inv (R : relation World) : Prop :=
  forall d w, 0 <= d -> R w (set_now (fun t => t + d) w).
Definition call_inv (c : Call) (R : relation World) : Prop :=
  forall t w, R w (set_trace (cons (t, c)) w).
Definition tg_inv (R : relation World) : Prop :=
  forall g w, R w (set_telegram g w).
Definition alerts_inv (R : relation World) : Prop :=
  forall g w, R w (set_alerts g w).
Definition settings_inv (R : relation World) : Prop :=
  forall g w, R w (set_database (Db.set_settings g) w).
Definition rlogs_inv (R : relation World) : Prop :=
  forall g w, R w (set_database (Db.set_restartLogs g) w).
Definition wlogs_inv (R : relation World) : Prop :=
  forall g w, R w (set_database (Db.set_webhookLogs g) w).

Ltac inv_tac :=
  unfold os_inv, wait_inv, call_inv, tg_inv, alerts_inv, settings_inv,
    rlogs_inv, wlogs_inv, same, clock_mono;
  intros; cbn; solve [ reflexivity | lia ].

#[global] Hint Extern 1 (os_inv _) => inv_tac : preserves.
#[global] Hint Extern 1 (wait_inv _) => inv_tac : preserves.
#[global] Hint Extern 1 (call_inv _ _) => inv_tac : preserves.
#[global] Hint Extern 1 (tg_inv _) => inv_tac : preserves.
#[global] Hint Extern 1 (alerts_inv _) => inv_tac : preserves.
#[global] Hint Extern 1 (settings_inv _) => inv_tac : preserves.
#[global] Hint Extern 1 (rlogs_inv _) => inv_tac : preserves.
#[global] Hint Extern 1 (wlogs_inv _) => inv_tac : preserves.

(** *** The primitives *)

Section Primitives.
Context (R : relation World) `{!PreOrder R}.

Ltac prim f :=
  let w := fresh "w" in let r := fresh "r" in let w' := fresh "w'" in
  let H := fresh "H" in
  intros w r w' H; unfold f in H; monad_unfold;
  repeat case_match; simplify_eq; try reflexivity.

Lemma process_kill_preserves pid sig :
  os_inv R -> preserves R (Sys.process_kill pid sig).
Proof. intros Hos. prim Sys.process_kill; apply Hos. Qed.

Lemma readPidFile_preserves : preserves R Sys.readPidFile.
Proof. prim Sys.readPidFile. Qed.

Lemma writePidFile_preserves s :
  os_inv R -> preserves R (Sys.writePidFile s).
Proof. intros Hos. apply (preserves_modify R). intros; apply Hos. Qed.

Lemma unlinkPidFile_preserves : os_inv R -> preserves R Sys.unlinkPidFile.
Proof. intros Hos. prim Sys.unlinkPidFile. apply Hos. Qed.

Lemma pgrep_preserves : preserves R Sys.pgrep.
Proof. prim Sys.pgrep. Qed.

Lemma lsof_preserves : preserves R Sys.lsof.
Proof. prim Sys.lsof. Qed.

Lemma ps_preserves pid : preserves R (Sys.ps pid).
Proof. prim Sys.ps. Qed.

Lemma spawn_preserves : os_inv R -> preserves R Sys.spawn.
Proof. intros Hos. prim Sys.spawn; apply Hos. Qed.

Lemma mkdirLogDir_preserves : preserves R Sys.mkdirLogDir.
Proof. prim Sys.mkdirLogDir. Qed.

Lemma openLogFile_preserves : preserves R Sys.openLogFile.
Proof. prim Sys.openLogFile. Qed.

Lemma sleep_preserves d : 0 <= d -> wait_inv R -> preserves R (sleep d).
Proof. intros Hd Hw. apply (preserves_modify R). intros; by apply Hw. Qed.

Lemma record_preserves c : call_inv c R -> preserves R (record c).
Proof. intros Hc. apply (preserves_modify R). intros; apply Hc. Qed.

Lemma getDb_preserves : preserves R Db.getDb.
Proof. unfold Db.getDb. by apply (preserves_gets R). Qed.

Lemma fetch_preserves req :
  tg_inv R -> wait_inv R -> preserves R (Tg.fetch req).
Proof.
  intros Htg Hw w r w' H. unfold Tg.fetch in H.
  destruct (match script (telegram w) with
            | [] => _ | r0 :: rest => _ end) as [reply rest].
  assert (Hstep : forall g,
    R w (set_telegram g
           (set_now (fun t => t + Z.of_N (latency reply)) w))).
  { intros g. transitivity
      (set_now (fun t => t + Z.of_N (latency reply)) w);
      [apply Hw; lia | apply Htg]. }
  destruct (outcome reply); simplify_eq; try apply Hstep.
  destruct (Tg.serve req (subscription (telegram w))).
  simplify_eq. apply Hstep.
Qed.

Lemma notifyOwner_preserves title content :
  alerts_inv R -> preserves R (notifyOwner title content).
Proof.
  intros Ha. unfold notifyOwner. apply (preserves_bind R).
  - apply (preserves_modify R). intros; apply Ha.
  - intros. apply (preserves_mret R).
Qed.

End Primitives.

#[global] Hint Resolve process_kill_preserves readPidFile_preserves
  writePidFile_preserves unlinkPidFile_preserves pgrep_preserves
  lsof_preserves ps_preserves spawn_preserves mkdirLogDir_preserves
  openLogFile_preserves record_preserves
  getDb_preserves fetch_preserves notifyOwner_preserves : preserves.
#[global] Hint Extern 2 (preserves ?R (sleep ?d)) =>
  (apply (sleep_preserves R d); [ lia | ]) : preserves.
#[global] Hint Extern 1 (PreOrder _) => typeclasses eauto : preserves.

(** ** GatewayProcessManager: what the methods leave alone *)

Section ProcessManagerFrame.
Import GatewayProcessManager.
Context (R : relation World) `{!PreOrder R}.
Context (Hos : os_inv R) (Hwait : wait_inv R).

Lemma clearPidFile_preserves : preserves R clearPidFile.
Proof. unfold clearPidFile. preserves_tac. Qed.

Lemma isProcessRunning_preserves pid : preserves R (isProcessRunning pid).
Proof. unfold isProcessRunning. preserves_tac. Qed.

Lemma savePid_preserves pid : preserves R (savePid pid).
Proof. unfold savePid. preserves_tac. Qed.

Local Hint Resolve clearPidFile_preserves isProcessRunning_preserves
  savePid_preserves : preserves.

Lemma getCurrentPid_preserves : preserves R getCurrentPid.
Proof. unfold getCurrentPid. preserves_tac. Qed.

Lemma isPortListening_preserves : preserves R isPortListening.
Proof. unfold isPortListening. preserves_tac. Qed.

Lemma getProcessMetrics_preserves pid : preserves R (getProcessMetrics pid).
Proof. unfold getProcessMetrics. preserves_tac. Qed.

Local Hint Resolve getCurrentPid_preserves isPortListening_preserves
  getProcessMetrics_preserves : preserves.

Lemma waitForStartup_loop_preserves fuel pid startTime :
  preserves R (waitForStartup_loop fuel pid startTime).
Proof. induction fuel as [|n IH]; cbn [waitForStartup_loop]; preserves_tac. Qed.

Lemma waitForShutdown_loop_preserves fuel pid startTime timeout :
  preserves R (waitForShutdown_loop fuel pid startTime timeout).
Proof. induction fuel as [|n IH]; cbn [waitForShutdown_loop]; preserves_tac. Qed.

Local Hint Resolve waitForStartup_loop_preserves
  waitForShutdown_loop_preserves : preserves.

Lemma waitForStartup_preserves pid : preserves R (waitForStartup pid).
Proof. unfold waitForStartup. preserves_tac. Qed.

Lemma waitForShutdown_preserves pid timeout :
  preserves R (waitForShutdown pid timeout).
Proof. unfold waitForShutdown. preserves_tac. Qed.

Local Hint Resolve waitForStartup_preserves waitForShutdown_preserves
  : preserves.

Lemma getStatus_preserves : preserves R getStatus.
Proof. unfold getStatus. preserves_tac. Qed.

Lemma healthCheck_preserves : preserves R healthCheck.
Proof. unfold healthCheck. preserves_tac. Qed.

Lemma stop_preserves : call_inv CallStop R -> preserves R stop.
Proof. intros Hc. unfold stop. preserves_tac. Qed.

Local Hint Resolve stop_preserves healthCheck_preserves : preserves.

Lemma start_preserves :
  call_inv CallStop R -> call_inv CallStart R -> preserves R start.
Proof. intros Hc1 Hc2. unfold start. preserves_tac. Qed.

Local Hint Resolve start_preserves : preserves.

Lemma restart_preserves reason :
  call_inv CallStop R -> call_inv CallStart R ->
  call_inv (CallRestart reason) R -> preserves R (restart reason).
Proof. intros Hc1 Hc2 Hc3. unfold restart. preserves_tac. Qed.

End ProcessManagerFrame.

#[global] Hint Resolve clearPidFile_preserves isProcessRunning_preserves
  savePid_preserves getCurrentPid_preserves isPortListening_preserves
  getProcessMetrics_preserves waitForStartup_preserves
  waitForShutdown_preserves getStatus_preserves healthCheck_preserves
  stop_preserves start_preserves restart_preserves : preserves.

(** ** GatewayProcessManager: what the helpers compute *)

Section ProcessManagerFacts.
Import GatewayProcessManager.

Lemma isProcessRunning_eq pid w :
  isProcessRunning pid w = (Ok (Sys.probe w pid), w).
Proof.
  unfold isProcessRunning, Sys.probe, Sys.process_kill. monad_unfold.
  destruct (pid =? 0); [done|]. cbn.
  destruct (Sys.find_proc w pid) as [q|]; [|done].
  by destruct (proc_signalable q).
Qed.

Lemma getCurrentPid_eq w :
  getCurrentPid w =
  match pidFile (os w) with
  | Some pidContent => (Ok (Js.parseInt (Js.trim pidContent)), w)
  | None =>
      match discovered w with
      | Some pid =>
          (Ok (Some pid),
           set_os (Sys.set_pidFile (Some (Js.toString pid))) w)
      | None => (Ok None, w)
      end
  end.
Proof.
  unfold getCurrentPid, discovered, Sys.readPidFile, savePid,
    Sys.writePidFile.
  monad_unfold.
  destruct (pidFile (os w)); [done|].
  destruct (Sys.pgrep w) as [[stdout|e] w1] eqn:E.
  - assert (w1 = w) as ->.
    { unfold Sys.pgrep in E. by repeat case_match; simplify_eq. }
    by destruct (last_pid stdout).
  - assert (w1 = w) as ->.
    { unfold Sys.pgrep in E. by repeat case_match; simplify_eq. }
    done.
Qed.

Lemma getCurrentPid_no_throw : no_throw getCurrentPid.
Proof.
  intros w. rewrite getCurrentPid_eq.
  repeat case_match; eauto.
Qed.

Lemma isPortListening_eq w : exists b, isPortListening w = (Ok b, w).
Proof.
  unfold isPortListening, Sys.lsof. monad_unfold.
  repeat case_match; simplify_eq; eauto.
Qed.

Lemma getProcessMetrics_eq pid w :
  exists m, getProcessMetrics pid w = (Ok m, w).
Proof.
  unfold getProcessMetrics, Sys.ps. monad_unfold.
  repeat case_match; simplify_eq; eauto.
Qed.

Lemma clearPidFile_eq w :
  exists w', clearPidFile w = (Ok tt, w') /\
    pidFile (os w') = None /\ procs (os w') = procs (os w) /\
    now w' = now w.
Proof.
  unfold clearPidFile, Sys.unlinkPidFile. monad_unfold.
  destruct (pidFile (os w)) eqn:E; eauto 10.
Qed.

Lemma alive_probe w pid : Sys.alive w pid -> Sys.probe w pid = true.
Proof.
  intros (q & Hq & Hs). unfold Sys.probe. rewrite Hq, Hs.
  apply orb_true_r.
Qed.

Lemma alive_nonzero w pid : Sys.alive w pid -> pid <> 0.
Proof. intros (q & Hq & _) ->. discriminate. Qed.

Lemma probe_zero w : Sys.probe w 0 = true.
Proof. reflexivity. Qed.

End ProcessManagerFacts.

(** ** Claims about [getStatus] *)

Section GetStatus.
Import GatewayProcessManager.

(** C10.  Every status that [getStatus] returns has [status = running]
    exactly when [pid] is not null; when the status is [stopped] or
    [error], the pid is null and uptime, cpuUsage and memoryUsage are 0.
    [getStatus] returns in every world. *)
Theorem getStatus_running_iff_pid w :
  exists st w', getStatus w = (Ok st, w') /\
    (GatewayStatus.status st = Status.running <->
     GatewayStatus.pid st <> None) /\
    (GatewayStatus.status st <> Status.running ->
     GatewayStatus.pid st = None /\ GatewayStatus.uptime st = 0 /\
     GatewayStatus.cpuUsage st = 0%Q /\
     GatewayStatus.memoryUsage st = 0%Q).
Proof.
  unfold getStatus. monad_unfold.
  destruct (getCurrentPid_no_throw w) as (pid & w1 & ->).
  destruct (Js.number_or_null pid) as [p|].
  - rewrite isProcessRunning_eq. destruct (Sys.probe w1 p); cbn.
    + destruct (getProcessMetrics_eq p w1) as (m & ->).
      eexists _, _. split; [reflexivity|]. cbn. split; [|done].
      split; done.
    + destruct (clearPidFile_eq w1) as (w2 & -> & _).
      eexists _, _. split; [reflexivity|]. cbn. split; [|done].
      split; done.
  - eexists _, _. split; [reflexivity|]. cbn. split; [|done].
    split; done.
Qed.


End GetStatus.

(** ** Methods that never throw *)

Lemma no_throw_mret {A} (a : A) : no_throw (mret a).
Proof. intros w. by eexists _, _. Qed.

Lemma no_throw_bind {A B} (m : M A) (k : A -> M B) :
  no_throw m -> (forall a, no_throw (k a)) -> no_throw (m ≫= k).
Proof.
  intros Hm Hk w. monad_unfold.
  destruct (Hm w) as (a & w1 & ->). apply Hk.
Qed.

Lemma no_throw_try_catch {A} (m : M A) (h : Exn -> M A) :
  (forall e, no_throw (h e)) -> no_throw (try_catch m h).
Proof.
  intros Hh w. monad_unfold.
  destruct (m w) as [[a|e] w1]; [by eexists _, _ | apply Hh].
Qed.

Lemma no_throw_record c : no_throw (record c).
Proof. intros w. by eexists _, _. Qed.

Lemma stop_no_throw : no_throw GatewayProcessManager.stop.
Proof.
  unfold GatewayProcessManager.stop.
  apply no_throw_bind; [apply no_throw_record | intros _].
  apply no_throw_try_catch. intros e. apply no_throw_mret.
Qed.

Lemma start_no_throw : no_throw GatewayProcessManager.start.
Proof.
  unfold GatewayProcessManager.start.
  apply no_throw_bind; [apply no_throw_record | intros _].
  apply no_throw_try_catch. intros e. apply no_throw_mret.
Qed.

Lemma stop_times_no_throw n : no_throw (stop_times n).
Proof.
  induction n as [|n IH]; cbn [stop_times].
  - apply no_throw_mret.
  - apply no_throw_bind; [apply stop_no_throw | intros r].
    apply no_throw_bind; [apply IH | intros rs]. apply no_throw_mret.
Qed.

Lemma dateNow_no_throw : no_throw dateNow.
Proof. intros w. by eexists _, _. Qed.

Lemma restart_no_throw reason : no_throw (GatewayProcessManager.restart reason).
Proof.
  unfold GatewayProcessManager.restart.
  apply no_throw_bind; [apply no_throw_record|]. intros _.
  apply no_throw_bind; [apply dateNow_no_throw|]. intros startTime.
  apply no_throw_try_catch. intros e.
  apply no_throw_bind; [apply dateNow_no_throw|]. intros t.
  apply no_throw_mret.
Qed.

(** ** Claims about [stop] and [restart] *)

Section StopRestart.
Import GatewayProcessManager.

Lemma find_proc_frame w w' pid :
  procs (os w') = procs (os w) -> now w' = now w ->
  Sys.find_proc w' pid = Sys.find_proc w pid.
Proof. intros Hp Hn. unfold Sys.find_proc. by rewrite Hp, Hn. Qed.

Lemma discovered_frame w w' :
  procs (os w') = procs (os w) -> now w' = now w ->
  discovered w' = discovered w.
Proof.
  intros Hp Hn. unfold discovered, Sys.pgrep, Sys.live_pids.
  rewrite Hp, Hn. by destruct (merge_sort _ _).
Qed.

(** [stop] when there is nothing to stop: the result, and the world it
    leaves. *)
Lemma stop_nothing w :
  nothing_to_stop w ->
  exists r w', stop w = (Ok r, w') /\ StopResult.success r = true /\
    procs (os w') = procs (os w) /\ now w' = now w /\
    (forall p, recorded w = Some p -> Sys.find_proc w' p = None) /\
    (pidFile (os w') = None \/ pidFile (os w') = pidFile (os w)).
Proof.
  intros Hq. unfold stop. monad_unfold.
  set (w1 := set_trace _ w).
  assert (Hd1 : discovered w1 = discovered w)
    by (by apply discovered_frame).
  assert (Hf1 : pidFile (os w1) = pidFile (os w)) by reflexivity.
  assert (Hp1 : procs (os w1) = procs (os w)) by reflexivity.
  assert (Hn1 : now w1 = now w) by reflexivity.
  clearbody w1.
  rewrite getCurrentPid_eq, Hf1, Hd1.
  destruct Hq as [[Hfile Hdisc] | (p & Hrec & Hdead)].
  - rewrite Hfile, Hdisc. cbn.
    eexists _, _. split; [reflexivity|]. cbn.
    split_and!; try done; [|right; congruence].
    intros p Hp. unfold recorded in Hp. by rewrite Hfile in Hp.
  - unfold recorded in Hrec.
    destruct (pidFile (os w)) as [s|] eqn:Hfile; [|done].
    rewrite Hrec.
    assert (Hsame : forall q, recorded w = Some q -> q = p).
    { intros q. unfold recorded. rewrite Hfile, Hrec. congruence. }
    cbn. unfold Js.truthy_number.
    destruct (p =? 0) eqn:Hz; cbn.
    + eexists _, _. split; [reflexivity|]. cbn.
      split_and!; try done; [|right; congruence].
      intros q Hq. rewrite (Hsame q Hq).
      by rewrite (find_proc_frame w w1).
    + unfold Sys.process_kill. rewrite Hz.
      rewrite (find_proc_frame w w1), Hdead by done.
      cbn. destruct (clearPidFile_eq w1) as (w2 & -> & Hnone & Hprocs & Hnow).
      eexists _, _. split; [reflexivity|]. cbn.
      split_and!; try congruence; [|by left].
      intros q Hq. rewrite (Hsame q Hq).
      rewrite (find_proc_frame w w2); congruence.
Qed.

Lemma stop_times_nothing n : forall w,
  nothing_to_stop w -> discovered w = None ->
  exists rs w', stop_times n w = (Ok rs, w') /\ length rs = n /\
    Forall (fun r => StopResult.success r = true) rs /\
    procs (os w') = procs (os w).
Proof.
  induction n as [|n IH]; intros w Hq Hdisc; cbn [stop_times].
  - by exists [], w.
  - monad_unfold.
    destruct (stop_nothing w Hq) as (r & w1 & -> & Hr & Hp & Hn & Hdead & Hfile).
    assert (Hdisc1 : discovered w1 = None)
      by (rewrite (discovered_frame w w1); done).
    assert (Hq1 : nothing_to_stop w1).
    { destruct Hfile as [Hnone | Hkeep]; [by left|].
      destruct Hq as [[Hf _] | (p & Hrec & _)].
      - left. by rewrite Hkeep.
      - right. exists p. split; [|by apply Hdead].
        unfold recorded in *. by rewrite Hkeep. }
    destruct (IH w1 Hq1 Hdisc1) as (rs & w2 & -> & Hlen & Hall & Hp2).
    exists (r :: rs), w2. cbn. repeat split; try done.
    + by rewrite Hlen.
    + by constructor.
    + by rewrite Hp2.
Qed.

(** C5, amended.  Idempotent stop.  When no pid is recorded, or the
    recorded pid names no live process, [stop] returns success, signals
    nothing (the process table and the clock are as before) and leaves no
    live process under the recorded pid.  A gateway process that is alive
    afterwards was alive before, under a pid other than the recorded one:
    [stop] does not look for it when a pid is on record.  So when no
    gateway process was alive, none is afterwards.  Repeated calls are
    safe: any number of calls in a row return, in every world, and when no
    gateway process is discoverable they all return success and leave the
    process table as it was. *)
Theorem stop_idempotent w :
  nothing_to_stop w ->
  (exists r w', stop w = (Ok r, w') /\ StopResult.success r = true /\
     procs (os w') = procs (os w) /\ now w' = now w /\
     (forall p, recorded w = Some p -> Sys.find_proc w' p = None) /\
     (forall p q, procs (os w') !! p = Some q -> proc_matches q = true ->
        proc_live (now w') q = true ->
        procs (os w) !! p = Some q /\ proc_live (now w) q = true /\
        recorded w <> Some (Z.pos p)) /\
     (no_live_gateway w -> no_live_gateway w')) /\
  (forall n, exists rs w', stop_times n w = (Ok rs, w') /\
     (discovered w = None ->
      length rs = n /\
      Forall (fun r => StopResult.success r = true) rs /\
      procs (os w') = procs (os w))).
Proof.
  intros Hq. split.
  - destruct (stop_nothing w Hq) as (r & w' & H1 & H2 & H3 & H4 & H5 & _).
    exists r, w'. split_and!; try done.
    + intros p q Hp Hm Hl. rewrite <- H3, <- H4. split_and!; try done.
      intros Hrec. specialize (H5 _ Hrec).
      unfold Sys.find_proc in H5. by rewrite Hp, Hl in H5.
    + unfold no_live_gateway. by rewrite H3, H4.
  - intros n. destruct (discovered w) eqn:Hdisc.
    + destruct (stop_times_no_throw n w) as (rs & w' & ->).
      by exists rs, w'.
    + destruct (stop_times_nothing n w Hq Hdisc) as (rs & w' & -> & H).
      by exists rs, w'.
Qed.

(** C3.  [restart] never throws: in every world it returns a
    [RestartResult] (oldPid, newPid, duration, success, message, error),
    and a failure carries a message, and an error text unless it is the
    failed health check.  When the stop phase fails, the result is the
    failure that names the stop phase, with the message of [stop] as its
    error, and [start] has not been invoked. *)
Theorem restart_never_throws reason w :
  exists r w', restart reason w = (Ok r, w') /\
    (RestartResult.success r = false ->
     RestartResult.message r <> "" /\
     (RestartResult.error r <> None \/
      RestartResult.message r =
        "New process started but health check failed")) /\
    (forall oldPid w1 sr w2,
       getCurrentPid (restart_entry reason w) = (Ok oldPid, w1) ->
       stop w1 = (Ok sr, w2) ->
       StopResult.success sr = false ->
       r = RestartResult.mk false oldPid None (now w2 - now w)
             "Failed to stop old process" (Some (StopResult.message sr)) /\
       w' = w2 /\
       start_calls (trace w') = start_calls (trace w)).
Proof.
  unfold restart, restart_entry. monad_unfold.
  set (w0 := set_trace _ w).
  assert (Hn0 : now w0 = now w) by reflexivity.
  assert (Hc0 : start_calls (trace w0) = start_calls (trace w))
    by reflexivity.
  clearbody w0. rewrite Hn0.
  destruct (getCurrentPid_no_throw w0) as (oldPid & w1 & E1).
  destruct (stop_no_throw w1) as (sr & w2 & E2).
  rewrite E1, E2.
  destruct (StopResult.success sr) eqn:Hs; cbn [negb].
  - destruct (start_no_throw (set_now (fun t => t + 2000) w2))
      as (st & w3 & ->).
    destruct (StartResult.success st); cbn [negb].
    + destruct (healthCheck _) as [[[|]|e] w4]; cbn [negb];
        (eexists _, _; split; [reflexivity|];
         cbn [RestartResult.success RestartResult.message
              RestartResult.error];
         split; [intros; split; [done | eauto]
                | intros; exfalso; congruence]).
    + eexists _, _. split; [reflexivity|].
      cbn [RestartResult.success RestartResult.message RestartResult.error].
      split; [intros; split; [done | eauto] | intros; exfalso; congruence].
  - eexists _, _. split; [reflexivity|].
      cbn [RestartResult.success RestartResult.message RestartResult.error].
    split; [intros; split; [done | eauto] |].
    intros oldPid' w1' sr' w2' Ha Hb Hc.
    injection Ha as <- <-.
    rewrite E2 in Hb. injection Hb as <- <-.
    split_and!; [done..|].
    assert (H1 : same (fun w => start_calls (trace w)) w0 w1).
    { eapply getCurrentPid_preserves;
        [typeclasses eauto | inv_tac | exact E1]. }
    assert (H2 : same (fun w => start_calls (trace w)) w1 w2).
    { eapply stop_preserves;
        [typeclasses eauto | inv_tac | inv_tac | inv_tac | exact E2]. }
    unfold same in *. rewrite H2, H1. exact Hc0.
Qed.

End StopRestart.

(** ** server/db.ts: what the queries do *)

Section DbFacts.

Lemma getGatewaySetting_eq key d w :
  Db.getGatewaySetting key d w =
  (Ok (resolve (database w) key d), materialize key d w).
Proof.
  unfold Db.getGatewaySetting, Db.getDb, Db.query, resolve, materialize.
  monad_unfold.
  destruct (dbStatus (database w)) eqn:Hst; cbn; try done.
  - rewrite Hst. done.
  - rewrite Hst.
    destruct (gatewaySettings (database w) !! key) as [row|]; [done|].
    destruct d as [d|]; [|done]. cbn. by rewrite Hst.
Qed.

Lemma insertWebhookStatusLog_eq log w :
  Db.insertWebhookStatusLog log w =
  match dbStatus (database w) with
  | DbHealthy =>
      (Ok tt, set_database (Db.set_webhookLogs
                              (fun l => (l ++ [log])%list)) w)
  | DbFailing => (Throw (DbError "query failed"), w)
  | DbUnavailable => (Ok tt, w)
  end.
Proof.
  unfold Db.insertWebhookStatusLog, Db.getDb, Db.query. monad_unfold.
  destruct (dbStatus (database w)) eqn:Hst; cbn; try done;
    by rewrite Hst.
Qed.

Lemma insertGatewayRestartLog_eq log w :
  Db.insertGatewayRestartLog log w =
  match dbStatus (database w) with
  | DbHealthy =>
      (Ok tt, set_database (Db.set_restartLogs
                (fun l => (l ++ [Db.stamp (now w / 1000) log])%list)) w)
  | DbFailing => (Throw (DbError "query failed"), w)
  | DbUnavailable => (Ok tt, w)
  end.
Proof.
  unfold Db.insertGatewayRestartLog, Db.getDb, Db.query. monad_unfold.
  destruct (dbStatus (database w)) eqn:Hst; cbn; try done;
    by rewrite Hst.
Qed.

Lemma getRecentRestartAttempts_eq w :
  Db.getRecentRestartAttempts 5 w = (Ok (recent_attempts w), w).
Proof.
  unfold Db.getRecentRestartAttempts, Db.getDb, Db.query, recent_attempts.
  monad_unfold.
  destruct (dbStatus (database w)) eqn:Hst; cbn; try done;
    by rewrite Hst.
Qed.

(** The query of [getRecentRestartAttempts] selects the records that are
    recent, of every trigger type. *)
Lemma recent_restarts_counted T l :
  Z.of_nat (length (Db.recent_restarts (T - 5 * 60 * 1000) l)) =
  recent_of webhook_check T l + recent_of manual T l +
  recent_of health_check T l + recent_of scheduled T l.
Proof.
  unfold Db.recent_restarts, recent_of.
  induction l as [|r l IH]; [done|].
  cbn [List.filter]. rewrite !filter_cons.
  destruct (Z.leb_spec (T - 5 * 60 * 1000) (createdAt r * 1000)) as [Hr|Hr].
  - cbn [length]. rewrite Nat2Z.inj_succ, IH.
    assert (recent T r) as Hrec by (unfold recent; lia).
    destruct (triggerType r) eqn:Htt; repeat case_decide;
      try (match goal with
           | H : _ = _ /\ _ |- _ => destruct H as [? _]; discriminate
           end);
      try (match goal with
           | H : ~ (?a = ?a /\ _) |- _ => exfalso; apply H; by split
           end);
      cbn [length]; lia.
  - rewrite IH.
    assert (~ recent T r) as Hrec by (unfold recent; lia).
    repeat case_decide;
      try (match goal with
           | H : _ /\ recent _ _ |- _ => by destruct H
           end).
    done.
Qed.

Lemma recent_attempts_counted w :
  dbStatus (database w) = DbHealthy ->
  recent_attempts w = counted (now w) w.
Proof.
  intros Hh. unfold recent_attempts, counted. rewrite Hh.
  apply recent_restarts_counted.
Qed.

Lemma getTelegramBotToken_eq w :
  exists t, Db.getTelegramBotToken w = (Ok t, w).
Proof.
  unfold Db.getTelegramBotToken, Db.getDb, Db.query. monad_unfold.
  destruct (dbStatus (database w)) eqn:Hst; cbn; eauto; rewrite Hst; eauto.
  destruct (match find enabled _ with Some c => _ | None => _ end); eauto.
Qed.

Lemma resolve_frame d d' key dv :
  dbStatus d' = dbStatus d -> gatewaySettings d' = gatewaySettings d ->
  resolve d' key dv = resolve d key dv.
Proof. intros H1 H2. unfold resolve. by rewrite H1, H2. Qed.

(** Reading one setting does not change what another resolves to. *)
Lemma resolve_materialize key dv w key' dv' :
  key <> key' ->
  resolve (database (materialize key dv w)) key' dv' =
  resolve (database w) key' dv'.
Proof.
  intros Hne. unfold materialize.
  destruct (dbStatus (database w)) eqn:Hst; try done.
  destruct (gatewaySettings (database w) !! key); try done.
  destruct dv; try done.
  unfold resolve. cbn. rewrite Hst. by rewrite lookup_insert_ne.
Qed.

Lemma materialize_present key dv w :
  resolve (database w) key dv <> dv ->
  materialize key dv w = w.
Proof.
  unfold resolve, materialize.
  destruct (dbStatus (database w)); try done.
  destruct (gatewaySettings (database w) !! key); done.
Qed.

End DbFacts.

Section DbFrame.
Context (R : relation World) `{!PreOrder R}.

Lemma materialize_preserves key dv w :
  settings_inv R -> R w (materialize key dv w).
Proof.
  intros Hs. unfold materialize. repeat case_match; try reflexivity.
  apply Hs.
Qed.

Lemma getGatewaySetting_preserves key dv :
  settings_inv R -> preserves R (Db.getGatewaySetting key dv).
Proof.
  intros Hs w r w' H. rewrite getGatewaySetting_eq in H. simplify_eq.
  by apply materialize_preserves.
Qed.

Lemma getGatewaySetting_None_preserves key :
  preserves R (Db.getGatewaySetting key None).
Proof.
  intros w r w' H. rewrite getGatewaySetting_eq in H. simplify_eq.
  unfold materialize. repeat case_match; reflexivity.
Qed.

Lemma setGatewaySetting_preserves key v dsc :
  settings_inv R -> preserves R (Db.setGatewaySetting key v dsc).
Proof.
  intros Hs. unfold Db.setGatewaySetting. preserves_tac;
    apply (preserves_query R); intros; cbn; first [reflexivity | apply Hs].
Qed.

Lemma insertWebhookStatusLog_preserves log :
  wlogs_inv R -> preserves R (Db.insertWebhookStatusLog log).
Proof.
  intros Hs w r w' H. rewrite insertWebhookStatusLog_eq in H.
  repeat case_match; simplify_eq; first [reflexivity | apply Hs].
Qed.

Lemma insertGatewayRestartLog_preserves log :
  rlogs_inv R -> preserves R (Db.insertGatewayRestartLog log).
Proof.
  intros Hs w r w' H. rewrite insertGatewayRestartLog_eq in H.
  repeat case_match; simplify_eq; first [reflexivity | apply Hs].
Qed.

Lemma getRecentRestartAttempts_preserves :
  preserves R (Db.getRecentRestartAttempts 5).
Proof.
  intros w r w' H. rewrite getRecentRestartAttempts_eq in H.
  simplify_eq. reflexivity.
Qed.

Lemma getTelegramBotToken_preserves : preserves R Db.getTelegramBotToken.
Proof.
  intros w r w' H. destruct (getTelegramBotToken_eq w) as (t & E).
  rewrite E in H. simplify_eq. reflexivity.
Qed.

End DbFrame.

#[global] Hint Resolve getGatewaySetting_preserves
  getGatewaySetting_None_preserves setGatewaySetting_preserves
  insertWebhookStatusLog_preserves insertGatewayRestartLog_preserves
  getRecentRestartAttempts_preserves getTelegramBotToken_preserves
  : preserves.

(** ** WebhookPollerService: what the methods leave alone *)

Section PollerFrame.
Import WebhookPoller.
Context (R : relation World) `{!PreOrder R}.
Context (Htg : tg_inv R) (Hwait : wait_inv R).

Lemma getBotToken_preserves : preserves R getBotToken.
Proof. unfold getBotToken. preserves_tac. Qed.

Local Hint Resolve getBotToken_preserves : preserves.

Lemma checkWebhookStatus_preserves : preserves R checkWebhookStatus.
Proof. unfold checkWebhookStatus. preserves_tac. Qed.

Lemma applyWebhook_preserves : preserves R applyWebhook.
Proof. unfold applyWebhook. preserves_tac. Qed.

Lemma resetWebhook_preserves : preserves R resetWebhook.
Proof. unfold resetWebhook. preserves_tac. Qed.

Lemma deleteWebhook_preserves : preserves R deleteWebhook.
Proof. unfold deleteWebhook. preserves_tac. Qed.

End PollerFrame.

#[global] Hint Resolve getBotToken_preserves checkWebhookStatus_preserves
  applyWebhook_preserves resetWebhook_preserves deleteWebhook_preserves
  : preserves.

(** ** Frames of the methods a cycle calls *)

Lemma bind_inv {A B} (m : M A) (k : A -> M B) w r w' :
  (m ≫= k) w = (r, w') ->
  (exists a w1, m w = (Ok a, w1) /\ k a w1 = (r, w')) \/
  (exists e, m w = (Throw e, w') /\ r = Throw e).
Proof.
  monad_unfold. destruct (m w) as [[a|e] w1]; intros H.
  - left. by exists a, w1.
  - right. simplify_eq. by exists e.
Qed.

Section CycleFrames.
Import GatewayProcessManager WebhookPoller.

Lemma fetch_info_subscription w r w' :
  Tg.fetch GetWebhookInfo w = (r, w') ->
  subscription (telegram w') = subscription (telegram w).
Proof.
  unfold Tg.fetch. intros H.
  destruct (match script (telegram w) with
            | [] => _ | r0 :: rest => _ end) as [reply rest].
  destruct (outcome reply); cbn in H; by simplify_eq.
Qed.

Lemma getBotToken_eq w : exists t, getBotToken w = (Ok t, w).
Proof.
  unfold getBotToken. monad_unfold.
  destruct (getTelegramBotToken_eq w) as (t & ->).
  destruct (Js.string_or_null t); eauto.
Qed.

Lemma checkWebhookStatus_no_throw : no_throw checkWebhookStatus.
Proof.
  unfold checkWebhookStatus. apply no_throw_try_catch.
  intros e. apply no_throw_mret.
Qed.

Lemma resetWebhook_no_throw : no_throw resetWebhook.
Proof.
  unfold resetWebhook. apply no_throw_try_catch.
  intros e. apply no_throw_mret.
Qed.

Lemma checkWebhookStatus_frame w r w1 :
  checkWebhookStatus w = (r, w1) ->
  os w1 = os w /\ database w1 = database w /\ alerts w1 = alerts w /\
  trace w1 = trace w /\ now w <= now w1 /\
  subscription (telegram w1) = subscription (telegram w).
Proof.
  intros H. split_and!.
  - eapply (checkWebhookStatus_preserves (same os)); [inv_tac.. | done].
  - eapply (checkWebhookStatus_preserves (same database)); [inv_tac.. | done].
  - eapply (checkWebhookStatus_preserves (same alerts)); [inv_tac.. | done].
  - eapply (checkWebhookStatus_preserves (same trace)); [inv_tac.. | done].
  - eapply (checkWebhookStatus_preserves clock_mono); [inv_tac.. | done].
  - revert H. unfold checkWebhookStatus. monad_unfold.
    destruct (getBotToken_eq w) as ([tok|] & ->); [|by intros; simplify_eq].
    destruct (Tg.fetch GetWebhookInfo w) as [[resp|e] w2] eqn:E.
    + apply fetch_info_subscription in E. intros H.
      repeat case_match; by simplify_eq.
    + apply fetch_info_subscription in E. intros H. by simplify_eq.
Qed.

Lemma resetWebhook_frame w r w' :
  resetWebhook w = (r, w') ->
  os w' = os w /\ database w' = database w /\ alerts w' = alerts w /\
  trace w' = trace w /\ now w <= now w'.
Proof.
  intros H. split_and!.
  - eapply (resetWebhook_preserves (same os)); [inv_tac.. | done].
  - eapply (resetWebhook_preserves (same database)); [inv_tac.. | done].
  - eapply (resetWebhook_preserves (same alerts)); [inv_tac.. | done].
  - eapply (resetWebhook_preserves (same trace)); [inv_tac.. | done].
  - eapply (resetWebhook_preserves clock_mono); [inv_tac.. | done].
Qed.

Lemma restart_frame reason w r w' :
  restart reason w = (r, w') ->
  database w' = database w /\ alerts w' = alerts w /\
  telegram w' = telegram w /\ now w <= now w' /\
  restart_calls (trace w') = now w :: restart_calls (trace w).
Proof.
  intros H. split_and!.
  - eapply (restart_preserves (same database)); [inv_tac.. | done].
  - eapply (restart_preserves (same alerts)); [inv_tac.. | done].
  - eapply (restart_preserves (same telegram)); [inv_tac.. | done].
  - eapply (restart_preserves clock_mono); [inv_tac.. | done].
  - unfold restart in H. apply bind_inv in H
      as [(a & w0 & H0 & H1) | (e & H0 & _)]; [|done].
    cbv beta in H1.
    match type of H1 with
    | ?m ?w0 = _ =>
        assert (Hp : preserves (same (fun w => restart_calls (trace w))) m)
          by preserves_tac;
        apply Hp in H1
    end.
    unfold record, modify in H0. simplify_eq. exact H1.
Qed.

Lemma materialize_frame key dv w :
  os (materialize key dv w) = os w /\
  telegram (materialize key dv w) = telegram w /\
  alerts (materialize key dv w) = alerts w /\
  trace (materialize key dv w) = trace w /\
  now (materialize key dv w) = now w /\
  dbStatus (database (materialize key dv w)) = dbStatus (database w) /\
  gatewayRestartLogs (database (materialize key dv w)) =
    gatewayRestartLogs (database w) /\
  webhookStatusLogs (database (materialize key dv w)) =
    webhookStatusLogs (database w).
Proof. unfold materialize. repeat case_match; done. Qed.

End CycleFrames.

(** ** One cycle of [checkAndRestart], with the database healthy *)

Section Cycle.
Import GatewayProcessManager WebhookPoller.

Lemma cycle_healthy w :
  dbStatus (database w) = DbHealthy ->
  exists st w1 w',
    checkWebhookStatus w = (Ok st, w1) /\
    checkAndRestart w = (Ok tt, w') /\
    now w <= now w1 /\ now w1 <= now w' /\
    dbStatus (database w') = DbHealthy /\
    let auto := resolve (database w) "auto_restart_enabled" (Some "true") in
    let maxAttempts :=
      parse_max (resolve (database w) "max_restart_attempts" (Some "3")) in
    ((WebhookStatus.isActive st = true \/ auto <> Some "true") /\
     quiet_cycle w w1 w' st) \/
    (WebhookStatus.isActive st = false /\ auto = Some "true" /\
     limit_reached (counted (now w1) w) maxAttempts = true /\
     alert_cycle w w1 w' st) \/
    (WebhookStatus.isActive st = false /\ auto = Some "true" /\
     limit_reached (counted (now w1) w) maxAttempts = false /\
     restart_cycle w w1 w' st).
Proof.
  intros Hh.
  destruct (checkWebhookStatus_no_throw w) as (st & w1 & E1).
  destruct (checkWebhookStatus_frame _ _ _ E1)
    as (Hos1 & Hdb1 & Hal1 & Htr1 & Hn1 & _).
  exists st, w1.
  unfold checkAndRestart. monad_unfold. rewrite E1.
  rewrite insertWebhookStatusLog_eq, Hdb1, Hh.
  set (w2 := set_database _ w1).
  destruct (WebhookStatus.isActive st) eqn:Hact; cbn [negb].
  { exists w2. subst w2. cbn. rewrite Hdb1, Hh.
    split_and!; [done|done|lia|lia|done|].
    left. split; [by left|]. unfold quiet_cycle, first_log. cbn.
    rewrite Hdb1, Hact. by split_and!. }
  rewrite getGatewaySetting_eq.
  assert (Hres : forall k dv,
    resolve (database w2) k dv = resolve (database w) k dv).
  { intros. apply resolve_frame; subst w2; cbn; by rewrite Hdb1. }
  rewrite Hres.
  assert (Hh2 : dbStatus (database w2) = DbHealthy)
    by (subst w2; cbn; by rewrite Hdb1).
  assert (Hn2 : now w2 = now w1) by done.
  assert (Hwl2 : webhookStatusLogs (database w2) =
            (webhookStatusLogs (database w) ++
             [first_log st (now w1) (now w1 - now w)])%list).
  { subst w2. unfold first_log. cbn. by rewrite Hdb1, Hact. }
  assert (Hrl2 : gatewayRestartLogs (database w2) =
                 gatewayRestartLogs (database w))
    by (subst w2; cbn; by rewrite Hdb1).
  assert (Hos2 : os w2 = os w) by done.
  assert (Htr2 : trace w2 = trace w) by done.
  assert (Hal2 : alerts w2 = alerts w) by done.
  assert (Htg2 : telegram w2 = telegram w1) by done.
  clearbody w2.
  destruct (materialize_frame "auto_restart_enabled" (Some "true") w2)
    as (Hosa & Htga & Hala & Htra & Hna & Hsta & Hrla & Hwla).
  pose proof (resolve_materialize "auto_restart_enabled" (Some "true") w2
                "max_restart_attempts" (Some "3") ltac:(done)) as Hmax.
  set (w2a := materialize "auto_restart_enabled" (Some "true") w2) in *.
  clearbody w2a.
  rewrite Hos2 in Hosa. rewrite Htg2 in Htga. rewrite Hal2 in Hala.
  rewrite Htr2 in Htra. rewrite Hn2 in Hna. rewrite Hh2 in Hsta.
  rewrite Hrl2 in Hrla. rewrite Hwl2 in Hwla. rewrite Hres in Hmax.
  clear Hos2 Htg2 Hal2 Htr2 Hn2 Hh2 Hrl2 Hwl2 Hres. clear w2.
  case_bool_decide as Hauto; cbn [negb].
  2: { exists w2a. split_and!; [done|done|lia|lia|done|].
       left. split; [by right|]. unfold quiet_cycle. by split_and!. }
  rewrite getRecentRestartAttempts_eq, getGatewaySetting_eq, Hmax.
  assert (Hcount : recent_attempts w2a = counted (now w1) w).
  { rewrite recent_attempts_counted by done.
    unfold counted. by rewrite Hrla, Hna. }
  rewrite Hcount.
  destruct (materialize_frame "max_restart_attempts" (Some "3") w2a)
    as (Hosb & Htgb & Halb & Htrb & Hnb & Hhb & Hrlb & Hwlb).
  set (w2b := materialize "max_restart_attempts" (Some "3") w2a) in *.
  clearbody w2b.
  rewrite Hosa in Hosb. rewrite Htga in Htgb. rewrite Hala in Halb.
  rewrite Htra in Htrb. rewrite Hna in Hnb. rewrite Hsta in Hhb.
  rewrite Hrla in Hrlb. rewrite Hwla in Hwlb.
  clear Hosa Htga Hala Htra Hna Hsta Hrla Hwla Hcount Hmax. clear w2a.
  destruct (limit_reached _ _) eqn:Hlim.
  { unfold notifyOwner. monad_unfold.
    rewrite insertWebhookStatusLog_eq. cbn. rewrite Hhb.
    eexists. split_and!; [done|reflexivity|lia| | |].
    - cbn. lia.
    - cbn. done.
    - right. left. do 3 (split; [done|]).
      unfold alert_cycle. cbn. rewrite Hwlb, Hrlb, Hosb, Htrb, Halb, Hnb.
      rewrite <- (assoc_L (++)). split_and!; [done..| |done|done].
      by eexists. }
  destruct (restart_no_throw (Some "webhook_check") w2b)
    as (rr & w3 & E3).
  rewrite E3.
  destruct (restart_frame _ _ _ _ E3) as (Hdb3 & Hal3 & Htg3 & Hn3 & Hrc3).
  rewrite insertGatewayRestartLog_eq, Hdb3, Hhb.
  set (w4 := set_database _ w3).
  assert (Hh4 : dbStatus (database w4) = DbHealthy)
    by (subst w4; cbn; by rewrite Hdb3).
  assert (Hrl4 : gatewayRestartLogs (database w4) =
            (gatewayRestartLogs (database w) ++
             [Db.stamp (now w3 / 1000) (attempt_log st rr)])%list)
    by (subst w4; cbn; by rewrite Hdb3, Hrlb).
  assert (Hwl4 : webhookStatusLogs (database w4) =
            (webhookStatusLogs (database w) ++
             [first_log st (now w1) (now w1 - now w)])%list)
    by (subst w4; cbn; by rewrite Hdb3, Hwlb).
  assert (Htr4 : restart_calls (trace w4) =
                 now w1 :: restart_calls (trace w))
    by (rewrite <- Htrb, <- Hnb; exact Hrc3).
  assert (Hal4 : alerts w4 = alerts w)
    by (rewrite <- Halb, <- Hal3; done).
  assert (Hn4 : now w4 = now w3) by done.
  clearbody w4.
  destruct (RestartResult.success rr) eqn:Hsucc.
  - destruct (resetWebhook_no_throw (set_now (fun t => t + 5000) w4))
      as ([] & w6 & E6).
    rewrite E6.
    destruct (resetWebhook_frame _ _ _ E6)
      as (Hos6 & Hdb6 & Hal6 & Htr6 & Hn6).
    cbn in Hdb6, Hal6, Htr6, Hn6.
    rewrite insertWebhookStatusLog_eq, Hdb6, Hh4.
    eexists. split; [done|]. split; [reflexivity|].
    split; [lia|]. split; [cbn; lia|]. split; [cbn; by rewrite Hdb6|].
    right. right. do 3 (split; [done|]).
    exists w2b, rr, w3, [restart_log st (now w6) rr].
    cbn -[restart_calls]. rewrite Hdb6, Hrl4, Hwl4, Htr6, Hal6, Htr4, Hal4.
    rewrite <- (assoc_L (++)).
    split_and!; [done|done|done|done|done|lia|lia|done|done|done|].
    left. split; [done|]. by eexists.
  - eexists. split; [done|]. split; [reflexivity|].
    split; [lia|]. split; [lia|]. split; [done|].
    right. right. do 3 (split; [done|]).
    exists w2b, rr, w3, [].
    rewrite Hrl4, Hwl4, Htr4, Hal4.
    split_and!; [done|done|done|done|done|lia|lia|done|done|done|].
    by right.
Qed.

End Cycle.

(** ** Claims about one reconciliation cycle *)

Section CycleClaims.
Import GatewayProcessManager WebhookPoller.

Lemma truthy_string_true s : Js.truthy_string s = true <-> s <> "".
Proof.
  unfold Js.truthy_string. rewrite negb_true_iff.
  destruct (String.eqb_spec s ""); split; congruence.
Qed.

Lemma is_active_iff info :
  is_active info = true <->
  url info <> "" /\
  (last_error_date info = None \/ last_error_date info = Some 0 \/
   pending_update_count info = 0).
Proof.
  unfold is_active. rewrite andb_true_iff, orb_true_iff, truthy_string_true.
  rewrite Z.eqb_eq, negb_true_iff.
  split; intros [Hu Hd]; (split; [exact Hu|]).
  - destruct Hd as [Hd|Hd]; [|tauto].
    destruct (last_error_date info) as [d|]; [|tauto].
    unfold Js.truthy_number in Hd. apply negb_false_iff, Z.eqb_eq in Hd.
    subst. tauto.
  - destruct Hd as [Hd|[Hd|Hd]]; [| |tauto]; rewrite Hd; by left.
Qed.

(** C4, amended.  For every provider response that is obtained (the bot
    token is configured and the request is served), the subscription is
    judged active exactly when its URL is non-empty and the last-error
    date is absent or zero, or the pending update count is zero. *)
Theorem checkWebhookStatus_activity w tok :
  getBotToken w = (Ok (Some tok), w) -> served_next w ->
  exists st w', checkWebhookStatus w = (Ok st, w') /\
    (WebhookStatus.isActive st = true <->
     url (subscription (telegram w)) <> "" /\
     (last_error_date (subscription (telegram w)) = None \/
      last_error_date (subscription (telegram w)) = Some 0 \/
      pending_update_count (subscription (telegram w)) = 0)).
Proof.
  intros Htok Hserved. unfold checkWebhookStatus. monad_unfold.
  rewrite Htok. unfold Tg.fetch. unfold served_next in Hserved.
  destruct (script (telegram w)) as [|reply rest]; cbn.
  - eexists _, _. split; [reflexivity|]. cbn. apply is_active_iff.
  - rewrite Hserved. cbn.
    eexists _, _. split; [reflexivity|]. cbn. apply is_active_iff.
Qed.

Lemma resolve_default_unhealthy d key dv :
  dbStatus d <> DbHealthy -> resolve d key dv = Js.string_or_null dv.
Proof. unfold resolve. by destruct (dbStatus d). Qed.

(** C8.  When the setting auto_restart_enabled resolves to something
    other than true, a cycle of [checkAndRestart] never invokes [restart]
    and takes no corrective action, whatever the check finds (an inactive
    webhook in particular) and whatever the restart history holds: the
    calls on record, the processes and the pid file, the alerts, the
    provider's subscription and the restart records are as before. *)
Theorem auto_restart_override w :
  resolve (database w) "auto_restart_enabled" (Some "true") <> Some "true" ->
  exists st w1 w',
    checkWebhookStatus w = (Ok st, w1) /\
    checkAndRestart w = (Ok tt, w') /\
    trace w' = trace w /\ os w' = os w /\ alerts w' = alerts w /\
    subscription (telegram w') = subscription (telegram w) /\
    gatewayRestartLogs (database w') = gatewayRestartLogs (database w).
Proof.
  intros Hoff.
  assert (Hh : dbStatus (database w) = DbHealthy).
  { destruct (dbStatus (database w)) eqn:Hst; [| |done];
      exfalso; apply Hoff; by rewrite resolve_default_unhealthy
        by (rewrite Hst; done). }
  destruct (cycle_healthy w Hh)
    as (st & w1 & w' & E1 & E2 & _ & _ & _ & Hcases).
  exists st, w1, w'. split; [done|]. split; [done|].
  destruct (checkWebhookStatus_frame _ _ _ E1) as (_ & _ & _ & _ & _ & Hsub).
  destruct Hcases as [[_ Hq] | [(_ & Hon & _) | (_ & Hon & _)]]; [|done..].
  destruct Hq as (_ & Hrl & Hos & Htr & Hal & Htg & _).
  split_and!; try done. by rewrite Htg.
Qed.

(** C9, amended.  The rate limit counts every restart record of the last
    five minutes, whatever its trigger type, when the database can be
    read.  Take a cycle on a healthy database
    that finds the webhook inactive (auto-restart on,
    max_restart_attempts = m), and let [j] be the number of
    webhook-triggered records and [k] the number of records of the three
    other trigger types (manual, health_check, scheduled) whose stamp is at
    most five minutes old when the cycle has made its check.  Then
    [getRecentRestartAttempts(5)] returns [j + k] over these records, and
    the cycle invokes [restart] exactly when [j < m - k]; from
    [m - k <= j] on it sends the alert and records it instead. *)
Theorem rate_limit_counts_every_trigger w m st w1 w' :
  dbStatus (database w) = DbHealthy ->
  max_attempts_is m w -> auto_restart_on w ->
  checkWebhookStatus w = (Ok st, w1) ->
  WebhookStatus.isActive st = false ->
  checkAndRestart w = (Ok tt, w') ->
  let logs := gatewayRestartLogs (database w) in
  let j := recent_of webhook_check (now w1) logs in
  let k := recent_of manual (now w1) logs +
           recent_of health_check (now w1) logs +
           recent_of scheduled (now w1) logs in
  (forall v, dbStatus (database v) = DbHealthy -> now v = now w1 ->
     gatewayRestartLogs (database v) = logs ->
     Db.getRecentRestartAttempts 5 v = (Ok (j + k), v)) /\
  (j < m - k ->
   restart_calls (trace w') = now w1 :: restart_calls (trace w) /\
   alerts w' = alerts w) /\
  (m - k <= j ->
   restart_calls (trace w') = restart_calls (trace w) /\
   (exists a, alerts w' = (alerts w ++ [a])%list) /\
   last (webhookStatusLogs (database w')) = Some (alert_log st (now w1))).
Proof.
  intros Hh Hmax Hon E1 Hact E2 logs j k.
  assert (Hcount : counted (now w1) w = j + k).
  { unfold counted. fold logs. subst j k. lia. }
  split.
  { intros v Hv Hnv Hlv. rewrite getRecentRestartAttempts_eq.
    rewrite recent_attempts_counted by done.
    unfold counted. rewrite Hlv, Hnv. fold logs. do 2 f_equal. subst j k. lia. }
  destruct (cycle_healthy w Hh)
    as (st' & w1' & w'' & E1' & E2' & _ & _ & _ & Hcases).
  rewrite E1 in E1'. injection E1' as <- <-.
  rewrite E2 in E2'. injection E2' as <-.
  unfold max_attempts_is in Hmax. unfold auto_restart_on in Hon.
  rewrite Hmax, Hcount in Hcases. unfold limit_reached in Hcases.
  destruct Hcases as [[[Ha|Ha] _] | [(_ & _ & Hlim & Hc) | (_ & _ & Hlim & Hc)]].
  - congruence.
  - done.
  - apply Z.leb_le in Hlim. split; [lia|]. intros _.
    destruct Hc as (Hwl & _ & _ & Htr & Hal & _). rewrite Htr.
    split_and!; [done|done|].
    rewrite Hwl.
    change [first_log st (now w1) (now w1 - now w); alert_log st (now w1)]
      with ([first_log st (now w1) (now w1 - now w)] ++ [alert_log st (now w1)])%list.
    rewrite (assoc_L (++)). apply last_snoc.
  - apply Z.leb_gt in Hlim. split; [|lia]. intros _.
    destruct Hc as (wr & rr & w3 & extra & _ & _ & _ & _ & _ & _ & _ & Hrc & Hal & _). done.
Qed.

(** C6, amended.  With the database healthy, every cycle appends a first
    WebhookCheckRecord with actionTaken = none, and what follows it is
    settled by the cycle: nothing, when the check found the webhook active
    or auto-restart is off; one record with actionTaken = alert, when the
    cycle is rate-limited (webhook inactive, auto-restart on, the records
    that count have reached max_restart_attempts), and then the alert is
    sent and [restart] is not invoked; and when the cycle is not
    rate-limited, [restart] is invoked once, its result is the last restart
    record, and one record with actionTaken = restart follows exactly when
    that restart succeeded. *)
Theorem check_records_per_cycle w :
  dbStatus (database w) = DbHealthy ->
  exists st w1 w' extra,
    checkWebhookStatus w = (Ok st, w1) /\
    checkAndRestart w = (Ok tt, w') /\
    webhookStatusLogs (database w') =
      (webhookStatusLogs (database w) ++
       first_log st (now w1) (now w1 - now w) :: extra)%list /\
    actionTaken (first_log st (now w1) (now w1 - now w)) =
      ActionTaken.none /\
    let auto := resolve (database w) "auto_restart_enabled" (Some "true") in
    let maxAttempts :=
      parse_max (resolve (database w) "max_restart_attempts" (Some "3")) in
    ((WebhookStatus.isActive st = true \/ auto <> Some "true") /\
     extra = [] /\ alerts w' = alerts w /\
     restart_calls (trace w') = restart_calls (trace w)) \/
    (WebhookStatus.isActive st = false /\ auto = Some "true" /\
     limit_reached (counted (now w1) w) maxAttempts = true /\
     extra = [alert_log st (now w1)] /\
     actionTaken (alert_log st (now w1)) = ActionTaken.alert /\
     (exists a, alerts w' = (alerts w ++ [a])%list) /\
     restart_calls (trace w') = restart_calls (trace w)) \/
    (WebhookStatus.isActive st = false /\ auto = Some "true" /\
     limit_reached (counted (now w1) w) maxAttempts = false /\
     exists wr rr w3,
       restart (Some "webhook_check") wr = (Ok rr, w3) /\
       os wr = os w /\ now wr = now w1 /\
       restart_calls (trace w') = now w1 :: restart_calls (trace w) /\
       alerts w' = alerts w /\
       last (gatewayRestartLogs (database w')) =
         Some (Db.stamp (now w3 / 1000) (attempt_log st rr)) /\
       success (Db.stamp (now w3 / 1000) (attempt_log st rr)) =
         RestartResult.success rr /\
       ((RestartResult.success rr = true /\
         exists t6, extra = [restart_log st t6 rr] /\
           actionTaken (restart_log st t6 rr) = ActionTaken.restart) \/
        (RestartResult.success rr = false /\ extra = []))).
Proof.
  intros Hh.
  destruct (cycle_healthy w Hh)
    as (st & w1 & w' & E1 & E2 & _ & _ & _ & Hcases).
  exists st, w1, w'.
  destruct Hcases as [[Hq1 Hq] | [(Ha & Hon & Hlim & Hc) | (Ha & Hon & Hlim & Hc)]].
  - destruct Hq as (Hwl & _ & _ & Htr & Hal & _).
    exists []. split_and!; try done. left. split_and!; try done. by rewrite Htr.
  - destruct Hc as (Hwl & _ & _ & Htr & Hal & _).
    exists [alert_log st (now w1)]. split_and!; try done.
    right. left. split_and!; try done. by rewrite Htr.
  - destruct Hc as (wr & rr & w3 & extra & Er & Hos & Hnr & _ & Hrl & _ & _ & Hrc & Hal & Hwl & Hex).
    exists extra. split_and!; try done.
    right. right. split_and!; try done.
    exists wr, rr, w3. split_and!; try done.
    + rewrite Hrl. apply last_snoc.
    + destruct Hex as [(Hs & t6 & ->) | (Hs & ->)].
      * left. split; [done|]. exists t6. done.
      * by right.
Qed.

End CycleClaims.

(** ** The rate limit over a run of cycles *)

Section RateLimit.
Import GatewayProcessManager WebhookPoller.

Lemma since_weaken x y calls :
  x <= y -> (length (since y calls) <= length (since x calls))%nat.
Proof.
  intros Hxy. unfold since. induction calls as [|t l IH]; [done|]. cbn.
  destruct (Z.leb_spec y t), (Z.leb_spec x t); cbn; lia.
Qed.

Lemma in_span_since len T calls :
  (length (in_span len T calls) <= length (since (T - len) calls))%nat.
Proof.
  unfold in_span, since. induction calls as [|t l IH]; [done|]. cbn.
  destruct (Z.leb_spec (T - len) t), (Z.leb_spec t T); cbn; lia.
Qed.

(** In a windowed trace no safe window holds more than [m] calls. *)
Lemma windowed_bound m calls T :
  0 <= m -> windowed m calls ->
  Z.of_nat (length (in_span SAFE_WINDOW T calls)) <= m.
Proof.
  intros Hm. induction calls as [|t l IH]; intros Hw; [cbn; lia|].
  destruct Hw as [Ht Hl]. specialize (IH Hl).
  pose proof (in_span_since SAFE_WINDOW T l).
  pose proof (since_weaken (t - SAFE_WINDOW) (T - SAFE_WINDOW) l).
  unfold in_span, since in *. cbn.
  destruct (Z.leb_spec (T - SAFE_WINDOW) t), (Z.leb_spec t T);
    cbn; lia.
Qed.

Lemma recent_restarts_app x l1 l2 :
  Db.recent_restarts x (l1 ++ l2) =
  (Db.recent_restarts x l1 ++ Db.recent_restarts x l2)%list.
Proof. unfold Db.recent_restarts. apply List.filter_app. Qed.

Lemma counted_query T w :
  counted T w =
  Z.of_nat (length (Db.recent_restarts (T - 5 * 60 * 1000)
                      (gatewayRestartLogs (database w)))).
Proof. unfold counted. by rewrite recent_restarts_counted. Qed.

(** Records that are added never lower the count. *)
Lemma counted_app T w w' more :
  gatewayRestartLogs (database w') =
    (gatewayRestartLogs (database w) ++ more)%list ->
  counted T w' =
  counted T w +
  Z.of_nat (length (Db.recent_restarts (T - 5 * 60 * 1000) more)).
Proof.
  intros Hrl. rewrite !counted_query, Hrl, recent_restarts_app, length_app.
  lia.
Qed.

(** The record of a restart that was called at [t] and returned at [t3]
    counts wherever the call lies in the safe window. *)
Lemma stamp_in_window T t t3 log :
  t <= t3 -> T - SAFE_WINDOW <= t ->
  Db.recent_restarts (T - 5 * 60 * 1000) [Db.stamp (t3 / 1000) log] =
  [Db.stamp (t3 / 1000) log].
Proof.
  intros Ht Hs. unfold Db.recent_restarts, SAFE_WINDOW in *. cbn.
  pose proof (Z.mul_div_le t3 1000 ltac:(lia)).
  pose proof (Z.mod_pos_bound t3 1000 ltac:(lia)).
  pose proof (Z.div_mod t3 1000 ltac:(lia)).
  destruct (Z.leb_spec (T - 5 * 60 * 1000) (t3 / 1000 * 1000)); [done|lia].
Qed.

Lemma step_invariant m w w' :
  seq_step m w w' ->
  calls_recorded w /\ windowed m (restart_calls (trace w)) ->
  calls_recorded w' /\ windowed m (restart_calls (trace w')).
Proof.
  intros Hstep [Hrec Hwin]. destruct Hstep as [w w' Hh Hmax E | w w' more Htr Hrl].
  - destruct (cycle_healthy w Hh)
      as (st & w1 & w'' & E1 & E2 & _ & _ & _ & Hcases).
    rewrite E in E2. injection E2 as <-.
    unfold max_attempts_is in Hmax. rewrite Hmax in Hcases.
    destruct Hcases as [[_ Hq] | [(_ & _ & _ & Hc) | (_ & _ & Hlim & Hc)]].
    + destruct Hq as (_ & Hrl & _ & Htr & _).
      unfold calls_recorded, counted. by rewrite Htr, Hrl.
    + destruct Hc as (_ & Hrl & _ & Htr & _).
      unfold calls_recorded, counted. by rewrite Htr, Hrl.
    + destruct Hc as (wr & rr & w3 & extra & _ & _ & _ & _ & Hrl & Ht3 & _ & Hrc & _).
      unfold limit_reached in Hlim. apply Z.leb_gt in Hlim.
      split.
      * intros T. rewrite Hrc, (counted_app T w w' _ Hrl).
        specialize (Hrec T). unfold since in *. cbn [List.filter].
        destruct (Z.leb_spec (T - SAFE_WINDOW) (now w1)); [|lia].
        rewrite (stamp_in_window T (now w1)) by done. cbn [length]. lia.
      * rewrite Hrc. cbn [windowed]. split; [|done].
        specialize (Hrec (now w1)). lia.
  - split.
    + intros T. rewrite Htr, (counted_app T w w' _ Hrl).
      specialize (Hrec T). lia.
    + by rewrite Htr.
Qed.

Lemma run_invariant m w0 w :
  sequential_run m w0 w ->
  calls_recorded w0 /\ windowed m (restart_calls (trace w0)) ->
  calls_recorded w /\ windowed m (restart_calls (trace w)).
Proof.
  induction 1 as [|w0 w1 w Hstep _ IH]; [done|].
  intros H0. apply IH. by eapply step_invariant.
Qed.

(** C2, amended.  Take a run of reconciliation cycles that do not overlap
    (each returns before the next begins), with the database healthy and
    max_restart_attempts = 3 at each cycle, starting without restart calls
    on record.  The restart records are stamped in whole seconds, so the
    window in which the limit is sure to hold is the safe window of
    299 001 milliseconds: no such window holds more than 3 restart
    attempts; and a further cycle that finds the webhook inactive
    (auto-restart on) when 3 attempts lie within the safe window before
    its check sends the alert, appends the record with actionTaken = alert
    and does not invoke [restart]. *)
Theorem rate_limit_holds w0 w :
  restart_calls (trace w0) = [] -> sequential_run 3 w0 w ->
  (forall T,
     (length (in_span SAFE_WINDOW T (restart_calls (trace w))) <= 3)%nat) /\
  (forall st w1 w',
     dbStatus (database w) = DbHealthy ->
     max_attempts_is 3 w -> auto_restart_on w ->
     checkWebhookStatus w = (Ok st, w1) ->
     WebhookStatus.isActive st = false ->
     checkAndRestart w = (Ok tt, w') ->
     (3 <= length (since (now w1 - SAFE_WINDOW)
                     (restart_calls (trace w))))%nat ->
     (exists a, alerts w' = (alerts w ++ [a])%list) /\
     last (webhookStatusLogs (database w')) = Some (alert_log st (now w1)) /\
     actionTaken (alert_log st (now w1)) = ActionTaken.alert /\
     restart_calls (trace w') = restart_calls (trace w)).
Proof.
  intros Hinit Hrun.
  destruct (run_invariant 3 w0 w Hrun) as [Hrec Hwin].
  { unfold calls_recorded. rewrite Hinit. split; [|done].
    intros T. rewrite counted_query. unfold since. cbn. lia. }
  split.
  - intros T. pose proof (windowed_bound 3 _ T ltac:(lia) Hwin). lia.
  - intros st w1 w' Hh Hmax Hon E1 Hact E2 Hthree.
    destruct (cycle_healthy w Hh)
      as (st' & w1' & w'' & E1' & E2' & _ & Hn1 & _ & Hcases).
    rewrite E1 in E1'. injection E1' as <- <-.
    rewrite E2 in E2'. injection E2' as <-.
    unfold max_attempts_is in Hmax. unfold auto_restart_on in Hon.
    rewrite Hmax in Hcases.
    destruct Hcases as [[[Ha|Ha] _] | [(_ & _ & _ & Hc) | (_ & _ & Hlim & _)]].
    + congruence.
    + done.
    + destruct Hc as (Hwl & _ & _ & Htr & Hal & _).
      split; [done|]. split; [|by rewrite Htr].
      rewrite Hwl.
      change [first_log st (now w1) (now w1 - now w); alert_log st (now w1)]
        with ([first_log st (now w1) (now w1 - now w)] ++
              [alert_log st (now w1)])%list.
      rewrite (assoc_L (++)). apply last_snoc.
    + exfalso. unfold limit_reached in Hlim. apply Z.leb_gt in Hlim.
      specialize (Hrec (now w1)). lia.
Qed.

End RateLimit.

(** ** The mode switch *)

Section ModeSwitch.
Import GatewayProcessManager WebhookPoller.

Lemma find_proc_entry w pid :
  Sys.find_proc w pid =
  match entry w pid with
  | Some q => if proc_live (now w) q then Some q else None
  | None => None
  end.
Proof. by destruct pid. Qed.

Lemma proc_live_earlier t t' q :
  t <= t' -> proc_live t' q = true -> proc_live t q = true.
Proof.
  unfold proc_live. destruct (proc_exitAt q); [|done].
  rewrite !Z.ltb_lt. lia.
Qed.

(** A process that is gone stays gone while the table is untouched. *)
Lemma find_proc_later w w' pid :
  procs (os w') = procs (os w) -> now w <= now w' ->
  Sys.find_proc w pid = None -> Sys.find_proc w' pid = None.
Proof.
  intros Hp Hn. rewrite !find_proc_entry.
  assert (entry w' pid = entry w pid) as -> by (destruct pid; cbn; congruence).
  destruct (entry w pid) as [q|]; [|done].
  destruct (proc_live (now w) q) eqn:E; [done|]. intros _.
  destruct (proc_live (now w') q) eqn:E'; [|done].
  by rewrite (proc_live_earlier _ _ _ Hn E') in E.
Qed.

Lemma deliver_signalable t sig q :
  proc_signalable (Sys.deliver t sig q) = proc_signalable q.
Proof. destruct sig; cbn; [done| |done]. by destruct (proc_termDelay q). Qed.

(** What a signal other than 0 does when [kill] accepts it. *)
Lemma process_kill_ok pid sig w u w' :
  Sys.process_kill pid sig w = (Ok u, w') -> pid <> 0 -> sig <> SIG0 ->
  exists q, entry w pid = Some q /\ proc_signalable q = true /\
    entry w' pid = Some (Sys.deliver (now w) sig q) /\
    now w' = now w /\ pidFile (os w') = pidFile (os w).
Proof.
  unfold Sys.process_kill. intros H Hnz Hsig.
  rewrite (proj2 (Z.eqb_neq pid 0) Hnz) in H.
  rewrite find_proc_entry in H.
  destruct pid as [|p|p]; [done| |done]. cbn in *.
  destruct (procs (os w) !! p) as [q|] eqn:Hq; [|done].
  destruct (proc_live (now w) q); [|done].
  destruct (proc_signalable q) eqn:Hs; [|done].
  exists q. destruct sig; [done| |]; simplify_eq; cbn;
    rewrite lookup_alter_eq, Hq; done.
Qed.

Lemma process_kill_throw pid sig w e w' :
  Sys.process_kill pid sig w = (Throw e, w') ->
  w' = w /\
  ((e = ESRCH /\ Sys.find_proc w pid = None) \/ e = EPERM).
Proof.
  unfold Sys.process_kill. intros H.
  destruct (pid =? 0); [done|].
  destruct (Sys.find_proc w pid) as [q|]; [|simplify_eq; split; [done|by left]].
  destruct (proc_signalable q); [by destruct sig|].
  simplify_eq. split; [done|by right].
Qed.

Lemma waitForShutdown_loop_spec pid startTime timeout fuel : forall w r w',
  waitForShutdown_loop fuel pid startTime timeout w = (r, w') ->
  exists b, r = Ok b /\ os w' = os w /\ now w <= now w' /\
    (b = true -> Sys.probe w' pid = false).
Proof.
  induction fuel as [|n IH]; intros w r w' H; cbn [waitForShutdown_loop] in H.
  - monad_unfold. simplify_eq. exists false. split_and!; [done|done|lia|done].
  - monad_unfold.
    destruct (now w - startTime <? timeout).
    + rewrite isProcessRunning_eq in H.
      destruct (Sys.probe w pid) eqn:Hp; cbn in H.
      * apply IH in H as (b & -> & Hos & Hn & Hb). cbn in *.
        exists b. split_and!; [done|done|lia|done].
      * simplify_eq. exists true. split_and!; [done|done|lia|done].
    + simplify_eq. exists false. split_and!; [done|done|lia|done].
Qed.

Lemma waitForShutdown_spec pid timeout w r w' :
  waitForShutdown pid timeout w = (r, w') ->
  exists b, r = Ok b /\ os w' = os w /\ now w <= now w' /\
    (b = true -> Sys.probe w' pid = false).
Proof.
  unfold waitForShutdown. monad_unfold. apply waitForShutdown_loop_spec.
Qed.

Lemma entry_frame w w' pid :
  os w' = os w -> entry w' pid = entry w pid.
Proof. intros H. destruct pid; cbn; congruence. Qed.

(** When [stop] reports success, the process it resolved is gone. *)
Lemma stop_success_gone w sr w' :
  stop w = (Ok sr, w') -> StopResult.success sr = true ->
  forall p, resolved_pid w = Some p -> Sys.find_proc w' p = None.
Proof.
  unfold stop. monad_unfold.
  set (w0 := set_trace _ w).
  assert (Hres0 : forall p, resolved_pid w = Some p ->
            exists w1, getCurrentPid w0 = (Ok (Some p), w1) /\
              procs (os w1) = procs (os w) /\ now w1 = now w).
  { intros p Hp. rewrite getCurrentPid_eq. unfold resolved_pid in Hp.
    change (pidFile (os w0)) with (pidFile (os w)).
    destruct (pidFile (os w)); [rewrite Hp; by eexists|].
    rewrite (discovered_frame w w0) by done. rewrite Hp. by eexists. }
  clearbody w0.
  intros H Hs p Hp. destruct (Hres0 p Hp) as (w1 & E & Hprocs & Hnow).
  rewrite E in H. clear E Hres0.
  unfold Js.number_or_null, Js.truthy_number in H.
  destruct (p =? 0) eqn:Hz; cbn in H.
  { apply Z.eqb_eq in Hz. by subst. }
  apply Z.eqb_neq in Hz.
  destruct (Sys.process_kill p SIGTERM w1) as [[[]|e] w2] eqn:Ek.
  - apply process_kill_ok in Ek as (q & Hq & Hsig & Hq2 & Hn2 & _); [|done..].
    destruct (waitForShutdown p SHUTDOWN_TIMEOUT w2) as [r3 w3] eqn:Ew.
    apply waitForShutdown_spec in Ew as (b & -> & Hos3 & Hn3 & Hb).
    assert (Hq3 : entry w3 p = Some (Sys.deliver (now w1) SIGTERM q))
      by (by rewrite (entry_frame w2 w3)).
    destruct b; cbn in H.
    + destruct (clearPidFile_eq w3) as (w4 & E4 & _ & Hp4 & Hn4).
      rewrite E4 in H. simplify_eq.
      apply (find_proc_later w3); [done|lia|].
      specialize (Hb eq_refl). unfold Sys.probe in Hb.
      rewrite (proj2 (Z.eqb_neq p 0) Hz) in Hb. cbn in Hb.
      rewrite find_proc_entry, Hq3 in Hb |- *.
      destruct (proc_live (now w3) _); [|done].
      by rewrite deliver_signalable, Hsig in Hb.
    + destruct (Sys.process_kill p SIGKILL w3) as [[[]|e] w4] eqn:Ek2.
      * apply process_kill_ok in Ek2 as (q' & Hq' & _ & Hq4 & Hn4 & _);
          [|done..].
        destruct (clearPidFile_eq (set_now (fun t => t + 1000) w4))
          as (w5 & E5 & _ & Hp5 & Hn5).
        rewrite E5 in H. cbn in Hp5, Hn5. simplify_eq.
        rewrite find_proc_entry.
        assert (entry w' p = entry w4 p) as ->
          by (destruct p; cbn; congruence).
        rewrite Hq4. unfold proc_live. cbn.
        destruct (Z.ltb_spec (now w') (now w3)); [lia|done].
      * apply process_kill_throw in Ek2 as (-> & [[-> Hgone] | ->]);
          cbn in H; [|by simplify_eq].
        destruct (clearPidFile_eq (set_now (fun t => t + 1000) w3))
          as (w5 & E5 & _ & Hp5 & Hn5).
        rewrite E5 in H. cbn in Hp5, Hn5. simplify_eq.
        apply (find_proc_later w3); [done|lia|done].
  - apply process_kill_throw in Ek as (-> & [[-> Hgone] | ->]); cbn in H.
    + destruct (clearPidFile_eq w1) as (w4 & E4 & _ & Hp4 & Hn4).
      rewrite E4 in H. simplify_eq.
      apply (find_proc_later w1); [done|lia|done].
    + by simplify_eq.
Qed.

(** When [deleteWebhook] reports success, the provider holds no URL. *)
Lemma deleteWebhook_success w dr w' :
  deleteWebhook w = (Ok dr, w') -> DeleteResult.success dr = true ->
  url (subscription (telegram w')) = "".
Proof.
  unfold deleteWebhook. monad_unfold.
  destruct (getBotToken_eq w) as ([tok|] & ->);
    [|intros; by simplify_eq].
  unfold Tg.fetch.
  destruct (match script (telegram w) with
            | [] => _ | r0 :: rest => _ end) as [reply rest].
  destruct (outcome reply); cbn; intros H Hs; by simplify_eq.
Qed.

Lemma setGatewaySetting_healthy key v w :
  dbStatus (database w) = DbHealthy ->
  exists dsc,
    Db.setGatewaySetting key v None w =
    (Ok tt, set_database (Db.set_settings
              <[key := {| value := v; description := dsc |}]>) w).
Proof.
  intros Hh. unfold Db.setGatewaySetting, Db.getDb, Db.query. monad_unfold.
  rewrite Hh. cbn. rewrite Hh.
  destruct (gatewaySettings (database w) !! key); cbn; rewrite Hh;
    by eexists.
Qed.

End ModeSwitch.

Section ModeSwitchClaim.
Import GatewayProcessManager WebhookPoller.

Lemma deleteWebhook_no_throw : no_throw deleteWebhook.
Proof.
  unfold deleteWebhook. apply no_throw_try_catch.
  intros e. apply no_throw_mret.
Qed.

Lemma resolved_pid_frame w w' :
  os w' = os w -> now w' = now w -> resolved_pid w' = resolved_pid w.
Proof.
  intros Hos Hn. unfold resolved_pid. rewrite Hos.
  destruct (pidFile (os w)); [done|].
  apply discovered_frame; congruence.
Qed.


End ModeSwitchClaim.

(** ** The polling loops have fuel enough *)

Section Fuel.
Import GatewayProcessManager.

Lemma waitForShutdown_loop_step pid startTime timeout n : forall w,
  timeout - (now w - startTime) <= 500 * Z.of_nat n ->
  waitForShutdown_loop (S n) pid startTime timeout w =
  waitForShutdown_loop n pid startTime timeout w.
Proof.
  induction n as [|n IH]; intros w Hw.
  - cbn [waitForShutdown_loop]. monad_unfold.
    destruct (Z.ltb_spec (now w - startTime) timeout); [lia|done].
  - change (waitForShutdown_loop (S (S n)) pid startTime timeout w)
      with ((t ← dateNow;
             if t - startTime <? timeout then
               alive ← isProcessRunning pid;
               if negb alive then mret true
               else sleep 500;;
                    waitForShutdown_loop (S n) pid startTime timeout
             else mret false) w).
    change (waitForShutdown_loop (S n) pid startTime timeout w)
      with ((t ← dateNow;
             if t - startTime <? timeout then
               alive ← isProcessRunning pid;
               if negb alive then mret true
               else sleep 500;;
                    waitForShutdown_loop n pid startTime timeout
             else mret false) w).
    monad_unfold.
    destruct (now w - startTime <? timeout); [|done].
    rewrite isProcessRunning_eq. destruct (Sys.probe w pid); [|done].
    cbn [negb]. apply IH. cbn. lia.
Qed.

(** More fuel than [waitForShutdown] takes changes nothing: the loop ends
    by its own condition. *)
Theorem waitForShutdown_fuel pid timeout extra w :
  waitForShutdown_loop (Z.to_nat (timeout / 500) + 1 + extra) pid (now w)
    timeout w =
  waitForShutdown pid timeout w.
Proof.
  unfold waitForShutdown. monad_unfold.
  induction extra as [|k IH]; [by rewrite Nat.add_0_r|].
  rewrite Nat.add_succ_r, waitForShutdown_loop_step; [exact IH|].
  destruct (Z.le_gt_cases 0 timeout).
  - rewrite !Nat2Z.inj_add, Z2Nat.id by (apply Z.div_pos; lia).
    pose proof (Z.mul_succ_div_gt timeout 500 ltac:(lia)). lia.
  - lia.
Qed.

Lemma waitForStartup_loop_step pid startTime n : forall w,
  STARTUP_TIMEOUT - (now w - startTime) <= 1000 * Z.of_nat n ->
  waitForStartup_loop (S n) pid startTime w =
  waitForStartup_loop n pid startTime w.
Proof.
  induction n as [|n IH]; intros w Hw.
  - cbn [waitForStartup_loop]. monad_unfold.
    destruct (Z.ltb_spec (now w - startTime) STARTUP_TIMEOUT); [lia|done].
  - change (waitForStartup_loop (S (S n)) pid startTime w)
      with ((t ← dateNow;
             if t - startTime <? STARTUP_TIMEOUT then
               alive ← isProcessRunning pid;
               if negb alive then mret false
               else
                 listening ← isPortListening;
                 if (listening : bool) then mret true
                 else sleep 1000;; waitForStartup_loop (S n) pid startTime
             else mret false) w).
    change (waitForStartup_loop (S n) pid startTime w)
      with ((t ← dateNow;
             if t - startTime <? STARTUP_TIMEOUT then
               alive ← isProcessRunning pid;
               if negb alive then mret false
               else
                 listening ← isPortListening;
                 if (listening : bool) then mret true
                 else sleep 1000;; waitForStartup_loop n pid startTime
             else mret false) w).
    monad_unfold.
    destruct (now w - startTime <? STARTUP_TIMEOUT); [|done].
    rewrite isProcessRunning_eq. destruct (Sys.probe w pid); [|done].
    cbn [negb]. destruct (isPortListening_eq w) as ([|] & ->); [done|].
    apply IH. cbn. lia.
Qed.

Theorem waitForStartup_fuel pid extra w :
  waitForStartup_loop (Z.to_nat (STARTUP_TIMEOUT / 1000) + 1 + extra) pid
    (now w) w =
  waitForStartup pid w.
Proof.
  unfold waitForStartup. monad_unfold.
  induction extra as [|k IH]; [by rewrite Nat.add_0_r|].
  rewrite Nat.add_succ_r, waitForStartup_loop_step; [exact IH|].
  unfold STARTUP_TIMEOUT. change (30000 / 1000) with 30. lia.
Qed.

End Fuel.

(** ** The claims on the sample worlds *)

Section OnSamples.
Import GatewayProcessManager WebhookPoller Samples MoreSamples.



(** C5, amended, on [w_stale]. *)
Lemma stop_idempotent_witness :
  nothing_to_stop w_stale /\
  exists r w', stop w_stale = (Ok r, w') /\ StopResult.success r = true /\
    no_live_gateway w'.
Proof.
  assert (H : nothing_to_stop w_stale).
  { right. exists 4242. split; vm_compute; reflexivity. }
  split; [exact H|].
  destruct (proj1 (stop_idempotent w_stale H))
    as (r & w' & E & Hs & _ & _ & _ & _ & Hnone).
  exists r, w'. split; [exact E|]. split; [exact Hs|].
  apply Hnone. intros p q Hp. vm_compute in Hp. discriminate Hp.
Defined.

(** C5 as stated fails on [w_stale_other]: the recorded pid 4242 names no
    live process, so there is nothing to stop under it; [stop] returns
    success and removes the pid file, and the gateway that runs under pid
    5000 is alive afterwards. *)
Lemma stop_leaves_gateway_counterexample : ~ stop_idempotent_as_stated.
Proof.
  intros H.
  destruct (H w_stale_other) as (r & w' & E & _ & Hnone).
  - right. exists 4242. split; vm_compute; reflexivity.
  - vm_compute in E. injection E as _ <-.
    specialize (Hnone 5000%positive (gateway_proc true)
                  ltac:(vm_compute; reflexivity) eq_refl).
    vm_compute in Hnone. discriminate Hnone.
Qed.

(** C3 on [w_eperm], where [stop] fails. *)
Lemma restart_never_throws_witness :
  exists r w', restart None w_eperm = (Ok r, w') /\
    RestartResult.success r = false /\
    RestartResult.message r = "Failed to stop old process" /\
    start_calls (trace w') = 0%nat.
Proof.
  destruct (restart_never_throws None w_eperm) as (r & w' & E & _ & Hstop).
  set (x := restart_entry None w_eperm).
  assert (E1 : getCurrentPid x = (Ok (Some 4242), (getCurrentPid x).2))
    by (vm_compute; reflexivity).
  set (y := (getCurrentPid x).2) in *.
  assert (E2 : stop y =
            (Ok (StopResult.mk false
                   "Failed to stop Gateway: Error: kill EPERM"),
             (stop y).2))
    by (vm_compute; reflexivity).
  destruct (Hstop _ _ _ _ E1 E2 eq_refl) as (Hr & Hw & Hc).
  exists r, w'. rewrite Hr. split; [by rewrite <- Hr|].
  split; [reflexivity|]. split; [reflexivity|]. exact Hc.
Defined.

(** C8 on [w_off]. *)
Lemma auto_restart_override_witness :
  exists st w1 w',
    checkWebhookStatus w_off = (Ok st, w1) /\
    checkAndRestart w_off = (Ok tt, w') /\
    trace w' = trace w_off /\ os w' = os w_off /\
    alerts w' = alerts w_off /\
    subscription (telegram w') = subscription (telegram w_off) /\
    gatewayRestartLogs (database w') = gatewayRestartLogs (database w_off).
Proof.
  apply auto_restart_override. vm_compute. discriminate.
Defined.

(** C4, amended, on [w_flap]. *)
Lemma checkWebhookStatus_activity_witness :
  exists st w', checkWebhookStatus w_flap = (Ok st, w') /\
    (WebhookStatus.isActive st = true <->
     url (subscription (telegram w_flap)) <> "" /\
     (last_error_date (subscription (telegram w_flap)) = None \/
      last_error_date (subscription (telegram w_flap)) = Some 0 \/
      pending_update_count (subscription (telegram w_flap)) = 0)).
Proof.
  apply (checkWebhookStatus_activity w_flap "123:abc").
  - vm_compute. reflexivity.
  - vm_compute. exact I.
Defined.

(** C4 as stated fails on a response whose last-error date is 0: with a
    non-empty URL and 5 pending updates it is judged active. *)
Lemma activity_zero_date_counterexample : ~ activity_as_stated.
Proof.
  intros H. destruct (proj1 (H info_zero_date)) as [_ [Hd|Hp]].
  - vm_compute. reflexivity.
  - discriminate Hd.
  - discriminate Hp.
Qed.

(** C6, amended, on [w_manual], where the cycle is rate-limited: the
    second record is the alert record, and [restart] is not invoked. *)
Lemma check_records_per_cycle_witness :
  exists st w1 w',
    checkWebhookStatus w_manual = (Ok st, w1) /\
    checkAndRestart w_manual = (Ok tt, w') /\
    webhookStatusLogs (database w') =
      (webhookStatusLogs (database w_manual) ++
       [first_log st (now w1) (now w1 - now w_manual);
        alert_log st (now w1)])%list /\
    restart_calls (trace w') = restart_calls (trace w_manual).
Proof.
  destruct (check_records_per_cycle w_manual eq_refl)
    as (st & w1 & w' & extra & E1 & E2 & Hwl & _ & Hcases).
  exists st, w1, w'. split; [exact E1|]. split; [exact E2|].
  pose proof E1 as E1'. vm_compute in E1'. injection E1' as Hst Hw1.
  destruct Hcases
    as [(Hq & _) | [(_ & _ & _ & Hex & _ & _ & Hc) | (_ & _ & Hlim & _)]].
  - exfalso. destruct Hq as [Ha | Hoff].
    + rewrite <- Hst in Ha. discriminate Ha.
    + apply Hoff. vm_compute. reflexivity.
  - rewrite Hex in Hwl. split; [exact Hwl | exact Hc].
  - exfalso. rewrite <- Hw1 in Hlim. vm_compute in Hlim. discriminate Hlim.
Defined.

(** The third shape of a cycle, on a world in which the restart succeeds:
    one restart call, a restart record with success = true, and the second
    record with actionTaken = restart. *)
Example cycle_records_restart :
  let w' := cycles 1 (w_spawn (gateway_proc true)) in
  restart_calls (trace w') = [1000000] /\
  List.map success (gatewayRestartLogs (database w')) = [true] /\
  List.map actionTaken (webhookStatusLogs (database w')) =
    [ActionTaken.none; ActionTaken.restart] /\
  alerts w' = [].
Proof. vm_compute. done. Qed.

(** And when the restart fails, as on [w_flap], the first record stays the
    only one. *)
Example cycle_records_failed_restart :
  let w' := cycles 1 w_flap in
  restart_calls (trace w') = [1000000] /\
  List.map success (gatewayRestartLogs (database w')) = [false] /\
  List.map actionTaken (webhookStatusLogs (database w')) =
    [ActionTaken.none] /\
  alerts w' = [].
Proof. vm_compute. done. Qed.

(** C6 as stated fails on [w_manual]: the rate-limited cycle appends two
    records, one with actionTaken = none and one with alert. *)
Lemma two_records_counterexample : ~ one_record_as_stated.
Proof.
  intros H.
  destruct (H w_manual (checkAndRestart w_manual).2) as (r & Hr).
  - vm_compute. reflexivity.
  - apply (f_equal length) in Hr. vm_compute in Hr. discriminate Hr.
Qed.

(** C9, amended, on [w_manual]: two manual records and one webhook-triggered one
    in the window reach the limit of 3; the query returns 3, and the cycle
    sends the alert without a restart. *)
Lemma rate_limit_counts_every_trigger_witness :
  Db.getRecentRestartAttempts 5 w_manual = (Ok (1 + 2), w_manual) /\
  exists w',
    checkAndRestart w_manual = (Ok tt, w') /\
    restart_calls (trace w') = restart_calls (trace w_manual) /\
    exists a, alerts w' = (alerts w_manual ++ [a])%list.
Proof.
  destruct (checkWebhookStatus_no_throw w_manual) as (st & w1 & E1).
  assert (E2 : checkAndRestart w_manual =
               (Ok tt, (checkAndRestart w_manual).2))
    by (vm_compute; reflexivity).
  assert (Hact : WebhookStatus.isActive st = false).
  { pose proof E1 as E1'. vm_compute in E1'. by injection E1' as <- _. }
  assert (Hn1 : now w1 = 1000000).
  { pose proof E1 as E1'. vm_compute in E1'. by injection E1' as _ <-. }
  destruct (rate_limit_counts_every_trigger w_manual 3 st w1 _
              eq_refl ltac:(vm_compute; reflexivity)
              ltac:(vm_compute; reflexivity) E1 Hact E2)
    as (Hquery & _ & Halert).
  split.
  - rewrite (Hquery w_manual eq_refl (eq_sym Hn1) eq_refl).
    rewrite Hn1. vm_compute. reflexivity.
  - destruct Halert as (Hc & Ha & _).
    + rewrite Hn1. vm_compute. discriminate.
    + eexists. split; [exact E2|]. split; [exact Hc | exact Ha].
Defined.

(** C9 as stated fails on [w_nodb_manual]: two manual restarts and a
    webhook-triggered one are on record within the window, which makes
    the limit of 3, but the supervisor has no database connection; the
    counter reads 0 and the cycle restarts the gateway. *)
Lemma unread_history_counterexample : ~ counts_every_trigger_as_stated.
Proof.
  intros H.
  destruct (checkWebhookStatus_no_throw w_nodb_manual) as (st & w1 & E1).
  pose proof E1 as E1'. vm_compute in E1'. injection E1' as Hst Hw1.
  specialize (H w_nodb_manual 3 st w1 (checkAndRestart w_nodb_manual).2
                ltac:(vm_compute; reflexivity)
                ltac:(vm_compute; reflexivity) E1
                ltac:(by rewrite <- Hst)
                ltac:(vm_compute; reflexivity)).
  rewrite <- Hw1 in H. vm_compute in H.
  specialize (H ltac:(discriminate)). discriminate H.
Qed.

(** C2 as stated fails on [w_nodb]: without a database connection the
    count of recent attempts reads 0 and nothing is recorded, so four
    cycles within six seconds make four restart attempts. *)
Lemma rate_limit_counterexample : ~ rate_limit_as_stated.
Proof.
  intros H. specialize (H w_nodb 4%nat 1006000 eq_refl).
  assert (Hmax : forall i, (i < 4)%nat -> max_attempts_is 3 (cycles i w_nodb)).
  { intros i Hi.
    destruct i as [|[|[|[|i]]]]; [vm_compute; reflexivity..|lia]. }
  specialize (H Hmax). vm_compute in H. lia.
Qed.

(** C2, amended, on four cycles from [w_flap]: three restart attempts,
    then the alert. *)
Lemma rate_limit_holds_witness :
  sequential_run 3 w_flap (cycles 3 w_flap) /\
  (length (in_span SAFE_WINDOW 1006000
             (restart_calls (trace (cycles 3 w_flap)))) <= 3)%nat /\
  (exists a, alerts (cycles 4 w_flap) =
             (alerts (cycles 3 w_flap) ++ [a])%list) /\
  restart_calls (trace (cycles 4 w_flap)) =
    restart_calls (trace (cycles 3 w_flap)).
Proof.
  assert (Hstep : forall i, (i < 3)%nat ->
            seq_step 3 (cycles i w_flap) (cycles (S i) w_flap)).
  { intros i Hi.
    destruct i as [|[|[|i]]]; [..|lia];
      (apply step_cycle; vm_compute; reflexivity). }
  assert (Hrun : sequential_run 3 w_flap (cycles 3 w_flap)).
  { eapply rtc_l; [exact (Hstep 0%nat ltac:(lia))|].
    eapply rtc_l; [exact (Hstep 1%nat ltac:(lia))|].
    eapply rtc_l; [exact (Hstep 2%nat ltac:(lia))|].
    apply rtc_refl. }
  destruct (rate_limit_holds w_flap (cycles 3 w_flap) eq_refl Hrun)
    as [Hbound Hnext].
  split; [exact Hrun|]. split; [apply Hbound|].
  set (w := cycles 3 w_flap) in *.
  destruct (checkWebhookStatus_no_throw w) as (st & w1 & E1).
  pose proof E1 as E1'. vm_compute in E1'. injection E1' as Hst Hw1.
  assert (Hact : WebhookStatus.isActive st = false)
    by (by rewrite <- Hst).
  assert (E2 : checkAndRestart w = (Ok tt, cycles 4 w_flap))
    by (vm_compute; reflexivity).
  destruct (Hnext st w1 _ ltac:(vm_compute; reflexivity)
              ltac:(vm_compute; reflexivity)
              ltac:(vm_compute; reflexivity) E1 Hact E2)
    as (Ha & _ & _ & Hc).
  { rewrite <- Hw1. vm_compute. lia. }
  split; [exact Ha | exact Hc].
Defined.

(** Why the window of the amended C2 is the safe one.  The restart records
    are stamped in whole seconds.  From [w_busy], where a restart fails at
    once, four cycles that follow one another at 0, 60, 120 and 299.9
    seconds make four restart attempts within five minutes and send no
    alert: at the fourth, the first record, stamped half a second before
    its restart was called, is older than five minutes. *)
Example rate_limit_whole_seconds :
  sequential_run 3 w_busy w_busy4 /\
  restart_calls (trace w_busy4) = [1300400; 1120500; 1060500; 1000500] /\
  length (in_window 1300400 (restart_calls (trace w_busy4))) = 4%nat /\
  List.map createdAt (gatewayRestartLogs (database w_busy4)) =
    [1000; 1060; 1120; 1300] /\
  alerts w_busy4 = [].
Proof.
  split; [|vm_compute; done].
  assert (Hc : forall w, dbStatus (database w) = DbHealthy ->
            max_attempts_is 3 w ->
            checkAndRestart w = (Ok tt, cycles 1 w) ->
            seq_step 3 w (cycles 1 w))
    by (intros; by apply step_cycle).
  assert (He : forall t w, seq_step 3 w (later t w))
    by (intros; apply (step_env 3 _ _ []); [done|by rewrite app_nil_r]).
  eapply rtc_l; [apply (Hc w_busy); vm_compute; reflexivity|].
  eapply rtc_l; [apply (He 1060500)|].
  eapply rtc_l;
    [apply (Hc (later 1060500 w_busy1)); vm_compute; reflexivity|].
  eapply rtc_l; [apply (He 1120500)|].
  eapply rtc_l;
    [apply (Hc (later 1120500 w_busy2)); vm_compute; reflexivity|].
  eapply rtc_l; [apply (He 1300400)|].
  eapply rtc_l;
    [apply (Hc (later 1300400 w_busy3)); vm_compute; reflexivity|].
  apply rtc_refl.
Qed.

(** The two halves make up the method. *)
Lemma checkAndRestart_halves w :
  checkAndRestart w = (d ← cycle_decide; cycle_act d) w.
Proof.
  unfold checkAndRestart, cycle_decide, cycle_act, decide, act, try_catch.
  monad_unfold.
  repeat case_match; simplify_eq; try done.
Qed.

(** Why the cycles of the amended C2 must not overlap.  The restart record
    is written when [restart] has returned.  Four cycles from [w_flap]
    that have all made their decision before the first of them acts find
    no record each, and make four restart attempts within seven seconds,
    without an alert. *)
Example rate_limit_overlapping_cycles :
  let w' := (overlapped 4 w_flap).2 in
  restart_calls (trace w') = [1006000; 1004000; 1002000; 1000000] /\
  length (in_span SAFE_WINDOW 1006000 (restart_calls (trace w'))) = 4%nat /\
  alerts w' = [].
Proof. vm_compute. done. Qed.



(** The other half of C1 fails as well: on [w_no_token] the deleteWebhook
    leg fails, the switch to gateway completes, and the subscription URL
    is still set. *)
Example mode_switch_keeps_url :
  exists r w', setConnectionMode Mode.gateway w_no_token = (Ok r, w') /\
    SetModeResult.newMode r = Some Mode.gateway /\
    url (subscription (telegram w')) =
      "https://example.org/webhook".
Proof. eexists _, _. vm_compute. done. Qed.

End OnSamples.

(** * Further properties *)

(** ** Text: pids in the pid file and in the output of pgrep *)

Section Text.


Lemma digit_not_ws c : is_digit c -> Js.is_ws c = false.
Proof.
  intros [d Hd]. unfold Js.digit_of, Js.is_ws in *.
  destruct (_ && _) eqn:E in Hd; [|done].
  apply andb_true_iff in E as [E1 E2].
  apply Z.leb_le in E1, E2.
  apply orb_false_iff; split.
  - apply Z.eqb_neq. lia.
  - apply andb_false_iff. right. apply Z.leb_gt. lia.
Qed.

Lemma pretty_N_char_digit x :
  (x < 10)%N -> Js.digit_of (pretty_N_char x) = Some (Z.of_N x).
Proof.
  intros H.
  assert (x = 0 \/ x = 1 \/ x = 2 \/ x = 3 \/ x = 4 \/ x = 5 \/ x = 6 \/
          x = 7 \/ x = 8 \/ x = 9)%N as Hx by lia.
  destruct Hx as [->|[->|[->|[->|[->|[->|[->|[->|[->| ->]]]]]]]]]; reflexivity.
Qed.

Lemma digits_pretty_N_go x : forall s,
  (0 < x)%N ->
  Js.digits None (pretty_N_go x s) = Js.digits (Some (Z.of_N x)) s.
Proof.
  induction (N.lt_wf_0 x) as [x _ IH]. intros s Hx.
  rewrite pretty_N_go_step by done.
  assert (Hd := pretty_N_char_digit (x `mod` 10)%N
                  ltac:(apply N.mod_lt; lia)).
  destruct (decide (x `div` 10 = 0)%N) as [E|E].
  - rewrite E, pretty_N_go_0. cbn [Js.digits]. rewrite Hd. cbn.
    f_equal. f_equal.
    apply N.div_small_iff in E; [|lia].
    rewrite N.mod_small by done. lia.
  - rewrite IH; [| apply N.div_lt; lia | by apply N.neq_0_lt_0].
    cbn [Js.digits]. rewrite Hd. cbn [default]. f_equal. f_equal.
    pose proof (N.div_mod x 10 ltac:(lia)). unfold id. lia.
Qed.


Lemma pretty_N_go_head x : forall s,
  (0 < x)%N -> exists c r, pretty_N_go x s = String c r /\ is_digit c.
Proof.
  induction (N.lt_wf_0 x) as [x _ IH]. intros s Hx.
  rewrite pretty_N_go_step by done.
  destruct (decide (x `div` 10 = 0)%N) as [E|E].
  - rewrite E, pretty_N_go_0. eexists _, _. split; [done|].
    eexists. apply pretty_N_char_digit. apply N.mod_lt. lia.
  - apply IH; [apply N.div_lt; lia | by apply N.neq_0_lt_0].
Qed.


Lemma pretty_N_go_digits x : forall s,
  all_chars is_digit s -> all_chars is_digit (pretty_N_go x s).
Proof.
  induction (N.lt_wf_0 x) as [x _ IH]. intros s Hs.
  destruct (decide (x = 0)%N) as [->|E]; [by rewrite pretty_N_go_0|].
  rewrite pretty_N_go_step by lia.
  apply IH; [apply N.div_lt; lia|].
  split; [|done]. eexists. apply pretty_N_char_digit. apply N.mod_lt. lia.
Qed.

Lemma all_chars_impl (P Q : ascii -> Prop) s :
  (forall c, P c -> Q c) -> all_chars P s -> all_chars Q s.
Proof. intros H. induction s; cbn; [done|]. intros [??]; auto. Qed.

Lemma append_cons c s1 s2 : String c s1 +:+ s2 = String c (s1 +:+ s2).
Proof. reflexivity. Qed.

Lemma append_nil s : "" +:+ s = s.
Proof. reflexivity. Qed.

Lemma append_assoc s1 s2 s3 : (s1 +:+ s2) +:+ s3 = s1 +:+ (s2 +:+ s3).
Proof.
  induction s1 as [|c s1 IH]; [done|].
  by rewrite !append_cons, IH.
Qed.

Lemma append_empty_r s : s +:+ "" = s.
Proof.
  induction s as [|c s IH]; [done|]. by rewrite append_cons, IH.
Qed.

Lemma all_chars_app P s1 s2 :
  all_chars P (s1 +:+ s2) <-> all_chars P s1 /\ all_chars P s2.
Proof.
  induction s1; [rewrite append_nil; cbn; tauto|].
  rewrite append_cons. cbn. rewrite IHs1. tauto.
Qed.

Lemma all_chars_rev_app P s1 : forall s2,
  all_chars P (String.rev_app s1 s2) <-> all_chars P s1 /\ all_chars P s2.
Proof.
  induction s1 as [|c s1 IH]; intros s2; cbn; [tauto|].
  rewrite IH. cbn. tauto.
Qed.


Lemma rev_app_app s1 : forall s2,
  String.rev_app s1 s2 = String.rev s1 +:+ s2.
Proof.
  unfold String.rev.
  induction s1 as [|c s1 IH]; intros s2; cbn; [done|].
  rewrite IH, (IH (String c "")). by rewrite append_assoc.
Qed.

Lemma rev_append s1 s2 :
  String.rev (s1 +:+ s2) = String.rev s2 +:+ String.rev s1.
Proof.
  induction s1 as [|c s1 IH]; cbn.
  - by rewrite append_nil, append_empty_r.
  - rewrite append_cons. unfold String.rev in *. cbn.
    rewrite (rev_app_app (s1 +:+ s2)), (rev_app_app s1).
    unfold String.rev. rewrite IH. by rewrite append_assoc.
Qed.

Lemma rev_cons c s : String.rev (String c s) = String.rev s +:+ String c "".
Proof. unfold String.rev at 1. cbn. apply rev_app_app. Qed.

Lemma rev_involutive s : String.rev (String.rev s) = s.
Proof.
  induction s as [|c s IH]; [done|].
  by rewrite rev_cons, rev_append, IH.
Qed.


Lemma trimStart_id s :
  match s with String c _ => not_ws c | EmptyString => True end ->
  Js.trimStart s = s.
Proof. destruct s; cbn; [done|]. by intros ->. Qed.

Lemma trimEnd_id s : all_chars not_ws s -> Js.trimEnd s = s.
Proof.
  intros H. unfold Js.trimEnd. rewrite trimStart_id.
  - apply rev_involutive.
  - assert (H' : all_chars not_ws (String.rev s)).
    { unfold String.rev. by apply all_chars_rev_app. }
    destruct (String.rev s); [done|]. by destruct H'.
Qed.

Lemma trim_id s : all_chars not_ws s -> Js.trim s = s.
Proof.
  intros H. unfold Js.trim. rewrite trimStart_id.
  - by apply trimEnd_id.
  - destruct s; [done|]. by destruct H.
Qed.

Lemma toString_pos p : Js.toString (Z.pos p) = pretty_N_go (N.pos p) "".
Proof. reflexivity. Qed.

Lemma toString_neg p :
  Js.toString (Z.neg p) = String "-" (pretty_N_go (N.pos p) "").
Proof. reflexivity. Qed.

(** The printed form of an integer: an optional sign and digits. *)
Lemma toString_chars z :
  all_chars (fun c => is_digit c \/ c = "-"%char) (Js.toString z).
Proof.
  destruct z as [|p|p].
  - split; [|done]. left. by eexists.
  - rewrite toString_pos.
    eapply all_chars_impl; [|apply pretty_N_go_digits; done]. auto.
  - rewrite toString_neg. split; [by right|].
    eapply all_chars_impl; [|apply pretty_N_go_digits; done]. auto.
Qed.

Lemma toString_not_ws z : all_chars not_ws (Js.toString z).
Proof.
  eapply all_chars_impl; [|apply toString_chars].
  intros c [H| ->]; [by apply digit_not_ws | done].
Qed.

Lemma digits_digit_head c r acc :
  is_digit c ->
  match String c r with
  | String "-"%char r' => Z.opp <$> Js.digits acc r'
  | String "+"%char r' => Js.digits acc r'
  | r' => Js.digits acc r'
  end = Js.digits acc (String c r).
Proof.
  intros [d Hd].
  destruct c as [[] [] [] [] [] [] [] []]; try done.
Qed.

Lemma parseInt_toString z : Js.parseInt (Js.toString z) = Some z.
Proof.
  destruct z as [|p|p]; [done| |].
  - rewrite toString_pos.
    destruct (pretty_N_go_head (N.pos p) "" ltac:(lia)) as (c & r & E & Hc).
    unfold Js.parseInt.
    rewrite trimStart_id; rewrite E; [|by apply digit_not_ws].
    rewrite digits_digit_head by done. rewrite <- E.
    by rewrite digits_pretty_N_go.
  - rewrite toString_neg. unfold Js.parseInt. cbn [Js.trimStart Js.is_ws].
    change (Js.is_ws "-") with false. cbv iota.
    by rewrite digits_pretty_N_go.
Qed.

Lemma parseInt_trim_toString z :
  Js.parseInt (Js.trim (Js.toString z)) = Some z.
Proof. rewrite trim_id by apply toString_not_ws. apply parseInt_toString. Qed.


(** *** Lines *)


Lemma split_lines_go_line s : forall cur,
  all_chars no_nl s ->
  Js.split_lines_go cur s = [String.rev cur +:+ s].
Proof.
  induction s as [|c s IH]; intros cur H; cbn.
  - by rewrite append_empty_r.
  - destruct H as [Hc Hs].
    destruct (Ascii.eqb_spec c "010"%char) as [->|_]; [done|].
    rewrite IH by done. by rewrite rev_cons, append_assoc.
Qed.

Lemma split_lines_go_app s rest : forall cur,
  all_chars no_nl s ->
  Js.split_lines_go cur (s +:+ Sys.nl +:+ rest) =
  (String.rev cur +:+ s) :: Js.split_lines_go "" rest.
Proof.
  induction s as [|c s IH]; intros cur H.
  - rewrite append_nil, append_empty_r. reflexivity.
  - destruct H as [Hc Hs]. rewrite append_cons. cbn.
    destruct (Ascii.eqb_spec c "010"%char) as [->|_]; [done|].
    rewrite IH by done. by rewrite rev_cons, append_assoc.
Qed.

Lemma toString_no_nl z : all_chars no_nl (Js.toString z).
Proof.
  eapply all_chars_impl; [|apply toString_chars].
  intros c [[d Hd]| ->] E; [subst c|]; done.
Qed.

Lemma toString_nonempty z : Js.toString z <> "".
Proof.
  intros E. pose proof (parseInt_toString z) as H. by rewrite E in H.
Qed.

Lemma print_pids_app l1 l2 :
  Sys.print_pids (l1 ++ l2) = Sys.print_pids l1 +:+ Sys.print_pids l2.
Proof.
  unfold Sys.print_pids.
  induction l1 as [|p l1 IH]; [done|].
  cbn [foldr List.app]. rewrite IH. by rewrite !append_assoc.
Qed.

Lemma split_print_pids l t :
  Js.split_lines (Sys.print_pids l +:+ t) =
  (((fun p => Js.toString (Z.pos p)) <$> l) ++ Js.split_lines t)%list.
Proof.
  unfold Js.split_lines.
  induction l as [|p l IH]; [done|].
  cbn [Sys.print_pids foldr]. rewrite !append_assoc.
  rewrite split_lines_go_app by apply toString_no_nl.
  fold (Sys.print_pids l). rewrite IH. done.
Qed.


Lemma head_not_ws_app s t :
  s <> "" -> head_not_ws s -> head_not_ws (s +:+ t).
Proof. by destruct s. Qed.

Lemma toString_head z : head_not_ws (Js.toString z).
Proof.
  pose proof (toString_not_ws z) as H.
  destruct (Js.toString z); [done|]. by destruct H.
Qed.

Lemma print_pids_head l t :
  head_not_ws t -> head_not_ws (Sys.print_pids l +:+ t).
Proof.
  destruct l as [|p l]; [done|]. intros _. cbn [Sys.print_pids foldr].
  rewrite append_assoc.
  apply head_not_ws_app; [apply toString_nonempty | apply toString_head].
Qed.

Lemma trimEnd_tail y t :
  t <> "" -> all_chars not_ws t ->
  Js.trimEnd (y +:+ t +:+ Sys.nl) = y +:+ t.
Proof.
  intros Ht Hws. unfold Js.trimEnd.
  rewrite <- append_assoc, rev_append.
  change (String.rev Sys.nl) with Sys.nl. unfold Sys.nl at 1.
  rewrite append_cons, append_nil. cbn [Js.trimStart].
  change (Js.is_ws "010") with true. cbv iota.
  rewrite trimStart_id; [apply rev_involutive|].
  rewrite rev_append.
  assert (H' : all_chars not_ws (String.rev t)).
  { unfold String.rev. by apply all_chars_rev_app. }
  assert (String.rev t <> "").
  { intros E. apply Ht. by rewrite <- (rev_involutive t), E. }
  destruct (String.rev t); [done|]. by destruct H'.
Qed.

(** The pid that [getCurrentPid] reads off the output of [pgrep] is the
    last one printed. *)
Lemma last_pid_print_pids l p :
  GatewayProcessManager.last_pid (Sys.print_pids (l ++ [p])) =
  Some (Z.pos p).
Proof.
  unfold GatewayProcessManager.last_pid.
  rewrite print_pids_app. cbn [Sys.print_pids foldr].
  rewrite append_empty_r.
  unfold Js.trim. rewrite trimStart_id.
  2:{ apply print_pids_head.
      apply head_not_ws_app; [apply toString_nonempty|apply toString_head]. }
  rewrite trimEnd_tail by (apply toString_nonempty || apply toString_not_ws).
  rewrite split_print_pids.
  unfold Js.split_lines.
  rewrite (split_lines_go_line _ "") by apply toString_no_nl.
  rewrite append_nil.
  rewrite List.filter_app. cbn [List.filter].
  assert (Js.truthy_string (Js.toString (Z.pos p)) = true) as ->.
  { unfold Js.truthy_string. apply negb_true_iff, String.eqb_neq,
      toString_nonempty. }
  rewrite last_snoc. apply parseInt_toString.
Qed.


Section PidFile.
Import GatewayProcessManager.

Lemma recorded_toString pid w :
  pidFile (os w) = Some (Js.toString pid) -> recorded w = Some pid.
Proof. unfold recorded. intros ->. apply parseInt_trim_toString. Qed.

(** X1.  The pid file round trip: what [savePid] writes, [getCurrentPid]
    reads back, for every pid, negative ones and 0 included; the read
    changes nothing. *)
Theorem savePid_getCurrentPid pid w :
  exists w', savePid pid w = (Ok tt, w') /\
    getCurrentPid w' = (Ok (Some pid), w') /\
    procs (os w') = procs (os w) /\ now w' = now w.
Proof.
  eexists. split; [reflexivity|].
  rewrite getCurrentPid_eq. cbn. by rewrite parseInt_trim_toString.
Qed.

Lemma live_pids_elem f w p :
  p ∈ Sys.live_pids f w <->
  exists q, procs (os w) !! p = Some q /\ f q = true /\
            proc_live (now w) q = true.
Proof.
  unfold Sys.live_pids. rewrite merge_sort_Permutation.
  rewrite list_elem_of_In, in_map_iff. split.
  - intros ([p' q] & <- & Hin). apply filter_In in Hin as [Hin Hf].
    apply list_elem_of_In, elem_of_map_to_list in Hin.
    apply andb_true_iff in Hf as [??]. by exists q.
  - intros (q & Hq & Hf & Hl). exists (p, q). split; [done|].
    apply filter_In. split.
    + by apply list_elem_of_In, elem_of_map_to_list.
    + cbn. by rewrite Hf, Hl.
Qed.

Lemma discovered_last w :
  discovered w = Z.pos <$> last (Sys.live_pids proc_matches w).
Proof.
  unfold discovered, Sys.pgrep.
  destruct (last (Sys.live_pids proc_matches w)) as [p|] eqn:El.
  - apply last_Some in El as [l' ->].
    pose proof (last_pid_print_pids l' p) as H.
    destruct l'; exact H.
  - apply last_None in El as ->. done.
Qed.



End PidFile.

End Text.

(** ** stop and start, case by case *)

Section StopStart.
Import GatewayProcessManager.

Lemma process_kill_eperm pid sig w w' :
  Sys.process_kill pid sig w = (Throw EPERM, w') ->
  exists q, Sys.find_proc w pid = Some q /\ proc_signalable q = false.
Proof.
  unfold Sys.process_kill. intros H.
  destruct (pid =? 0); [done|].
  destruct (Sys.find_proc w pid) as [q|]; [|done].
  destruct (proc_signalable q) eqn:E; [by destruct sig|]. eauto.
Qed.

Lemma waitForShutdown_loop_bound pid startTime timeout fuel : forall w r w',
  waitForShutdown_loop fuel pid startTime timeout w = (r, w') ->
  now w' <= Z.max (now w) (startTime + timeout + 500).
Proof.
  induction fuel as [|n IH]; intros w r w' H; cbn [waitForShutdown_loop] in H.
  - monad_unfold. simplify_eq. lia.
  - monad_unfold.
    destruct (Z.ltb_spec (now w - startTime) timeout).
    + rewrite isProcessRunning_eq in H.
      destruct (Sys.probe w pid); cbn in H.
      * apply IH in H. cbn in H. lia.
      * simplify_eq. lia.
    + simplify_eq. lia.
Qed.

Lemma waitForShutdown_bound pid timeout w r w' :
  0 <= timeout ->
  waitForShutdown pid timeout w = (r, w') ->
  now w' <= now w + timeout + 500.
Proof.
  intros Ht. unfold waitForShutdown. monad_unfold.
  intros H%waitForShutdown_loop_bound. lia.
Qed.

Lemma process_kill_queue pid sig w r w' :
  Sys.process_kill pid sig w = (r, w') ->
  spawnQueue (os w') = spawnQueue (os w).
Proof.
  unfold Sys.process_kill. intros H.
  repeat case_match; by simplify_eq.
Qed.

Lemma clearPidFile_queue w r w' :
  clearPidFile w = (r, w') -> spawnQueue (os w') = spawnQueue (os w).
Proof.
  unfold clearPidFile, Sys.unlinkPidFile. monad_unfold. intros H.
  repeat case_match; by simplify_eq.
Qed.


#[local] Instance keeps_preorder : PreOrder keeps.
Proof.
  split.
  - by intros w.
  - intros w1 w2 w3 [??] [??]. split; congruence.
Qed.

Lemma process_kill_keeps pid sig w r w' :
  Sys.process_kill pid sig w = (r, w') -> keeps w w'.
Proof.
  intros H. split; [|by eapply process_kill_queue].
  eapply (process_kill_preserves (same trace)); [|exact H]. inv_tac.
Qed.

Lemma clearPidFile_keeps w r w' : clearPidFile w = (r, w') -> keeps w w'.
Proof.
  intros H. split; [|by eapply clearPidFile_queue].
  eapply (clearPidFile_preserves (same trace)); [|exact H]. inv_tac.
Qed.

Lemma waitForShutdown_keeps pid timeout w r w' :
  waitForShutdown pid timeout w = (r, w') -> keeps w w'.
Proof.
  intros H. split.
  - eapply (waitForShutdown_preserves (same trace)); [..|exact H]; inv_tac.
  - apply waitForShutdown_spec in H as (b & _ & Hos & _). by rewrite Hos.
Qed.

Lemma resolved_pid_recorded w pid :
  pidFile (os w) = Some (Js.toString pid) -> resolved_pid w = Some pid.
Proof. unfold resolved_pid. intros ->. apply parseInt_trim_toString. Qed.

(** [getCurrentPid] yields the resolved pid and touches the pid file
    only. *)
Lemma getCurrentPid_resolved w :
  exists w1, getCurrentPid w = (Ok (resolved_pid w), w1) /\
    procs (os w1) = procs (os w) /\
    spawnQueue (os w1) = spawnQueue (os w) /\
    now w1 = now w /\ trace w1 = trace w /\
    (forall p, resolved_pid w = Some p -> resolved_pid w1 = Some p).
Proof.
  rewrite getCurrentPid_eq. unfold resolved_pid.
  destruct (pidFile (os w)) eqn:E.
  - eexists. split; [done|]. split_and!; try done. by rewrite E.
  - destruct (discovered w) as [p|] eqn:Ed.
    + eexists. split; [done|]. split_and!; try done.
      intros p' [= <-]. cbn. apply parseInt_trim_toString.
    + eexists. split; [done|]. split_and!; try done.
Qed.

Lemma number_or_null_Some o p :
  Js.number_or_null o = Some p -> o = Some p /\ p <> 0.
Proof.
  unfold Js.number_or_null, Js.truthy_number.
  destruct o as [p'|]; [|done].
  destruct (Z.eqb_spec p' 0); cbn; [done|]. by intros [= <-].
Qed.

(** What [stop] does, by what the resolved pid names. *)
Lemma stop_cases w :
  exists sr w', stop w = (Ok sr, w') /\
    now w <= now w' <= now w + 11500 /\
    trace w' = (now w, CallStop) :: trace w /\
    spawnQueue (os w') = spawnQueue (os w) /\
    match Js.number_or_null (resolved_pid w) with
    | None =>
        sr = StopResult.mk true "Gateway is not running" /\
        procs (os w') = procs (os w) /\ now w' = now w
    | Some p =>
        match Sys.find_proc w p with
        | None =>
            sr = StopResult.mk true "Gateway process was not running" /\
            pidFile (os w') = None /\
            procs (os w') = procs (os w) /\ now w' = now w
        | Some q =>
            if proc_signalable q then
              sr = StopResult.mk true "Gateway stopped successfully" /\
              pidFile (os w') = None /\ Sys.find_proc w' p = None
            else
              sr = StopResult.mk false
                     "Failed to stop Gateway: Error: kill EPERM" /\
              procs (os w') = procs (os w) /\ now w' = now w
        end
    end.
Proof.
  unfold stop. monad_unfold.
  set (w0 := set_trace _ w).
  assert (Hw0 : resolved_pid w0 = resolved_pid w)
    by (by apply resolved_pid_frame).
  destruct (getCurrentPid_resolved w0)
    as (w1 & E & Hprocs & Hq1 & Hnow & Htr1 & _).
  rewrite E, Hw0. clear E Hw0.
  change (procs (os w0)) with (procs (os w)) in Hprocs.
  change (spawnQueue (os w0)) with (spawnQueue (os w)) in Hq1.
  change (now w0) with (now w) in Hnow.
  change (trace w0) with ((now w, CallStop) :: trace w) in Htr1.
  clearbody w0.
  assert (Hfin : forall w', keeps w1 w' ->
            trace w' = (now w, CallStop) :: trace w /\
            spawnQueue (os w') = spawnQueue (os w)).
  { intros w' [??]. split; congruence. }
  destruct (Js.number_or_null (resolved_pid w)) as [p|] eqn:Hp.
  2:{ eexists _, _. split; [done|]. split_and!; try done; lia. }
  apply number_or_null_Some in Hp as [_ Hz].
  assert (Hfp : Sys.find_proc w1 p = Sys.find_proc w p)
    by (by apply find_proc_frame).
  destruct (Sys.process_kill p SIGTERM w1) as [[[]|e] w2] eqn:Ek.
  - pose proof (process_kill_keeps _ _ _ _ _ Ek) as K2.
    pose proof Ek as Ek'.
    apply process_kill_ok in Ek as (q & Hq & Hsig & Hq2 & Hn2 & _); [|done..].
    assert (Hfq : Sys.find_proc w p = Some q).
    { unfold Sys.process_kill in Ek'.
      rewrite (proj2 (Z.eqb_neq p 0) Hz) in Ek'.
      rewrite <- Hfp. rewrite find_proc_entry, Hq.
      rewrite find_proc_entry, Hq in Ek'.
      destruct (proc_live (now w1) q); [done|done]. }
    rewrite Hfq, Hsig.
    destruct (waitForShutdown p SHUTDOWN_TIMEOUT w2) as [r3 w3] eqn:Ew.
    pose proof (waitForShutdown_keeps _ _ _ _ _ Ew) as K3.
    pose proof Ew as Ew'.
    apply waitForShutdown_bound in Ew'; [|done].
    apply waitForShutdown_spec in Ew as (b & -> & Hos3 & Hn3 & Hb).
    assert (Hq3 : entry w3 p = Some (Sys.deliver (now w1) SIGTERM q))
      by (by rewrite (entry_frame w2 w3)).
    unfold SHUTDOWN_TIMEOUT in *.
    destruct b; cbn.
    + destruct (clearPidFile_eq w3) as (w4 & E4 & Hf4 & Hp4 & Hn4).
      pose proof (clearPidFile_keeps _ _ _ E4) as K4.
      rewrite E4. eexists _, _. split; [done|].
      destruct (Hfin w4) as [??]; [by do 2 (etrans; [eassumption|])|].
      split_and!; try done; try lia.
      apply (find_proc_later w3); [done|lia|].
      specialize (Hb eq_refl). unfold Sys.probe in Hb.
      rewrite (proj2 (Z.eqb_neq p 0) Hz) in Hb. cbn in Hb.
      rewrite find_proc_entry, Hq3 in Hb |- *.
      destruct (proc_live (now w3) _); [|done].
      by rewrite deliver_signalable, Hsig in Hb.
    + destruct (Sys.process_kill p SIGKILL w3) as [[[]|e] w4] eqn:Ek2.
      * pose proof (process_kill_keeps _ _ _ _ _ Ek2) as K4.
        apply process_kill_ok in Ek2 as (q' & Hq' & _ & Hq4 & Hn4 & _);
          [|done..].
        destruct (clearPidFile_eq (set_now (fun t => t + 1000) w4))
          as (w5 & E5 & Hf5 & Hp5 & Hn5).
        pose proof (clearPidFile_keeps _ _ _ E5) as K5.
        rewrite E5. cbn in Hp5, Hn5.
        eexists _, _. split; [done|].
        destruct (Hfin w5) as [??].
        { do 3 (etrans; [eassumption|]). exact K5. }
        split_and!; try done; try lia.
        rewrite find_proc_entry.
        assert (entry w5 p = entry w4 p) as ->
          by (destruct p; cbn; congruence).
        rewrite Hq4. unfold proc_live. cbn.
        destruct (Z.ltb_spec (now w5) (now w3)); [lia|done].
      * pose proof Ek2 as Ek2'.
        apply process_kill_throw in Ek2 as (-> & [[-> Hgone] | ->]); cbn.
        -- destruct (clearPidFile_eq (set_now (fun t => t + 1000) w3))
             as (w5 & E5 & Hf5 & Hp5 & Hn5).
           pose proof (clearPidFile_keeps _ _ _ E5) as K5.
           rewrite E5. cbn in Hp5, Hn5.
           eexists _, _. split; [done|].
           destruct (Hfin w5) as [??].
           { do 2 (etrans; [eassumption|]). exact K5. }
           split_and!; try done; try lia.
           apply (find_proc_later w3); [done|lia|done].
        -- apply process_kill_eperm in Ek2' as (q3 & Hq3' & Hs3).
           rewrite find_proc_entry, Hq3 in Hq3'.
           destruct (proc_live (now w3) _); [|done].
           simplify_eq. by rewrite deliver_signalable, Hsig in Hs3.
  - pose proof Ek as Ek'.
    apply process_kill_throw in Ek as (-> & [[-> Hgone] | ->]); cbn.
    + rewrite <- Hfp, Hgone.
      destruct (clearPidFile_eq w1) as (w4 & E4 & Hf4 & Hp4 & Hn4).
      pose proof (clearPidFile_keeps _ _ _ E4) as K4.
      rewrite E4. eexists _, _. split; [done|].
      destruct (Hfin w4) as [??]; [done|].
      split_and!; try done; try lia; congruence.
    + apply process_kill_eperm in Ek' as (q & Hq & Hs).
      rewrite <- Hfp, Hq, Hs.
      eexists _, _. split; [done|].
      destruct (Hfin w1) as [??]; [done|].
      split_and!; try done; try lia; congruence.
Qed.


Lemma trim_print_pids_nonempty l :
  l <> [] -> Js.truthy_string (Js.trim (Sys.print_pids l)) = true.
Proof.
  intros Hl. destruct (last l) as [p|] eqn:El.
  2:{ by apply last_None in El. }
  apply last_Some in El as [l' ->].
  rewrite print_pids_app. cbn [Sys.print_pids foldr].
  rewrite append_empty_r.
  unfold Js.trim. rewrite trimStart_id.
  2:{ apply print_pids_head.
      apply head_not_ws_app; [apply toString_nonempty|apply toString_head]. }
  rewrite trimEnd_tail by (apply toString_nonempty || apply toString_not_ws).
  unfold Js.truthy_string. apply negb_true_iff, String.eqb_neq.
  intros E. apply (toString_nonempty (Z.pos p)).
  destruct (Sys.print_pids l'); [|done].
  by rewrite append_nil in E.
Qed.

Lemma isPortListening_iff w :
  exists b, isPortListening w = (Ok b, w) /\ (b = true <-> listening w).
Proof.
  unfold isPortListening, Sys.lsof. monad_unfold.
  pose proof (live_pids_elem (proc_listening (now w)) w) as Hin.
  destruct (Sys.live_pids (proc_listening (now w)) w) as [|p l] eqn:E.
  - exists false. split; [done|]. split; [done|].
    intros (p & q & Hq & Hl). exfalso.
    assert (p ∈ @nil positive) as Hp; [|inversion Hp].
    apply Hin. exists q. split_and!; [done..|].
    unfold proc_listening in Hl. by apply andb_true_iff in Hl as [? _].
  - exists true. rewrite trim_print_pids_nonempty by done.
    split; [done|]. split; [|done]. intros _.
    destruct (proj1 (Hin p)) as (q & Hq & Hl & _); [left|]. by exists p, q.
Qed.

Lemma waitForStartup_loop_spec pid startTime fuel : forall w r w',
  waitForStartup_loop fuel pid startTime w = (r, w') ->
  exists b, r = Ok b /\ os w' = os w /\ now w <= now w' /\
    now w' <= Z.max (now w) (startTime + STARTUP_TIMEOUT + 1000) /\
    (b = true ->
     Sys.probe w' pid = true /\ listening w' /\
     now w' - startTime < STARTUP_TIMEOUT).
Proof.
  induction fuel as [|n IH]; intros w r w' H; cbn [waitForStartup_loop] in H.
  - monad_unfold. simplify_eq. exists false.
    split_and!; [done|done|lia|lia|done].
  - monad_unfold.
    destruct (Z.ltb_spec (now w - startTime) STARTUP_TIMEOUT).
    + rewrite isProcessRunning_eq in H.
      destruct (Sys.probe w pid) eqn:Hp; cbn in H.
      * destruct (isPortListening_iff w) as (b & E & Hb). rewrite E in H.
        destruct b.
        -- simplify_eq. exists true.
           split_and!; [done|done|lia|lia|].
           intros _. split_and!; [done|by apply Hb|done].
        -- apply IH in H as (b & -> & Hos & Hn1 & Hn2 & Hb').
           cbn in *. exists b. split_and!; [done|done|lia|lia|done].
      * simplify_eq. exists false. split_and!; [done|done|lia|lia|done].
    + simplify_eq. exists false. split_and!; [done|done|lia|lia|done].
Qed.

Lemma waitForStartup_spec pid w r w' :
  waitForStartup pid w = (r, w') ->
  exists b, r = Ok b /\ os w' = os w /\ now w <= now w' /\
    now w' <= now w + STARTUP_TIMEOUT + 1000 /\
    (b = true ->
     Sys.probe w' pid = true /\ listening w' /\
     now w' - now w < STARTUP_TIMEOUT).
Proof.
  unfold waitForStartup. monad_unfold.
  intros (b & ? & ? & ? & ? & ?)%waitForStartup_loop_spec.
  exists b. unfold STARTUP_TIMEOUT in *. split_and!; [done|done|lia|lia|done].
Qed.


Lemma getCurrentPid_logFile w r w1 :
  getCurrentPid w = (r, w1) -> logFile (os w1) = logFile (os w).
Proof.
  rewrite getCurrentPid_eq. intros E.
  by repeat case_match; simplify_eq.
Qed.

(** What [start] does: refuse, fail to spawn, fail on the log file with
    the child spawned, succeed, or give up and stop the child. *)
Lemma start_cases w :
  exists r w', start w = (Ok r, w') /\
    now w <= now w' <= now w + 42500 /\
    match Js.number_or_null (resolved_pid w) with
    | Some p =>
        Sys.probe w p = true ->
        r = StartResult.mk false (Some p)
              ("Gateway is already running with PID " +:+ Js.toString p) /\
        procs (os w') = procs (os w) /\
        spawnQueue (os w') = spawnQueue (os w) /\ now w' = now w /\
        resolved_pid w' = Some p /\
        trace w' = (now w, CallStart) :: trace w
    | None => True
    end /\
    ((forall p, Js.number_or_null (resolved_pid w) = Some p ->
                Sys.probe w p = false) ->
     match logFile (os w), spawnQueue (os w) with
     | LogFileDenied, SpawnChild c q :: rest =>
         spawnQueue (os w') = rest /\
         r = StartResult.mk false None
               ("Failed to start Gateway: " +:+ exn_to_string EACCES) /\
         pidFile (os w') = Some (Js.toString (Z.pos c)) /\
         procs (os w') = <[c := q]> (procs (os w)) /\ now w' = now w /\
         trace w' = (now w, CallStart) :: trace w
     | LogReady, SpawnChild c q :: rest =>
         spawnQueue (os w') = rest /\
         if StartResult.success r then
           r = StartResult.mk true (Some (Z.pos c))
                 ("Gateway started successfully with PID " +:+
                  Js.toString (Z.pos c)) /\
           pidFile (os w') = Some (Js.toString (Z.pos c)) /\
           procs (os w') = <[c := q]> (procs (os w)) /\
           Sys.probe w' (Z.pos c) = true /\ listening w' /\
           now w' - now w < STARTUP_TIMEOUT /\
           trace w' = (now w, CallStart) :: trace w
         else
           r = StartResult.mk false None
                 "Gateway failed to start within timeout period" /\
           (proc_signalable q = true ->
            Sys.find_proc w' (Z.pos c) = None /\ pidFile (os w') = None)
     | _, _ =>
         r = StartResult.mk false None "Failed to spawn Gateway process" /\
         procs (os w') = procs (os w) /\ now w' = now w
     end).
Proof.
  unfold start. monad_unfold.
  set (w0 := set_trace _ w).
  assert (Hw0 : resolved_pid w0 = resolved_pid w).
  { by apply resolved_pid_frame. }
  destruct (getCurrentPid_resolved w0)
    as (w1 & E & Hp1 & Hq1 & Hn1 & Ht1 & Hr1).
  pose proof (getCurrentPid_logFile _ _ _ E) as Hl1.
  change (logFile (os w0)) with (logFile (os w)) in Hl1.
  rewrite E, Hw0. rewrite Hw0 in Hr1. clear E.
  change (procs (os w0)) with (procs (os w)) in Hp1.
  change (spawnQueue (os w0)) with (spawnQueue (os w)) in Hq1.
  change (now w0) with (now w) in Hn1.
  change (trace w0) with ((now w, CallStart) :: trace w) in Ht1.
  clearbody w0.
  assert (Hprobe : forall p, Sys.probe w1 p = Sys.probe w p).
  { intros p. unfold Sys.probe. by rewrite (find_proc_frame w w1). }
  set (running :=
    match Js.number_or_null (resolved_pid w) with
    | Some p => Sys.probe w p
    | None => false
    end).
  assert (Hrun :
    match Js.number_or_null (resolved_pid w) with
    | Some p => isProcessRunning p
    | None => mret false
    end w1 = (Ok running, w1)).
  { subst running. destruct (Js.number_or_null (resolved_pid w)) as [p|].
    - by rewrite isProcessRunning_eq, Hprobe.
    - done. }
  monad_unfold. rewrite Hrun. clear Hrun.
  destruct running eqn:Erun.
  { eexists _, _. split; [done|]. split; [lia|]. split.
    - subst running.
      destruct (Js.number_or_null (resolved_pid w)) as [p|] eqn:Ep; [|done].
      intros _.
      assert (resolved_pid w = Some p) as Hres.
      { unfold Js.number_or_null in Ep.
        destruct (resolved_pid w) as [p'|]; [|done].
        by destruct (Js.truthy_number p'); simplify_eq. }
      rewrite Hres. cbn. split_and!; try done. by apply Hr1.
    - intros Hnot. subst running.
      destruct (Js.number_or_null (resolved_pid w)) as [p|]; [|done].
      by rewrite (Hnot p eq_refl) in Erun. }
  assert (Hleft :
    match Js.number_or_null (resolved_pid w) with
    | Some p =>
        Sys.probe w p = true ->
        forall (r : StartResult.t) (w' : World),
          r = StartResult.mk false (Some p)
                ("Gateway is already running with PID " +:+ Js.toString p) /\
          procs (os w') = procs (os w) /\
          spawnQueue (os w') = spawnQueue (os w) /\ now w' = now w /\
          resolved_pid w' = Some p /\
          trace w' = (now w, CallStart) :: trace w
    | None => True
    end).
  { subst running.
    destruct (Js.number_or_null (resolved_pid w)) as [p|]; [|done].
    intros Hp. by rewrite Hp in Erun. }
  clear Erun. clearbody running.
  unfold Sys.mkdirLogDir. monad_unfold.
  destruct (logFile (os w)) eqn:El.
  2:{ (* the file cannot be opened: spawn, savePid, then the throw *)
    unfold Sys.spawn. rewrite Hq1.
    destruct (spawnQueue (os w)) as [|[|c q] rest] eqn:Eq; cbn.
    - eexists _, _. split; [done|]. split; [lia|]. split.
      + destruct (Js.number_or_null (resolved_pid w)); [|done].
        intros Hp. apply (Hleft Hp).
      + intros _. split_and!; try done.
    - eexists _, _. split; [done|]. split; [cbn; lia|]. split.
      + destruct (Js.number_or_null (resolved_pid w)); [|done].
        intros Hp. apply (Hleft Hp).
      + intros _. split_and!; try done.
    - unfold savePid, Sys.writePidFile, Sys.openLogFile. monad_unfold.
      cbn. rewrite Hl1.
      eexists _, _. split; [done|]. split; [cbn; lia|]. split.
      + destruct (Js.number_or_null (resolved_pid w)); [|done].
        intros Hp. apply (Hleft Hp).
      + intros _. cbn. split_and!; try done. by rewrite Hp1. }
  unfold Sys.spawn. rewrite Hq1.
  destruct (spawnQueue (os w)) as [|[|c q] rest] eqn:Eq; cbn.
  - eexists _, _. split; [done|]. split; [lia|]. split.
    + destruct (Js.number_or_null (resolved_pid w)); [|done].
      intros Hp. apply (Hleft Hp).
    + intros _. split_and!; try done.
  - eexists _, _. split; [done|]. split; [cbn; lia|]. split.
    + destruct (Js.number_or_null (resolved_pid w)); [|done].
      intros Hp. apply (Hleft Hp).
    + intros _. split_and!; try done.
  - unfold savePid, Sys.writePidFile, Sys.openLogFile. monad_unfold.
    cbn [logFile os set_os Sys.set_pidFile]. rewrite Hl1.
    set (w3 := set_os _ (set_os _ w1)).
    assert (Hf3 : pidFile (os w3) = Some (Js.toString (Z.pos c))) by done.
    assert (Hp3 : procs (os w3) = <[c := q]> (procs (os w))).
    { cbn. by rewrite Hp1. }
    assert (Hq3 : spawnQueue (os w3) = rest) by done.
    assert (Hn3 : now w3 = now w) by done.
    assert (Ht3 : trace w3 = (now w, CallStart) :: trace w) by done.
    clearbody w3.
    destruct (waitForStartup (Z.pos c) w3) as [r4 w4] eqn:Ew.
    assert (Ht4 : trace w4 = trace w3).
    { eapply (waitForStartup_preserves (same trace)); [..|exact Ew];
        inv_tac. }
    apply waitForStartup_spec in Ew as (b & -> & Hos4 & Hn4 & Hn4' & Hb).
    unfold STARTUP_TIMEOUT in *.
    assert (Hf4 : pidFile (os w4) = Some (Js.toString (Z.pos c)))
      by (by rewrite Hos4).
    assert (Hp4 : procs (os w4) = <[c := q]> (procs (os w)))
      by (by rewrite Hos4).
    assert (Hq4 : spawnQueue (os w4) = rest) by (by rewrite Hos4).
    destruct b; cbn [negb].
    + destruct (Hb eq_refl) as (Hb1 & Hb2 & Hb3).
      eexists _, _. split; [done|]. split; [lia|]. split.
      * destruct (Js.number_or_null (resolved_pid w)); [|done].
        intros Hp. apply (Hleft Hp).
      * intros _. cbn [StartResult.success].
        split_and!; try done; try lia. congruence.
    + destruct (stop_cases w4) as (sr & w5 & Es & Hn5 & Ht5 & Hq5 & Hcase).
      rewrite Es.
      eexists _, _. split; [done|]. split; [lia|]. split.
      * destruct (Js.number_or_null (resolved_pid w)); [|done].
        intros Hp. apply (Hleft Hp).
      * intros _. cbn [StartResult.success].
        split; [congruence|]. split; [done|]. intros Hsig.
        rewrite (resolved_pid_recorded w4 (Z.pos c)) in Hcase by done.
        change (Js.number_or_null (Some (Z.pos c))) with (Some (Z.pos c))
          in Hcase.
        assert (Hfind : Sys.find_proc w4 (Z.pos c) =
                        if proc_live (now w4) q then Some q else None).
        { unfold Sys.find_proc. by rewrite Hp4, lookup_insert_eq. }
        cbv beta iota in Hcase. rewrite Hfind in Hcase.
        destruct (proc_live (now w4) q).
        -- rewrite Hsig in Hcase. by destruct Hcase as (_ & ? & ?).
        -- destruct Hcase as (_ & ? & Hp5 & Hn5').
           split; [|done]. change (Sys.find_proc w5 (Z.pos c) = None).
           by rewrite (find_proc_frame w4 w5).
Qed.


End StopStart.

(** ** healthCheck and restart *)

Section Restart.
Import GatewayProcessManager.

Lemma probe_frame w w' pid :
  procs (os w') = procs (os w) -> now w' = now w ->
  Sys.probe w' pid = Sys.probe w pid.
Proof. intros ??. unfold Sys.probe. by rewrite (find_proc_frame w w'). Qed.

Lemma listening_frame w w' :
  procs (os w') = procs (os w) -> now w' = now w ->
  listening w' <-> listening w.
Proof. intros Hp Hn. unfold listening. by rewrite Hp, Hn. Qed.

(** What [healthCheck] answers, and that it touches the pid file only. *)
Lemma healthCheck_cases w :
  exists b w', healthCheck w = (Ok b, w') /\
    (b = true <->
     exists p, Js.number_or_null (resolved_pid w) = Some p /\
               Sys.probe w p = true /\ listening w) /\
    procs (os w') = procs (os w) /\
    spawnQueue (os w') = spawnQueue (os w) /\
    now w' = now w /\ trace w' = trace w /\
    (forall p, resolved_pid w = Some p -> resolved_pid w' = Some p).
Proof.
  unfold healthCheck. monad_unfold.
  destruct (getCurrentPid_resolved w) as (w1 & E & Hp1 & Hq1 & Hn1 & Ht1 & Hr1).
  rewrite E. clear E.
  destruct (Js.number_or_null (resolved_pid w)) as [p|] eqn:Hp.
  - rewrite isProcessRunning_eq, (probe_frame w w1) by done.
    destruct (Sys.probe w p) eqn:Hprobe; cbn.
    + destruct (isPortListening_iff w1) as (b & E & Hb). rewrite E.
      rewrite (listening_frame w w1) in Hb by done.
      destruct b; cbn.
      * eexists _, _. split; [done|]. split_and!; try done.
        split; [|done]. intros _. exists p. split_and!; [done..|].
        by apply Hb.
      * eexists _, _. split; [done|]. split_and!; try done.
        split; [done|]. intros (p' & _ & _ & Hl). by apply Hb in Hl.
    + eexists _, _. split; [done|]. split_and!; try done.
      split; [done|]. intros (p' & [= <-] & Hp' & _). congruence.
  - eexists _, _. split; [done|]. split_and!; try done.
    split; [done|]. by intros (p' & ? & _).
Qed.

(** What [restart] does. *)
Lemma restart_cases reason w :
  exists r w', restart reason w = (Ok r, w') /\
    now w <= now w' <= now w + 59000 /\
    0 <= RestartResult.duration r <= now w' - now w /\
    RestartResult.oldPid r = resolved_pid w /\
    (RestartResult.newPid r <> None ->
     now w' = now w + RestartResult.duration r + 3000) /\
    (RestartResult.success r = true ->
     exists c, RestartResult.newPid r = Some (Z.pos c) /\
       resolved_pid w' = Some (Z.pos c) /\
       Sys.probe w' (Z.pos c) = true /\ listening w').
Proof.
  unfold restart. monad_unfold.
  set (w0 := set_trace _ w).
  assert (Hw0 : resolved_pid w0 = resolved_pid w)
    by (by apply resolved_pid_frame).
  destruct (getCurrentPid_resolved w0)
    as (w1 & E & Hp1 & Hq1 & Hn1 & Ht1 & Hr1).
  rewrite E, Hw0. clear E Hw0.
  change (now w0) with (now w) in *.
  clearbody w0.
  destruct (stop_cases w1) as (sr & w2 & Es & Hn2 & _ & Hq2 & _).
  rewrite Es. clear Es.
  destruct (StopResult.success sr); cbn [negb].
  2:{ eexists _, _. split; [done|].
      cbn [RestartResult.success RestartResult.newPid RestartResult.oldPid
           RestartResult.duration StartResult.pid].
      split_and!; try done; lia. }
  set (w3 := set_now _ w2).
  assert (Hn3 : now w3 = now w2 + 2000) by done.
  clearbody w3.
  destruct (start_cases w3) as (r4 & w4 & Est & Hn4 & Hrun & Hspawn).
  rewrite Est. clear Est.
  destruct (StartResult.success r4) eqn:Hsucc; cbn [negb].
  2:{ eexists _, _. split; [done|].
      cbn [RestartResult.success RestartResult.newPid RestartResult.oldPid
           RestartResult.duration StartResult.pid].
      split_and!; try done; lia. }
  assert (Hnot : forall p, Js.number_or_null (resolved_pid w3) = Some p ->
                 Sys.probe w3 p = false).
  { intros p Hp. rewrite Hp in Hrun.
    destruct (Sys.probe w3 p); [|done].
    destruct (Hrun eq_refl) as [-> _]. done. }
  specialize (Hspawn Hnot). clear Hrun Hnot.
  destruct (logFile (os w3)), (spawnQueue (os w3)) as [|[|c q] rest];
    try (destruct Hspawn as [-> _]; done);
    try (destruct Hspawn as (_ & -> & _); done).
  destruct Hspawn as [_ Hspawn].
  destruct Hspawn as (-> & Hf4 & Hp4 & Hprobe4 & Hl4 & Hn4' & Ht4).
  set (w5 := set_now _ w4).
  assert (Hn5 : now w5 = now w4 + 3000) by done.
  assert (Hf5 : pidFile (os w5) = Some (Js.toString (Z.pos c))) by done.
  assert (Hos5 : os w5 = os w4) by done.
  clearbody w5.
  destruct (healthCheck_cases w5)
    as (b & w6 & Eh & Hb & Hp6 & Hq6 & Hn6 & Ht6 & Hr6).
  rewrite Eh. clear Eh.
  pose proof (resolved_pid_recorded w5 (Z.pos c) Hf5) as Hres5.
  destruct b; cbn [negb].
  - eexists _, _. split; [done|].
    cbn [RestartResult.success RestartResult.newPid RestartResult.oldPid
         RestartResult.duration StartResult.pid].
    split_and!; try done; try lia.
    intros _. exists c. split; [done|]. split; [by apply Hr6|].
    apply proj1 in Hb. destruct (Hb eq_refl) as (p & Hp & Hpr & Hl).
    rewrite Hres5 in Hp. injection Hp as <-.
    split.
    + by rewrite (probe_frame w5 w6).
    + by apply (listening_frame w5 w6).
  - eexists _, _. split; [done|].
    cbn [RestartResult.success RestartResult.newPid RestartResult.oldPid
         RestartResult.duration StartResult.pid].
    split_and!; try done; lia.
Qed.

End Restart.

(** ** The process manager: further properties *)

Section ProcessManagerExtras.
Import GatewayProcessManager.

(** X3.  [stop] returns in every world, within 11.5 seconds (the 10 s
    grace period, one polling step of 500 ms and the 1 s after SIGKILL).
    It reports failure exactly when the resolved pid names a live process
    that the supervisor may not signal, and then it has changed neither the
    process table nor the clock. *)
Theorem stop_fails_only_unsignalable w :
  exists sr w', stop w = (Ok sr, w') /\
    now w <= now w' <= now w + 11500 /\
    (StopResult.success sr = false <->
     exists p q, Js.number_or_null (resolved_pid w) = Some p /\
       Sys.find_proc w p = Some q /\ proc_signalable q = false) /\
    (StopResult.success sr = false ->
     procs (os w') = procs (os w) /\ now w' = now w).
Proof.
  destruct (stop_cases w) as (sr & w' & E & Hn & _ & _ & Hcase).
  exists sr, w'. split; [done|]. split; [done|].
  destruct (Js.number_or_null (resolved_pid w)) as [p|].
  - destruct (Sys.find_proc w p) as [q|] eqn:Hq.
    + destruct (proc_signalable q) eqn:Hs.
      * destruct Hcase as (-> & _). split; [|done].
        split; [done|]. intros (p' & q' & [= <-] & Hq' & Hs').
        rewrite Hq in Hq'. injection Hq' as <-. congruence.
      * destruct Hcase as (-> & ? & ?). split; [|done].
        split; [|done]. intros _. by exists p, q.
    + destruct Hcase as (-> & _). split; [|done].
      split; [done|]. intros (p' & q' & [= <-] & Hq' & _). congruence.
  - destruct Hcase as (-> & _). split; [|done].
    split; [done|]. by intros (p' & q' & ? & ? & ?).
Qed.

(** X4.  When the resolved pid names a live process that the supervisor may
    signal, [stop] ends it -- by SIGTERM, or by SIGKILL when it is still
    there after the grace period -- and removes the pid file. *)
Theorem stop_terminates_process w p q :
  Js.number_or_null (resolved_pid w) = Some p ->
  Sys.find_proc w p = Some q -> proc_signalable q = true ->
  exists w',
    stop w = (Ok (StopResult.mk true "Gateway stopped successfully"), w') /\
    Sys.find_proc w' p = None /\ pidFile (os w') = None.
Proof.
  intros Hp Hq Hs.
  destruct (stop_cases w) as (sr & w' & E & _ & _ & _ & Hcase).
  rewrite Hp, Hq, Hs in Hcase. destruct Hcase as (-> & ? & ?).
  by exists w'.
Qed.

(** X5.  [start] does not start a second instance: when the resolved pid
    answers the probe, it fails with that pid, spawns nothing and does not
    wait. *)
Theorem start_refuses_second_instance w p :
  Js.number_or_null (resolved_pid w) = Some p -> Sys.probe w p = true ->
  exists w',
    start w =
      (Ok (StartResult.mk false (Some p)
             ("Gateway is already running with PID " +:+ Js.toString p)),
       w') /\
    procs (os w') = procs (os w) /\
    spawnQueue (os w') = spawnQueue (os w) /\ now w' = now w.
Proof.
  intros Hp Hprobe.
  destruct (start_cases w) as (r & w' & E & _ & Hrun & _).
  rewrite Hp in Hrun. destruct (Hrun Hprobe) as (-> & ? & ? & ? & _).
  by exists w'.
Qed.

(** X6.  When [start] reports success, the pid it returns is the pid of the
    child it spawned, the pid file records it, the child answers the signal
    probe, some process listens on the gateway port, and less than the
    30-second startup timeout has passed. *)
Theorem start_success_running w r w' :
  start w = (Ok r, w') -> StartResult.success r = true ->
  exists c q rest,
    spawnQueue (os w) = SpawnChild c q :: rest /\
    StartResult.pid r = Some (Z.pos c) /\
    recorded w' = Some (Z.pos c) /\
    Sys.probe w' (Z.pos c) = true /\ listening w' /\
    now w' - now w < STARTUP_TIMEOUT.
Proof.
  intros E Hsucc.
  destruct (start_cases w) as (r0 & w0 & E0 & _ & Hrun & Hspawn).
  rewrite E in E0. injection E0 as <- <-.
  assert (Hnot : forall p, Js.number_or_null (resolved_pid w) = Some p ->
                 Sys.probe w p = false).
  { intros p Hp. rewrite Hp in Hrun.
    destruct (Sys.probe w p); [|done].
    destruct (Hrun eq_refl) as [-> _]. done. }
  specialize (Hspawn Hnot).
  destruct (logFile (os w)), (spawnQueue (os w)) as [|[|c q] rest];
    try (destruct Hspawn as [-> _]; done);
    try (destruct Hspawn as (_ & -> & _); done).
  destruct Hspawn as [_ Hspawn]. rewrite Hsucc in Hspawn.
  destruct Hspawn as (-> & Hf & _ & ? & ? & ? & _).
  exists c, q, rest. split_and!; try done.
  by apply recorded_toString.
Qed.

(** X7.  What a failed start leaves behind, when nothing was running and
    a child is there to be spawned.  When the startup timeout passes and
    the supervisor may signal the child, the child is gone and no pid file
    remains.  But when the log file cannot be opened, which [start] finds
    out after the spawn, it reports "Failed to start Gateway", does not
    call [stop] (the start is the only call it puts on record) and leaves
    the child in the process table as it was spawned, with its pid in the
    pid file. *)
Theorem start_failure_leaves w c q rest r w' :
  (forall p, Js.number_or_null (resolved_pid w) = Some p ->
             Sys.probe w p = false) ->
  spawnQueue (os w) = SpawnChild c q :: rest ->
  start w = (Ok r, w') -> StartResult.success r = false ->
  match logFile (os w) with
  | LogReady =>
      StartResult.message r =
        "Gateway failed to start within timeout period" /\
      (proc_signalable q = true ->
       Sys.find_proc w' (Z.pos c) = None /\ pidFile (os w') = None)
  | LogFileDenied =>
      StartResult.message r =
        "Failed to start Gateway: Error: EACCES: permission denied" /\
      procs (os w') !! c = Some q /\
      Sys.find_proc w' (Z.pos c) = Sys.find_proc (Sys.spawn w).2 (Z.pos c) /\
      recorded w' = Some (Z.pos c) /\
      trace w' = (now w, CallStart) :: trace w
  end.
Proof.
  intros Hnot Hq E Hfail.
  destruct (start_cases w) as (r0 & w0 & E0 & _ & _ & Hspawn).
  rewrite E in E0. injection E0 as <- <-.
  specialize (Hspawn Hnot). rewrite Hq in Hspawn.
  destruct (logFile (os w)).
  - destruct Hspawn as [_ Hspawn]. rewrite Hfail in Hspawn.
    by destruct Hspawn as (-> & Hgone).
  - destruct Hspawn as (_ & -> & Hf & Hp & Hn & Ht). split_and!; try done.
    + rewrite Hp. apply lookup_insert_eq.
    + unfold Sys.find_proc, Sys.spawn. rewrite Hq. cbn. by rewrite Hp, Hn.
    + by apply recorded_toString.
Qed.

(** X8.  When [restart] reports success, a live, health-checked process
    exists afterwards: the new pid is recorded in the pid file, answers the
    signal probe, and the gateway port has a listener; the old pid reported
    is the one that was resolved on entry. *)
Theorem restart_success_healthy reason w r w' :
  restart reason w = (Ok r, w') -> RestartResult.success r = true ->
  exists c, RestartResult.newPid r = Some (Z.pos c) /\
    resolved_pid w' = Some (Z.pos c) /\
    Sys.probe w' (Z.pos c) = true /\ listening w' /\
    RestartResult.oldPid r = resolved_pid w.
Proof.
  intros E Hsucc.
  destruct (restart_cases reason w) as (r0 & w0 & E0 & _ & _ & Hold & _ & H).
  rewrite E in E0. injection E0 as <- <-.
  destruct (H Hsucc) as (c & ? & ? & ? & ?). by exists c.
Qed.

(** X9.  [restart] returns within 59 seconds.  The duration it reports is
    measured before the 3-second settle time and the health check: once a
    new process was started, the call has taken exactly 3 seconds longer
    than the reported duration. *)
Theorem restart_bounded reason w :
  exists r w', restart reason w = (Ok r, w') /\
    now w <= now w' <= now w + 59000 /\
    0 <= RestartResult.duration r <= now w' - now w /\
    (RestartResult.newPid r <> None ->
     now w' = now w + RestartResult.duration r + 3000).
Proof.
  destruct (restart_cases reason w) as (r & w' & E & ? & ? & _ & ? & _).
  by exists r, w'.
Qed.

(** X10.  [healthCheck] answers true exactly when the resolved pid is a
    non-zero number that answers the signal probe and some live process
    listens on the gateway port (whichever process that is).  It changes
    neither the process table nor the clock. *)
Theorem healthCheck_iff w :
  exists b w', healthCheck w = (Ok b, w') /\
    (b = true <->
     exists p, resolved_pid w = Some p /\ p <> 0 /\
               Sys.probe w p = true /\ listening w) /\
    procs (os w') = procs (os w) /\ now w' = now w.
Proof.
  destruct (healthCheck_cases w) as (b & w' & E & Hb & ? & _ & ? & _).
  exists b, w'. split_and!; try done.
  rewrite Hb. split.
  - intros (p & Hp & ? & ?). apply number_or_null_Some in Hp as [??].
    by exists p.
  - intros (p & Hp & Hz & ? & ?). exists p. split_and!; try done.
    rewrite Hp. unfold Js.number_or_null, Js.truthy_number.
    by rewrite (proj2 (Z.eqb_neq p 0) Hz).
Qed.

(** X11.  The polling loops answer within their timeout plus one polling
    step, change nothing but the clock, and do not throw.
    [waitForShutdown] answers true only when the process no longer answers
    the probe; [waitForStartup] only when it does and the port has a
    listener. *)
Theorem wait_loops_bounded pid timeout w :
  0 <= timeout ->
  (exists b w', waitForShutdown pid timeout w = (Ok b, w') /\
     os w' = os w /\ now w <= now w' <= now w + timeout + 500 /\
     (b = true -> Sys.probe w' pid = false)) /\
  (exists b w', waitForStartup pid w = (Ok b, w') /\
     os w' = os w /\ now w <= now w' <= now w + STARTUP_TIMEOUT + 1000 /\
     (b = true -> Sys.probe w' pid = true /\ listening w')).
Proof.
  intros Ht. split.
  - destruct (waitForShutdown pid timeout w) as [r w'] eqn:E.
    pose proof (waitForShutdown_bound _ _ _ _ _ Ht E).
    apply waitForShutdown_spec in E as (b & -> & ? & ? & ?).
    exists b, w'. split_and!; done.
  - destruct (waitForStartup pid w) as [r w'] eqn:E.
    apply waitForStartup_spec in E as (b & -> & ? & ? & ? & Hb).
    exists b, w'. split_and!; try done.
    intros Hb'. by destruct (Hb Hb') as (? & ? & _).
Qed.

End ProcessManagerExtras.

(** ** Settings *)

Section SettingsExtras.

Lemma setGatewaySetting_eq key v dsc w :
  Db.setGatewaySetting key v dsc w =
  match dbStatus (database w) with
  | DbHealthy => (Ok tt, store key v dsc w)
  | DbFailing => (Throw (DbError "query failed"), w)
  | DbUnavailable => (Ok tt, w)
  end.
Proof.
  unfold Db.setGatewaySetting, Db.getDb, Db.query, store, new_description.
  monad_unfold.
  destruct (dbStatus (database w)) eqn:Hh; cbn; try done.
  - by rewrite Hh.
  - rewrite Hh.
    destruct (gatewaySettings (database w) !! key) as [[val old]|]; cbn;
      rewrite Hh; by destruct (Js.string_or_null dsc).
Qed.

Lemma store_frame key v dsc w :
  os (store key v dsc w) = os w /\
  telegram (store key v dsc w) = telegram w /\
  alerts (store key v dsc w) = alerts w /\
  trace (store key v dsc w) = trace w /\
  now (store key v dsc w) = now w /\
  dbStatus (database (store key v dsc w)) = dbStatus (database w) /\
  gatewayRestartLogs (database (store key v dsc w)) =
    gatewayRestartLogs (database w) /\
  webhookStatusLogs (database (store key v dsc w)) =
    webhookStatusLogs (database w) /\
  channelConfigs (database (store key v dsc w)) =
    channelConfigs (database w).
Proof. done. Qed.

Lemma resolve_store key v dsc w d :
  dbStatus (database w) = DbHealthy ->
  resolve (database (store key v dsc w)) key d = Some v.
Proof.
  intros Hh. unfold resolve, store. cbn. by rewrite Hh, lookup_insert_eq.
Qed.

Lemma resolve_store_ne key v dsc w key' d :
  key' <> key ->
  resolve (database (store key v dsc w)) key' d =
  resolve (database w) key' d.
Proof.
  intros Hne. unfold resolve, store. cbn. by rewrite lookup_insert_ne.
Qed.

(** X12.  A setting that was written is read back: on a healthy database,
    after [setGatewaySetting key v] every [getGatewaySetting key] returns
    [v], whatever default it is given, and changes nothing; the other keys
    keep their rows; the row keeps its description unless a non-empty one
    is given. *)
Theorem setGatewaySetting_round_trip key v dsc w :
  dbStatus (database w) = DbHealthy ->
  exists w', Db.setGatewaySetting key v dsc w = (Ok tt, w') /\
    (forall d, Db.getGatewaySetting key d w' = (Ok (Some v), w')) /\
    (forall key', key' <> key ->
       gatewaySettings (database w') !! key' =
       gatewaySettings (database w) !! key') /\
    gatewaySettings (database w') !! key =
      Some {| value := v;
              description :=
                new_description dsc
                  (gatewaySettings (database w) !! key) |}.
Proof.
  intros Hh. exists (store key v dsc w).
  rewrite setGatewaySetting_eq, Hh. split; [done|]. split_and!.
  - intros d. rewrite getGatewaySetting_eq, resolve_store by done.
    f_equal. unfold materialize, store. cbn.
    by rewrite Hh, lookup_insert_eq.
  - intros key' Hne. unfold store. cbn. by rewrite lookup_insert_ne.
  - unfold store. cbn. by rewrite lookup_insert_eq.
Qed.

(** X13.  The first default sticks: on a healthy database, reading a
    setting with a default stores the default when the key has no row, so
    every later read returns the same value whatever default it names, and
    changes nothing. *)
Theorem getGatewaySetting_first_default_sticks key d w :
  dbStatus (database w) = DbHealthy ->
  exists v w1,
    Db.getGatewaySetting key (Some d) w = (Ok (Some v), w1) /\
    (gatewaySettings (database w) !! key = None -> v = d) /\
    forall d', Db.getGatewaySetting key d' w1 = (Ok (Some v), w1).
Proof.
  intros Hh. rewrite getGatewaySetting_eq.
  unfold resolve, materialize. rewrite Hh.
  destruct (gatewaySettings (database w) !! key) as [row|] eqn:Hrow.
  - exists (value row), w. split; [done|]. split; [done|].
    intros d'. rewrite getGatewaySetting_eq. unfold resolve, materialize.
    by rewrite Hh, Hrow.
  - exists d. eexists. split; [done|]. split; [done|].
    intros d'. rewrite getGatewaySetting_eq. unfold resolve, materialize.
    cbn. by rewrite Hh, lookup_insert_eq.
Qed.

Lemma initialize_each_healthy defaults : forall w,
  dbStatus (database w) = DbHealthy ->
  exists w', initialize_each defaults w = (Ok tt, w') /\
    dbStatus (database w') = DbHealthy /\
    os w' = os w /\ now w' = now w /\ trace w' = trace w /\
    (forall key,
       key ∉ defaults.*1.*1 ->
       gatewaySettings (database w') !! key =
       gatewaySettings (database w) !! key) /\
    (NoDup defaults.*1.*1 ->
     forall key v dsc, (key, v, dsc) ∈ defaults ->
       exists row, gatewaySettings (database w') !! key = Some row /\
         value row = v /\
         description row = new_description (Some dsc) (Some row)).
Proof.
  induction defaults as [|[[key v] dsc] rest IH]; intros w Hh.
  - exists w. split; [done|]. split_and!; try done.
    intros _ key v dsc Hin. inversion Hin.
  - cbn [initialize_each]. monad_unfold.
    rewrite getGatewaySetting_eq.
    set (w1 := materialize key (Some v) w).
    destruct (materialize_frame key (Some v) w)
      as (Hos1 & _ & _ & Htr1 & Hn1 & Hh1 & _).
    fold w1 in Hos1, Htr1, Hn1, Hh1. rewrite Hh in Hh1.
    assert (Hset1 : forall key', key' <> key ->
              gatewaySettings (database w1) !! key' =
              gatewaySettings (database w) !! key').
    { intros key' Hne. subst w1. unfold materialize. rewrite Hh.
      destruct (gatewaySettings (database w) !! key); [done|].
      cbn. by rewrite lookup_insert_ne. }
    clearbody w1.
    rewrite setGatewaySetting_eq, Hh1.
    set (w2 := store key v (Some dsc) w1).
    destruct (IH w2) as (w' & E & Hh' & Hos' & Hn' & Htr' & Hother & Hrows).
    { done. }
    rewrite E. exists w'. split; [done|].
    assert (Hos2 : os w2 = os w) by (subst w2; cbn; congruence).
    assert (Hn2 : now w2 = now w) by (subst w2; cbn; congruence).
    assert (Htr2 : trace w2 = trace w) by (subst w2; cbn; congruence).
    split; [done|]. split; [congruence|]. split; [congruence|].
    split; [congruence|]. split.
    + intros key' Hni. cbn in Hni.
      apply not_elem_of_cons in Hni as [Hne Hni].
      rewrite Hother by done. subst w2. unfold store. cbn.
      rewrite lookup_insert_ne by done. by apply Hset1.
    + intros Hnd key0 v0 dsc0 Hin. cbn in Hnd.
      apply NoDup_cons in Hnd as [Hni Hnd].
      apply elem_of_cons in Hin as [[= -> -> ->]|Hin].
      * rewrite Hother by done. subst w2. unfold store. cbn.
        rewrite lookup_insert_eq. eexists. split; [done|].
        split; [done|]. cbn. unfold new_description.
        by destruct (Js.string_or_null (Some dsc)).
      * by apply Hrows.
Qed.

Lemma materialize_unhealthy key d w :
  dbStatus (database w) <> DbHealthy -> materialize key d w = w.
Proof. unfold materialize. by destruct (dbStatus (database w)). Qed.

Lemma initialize_each_unavailable defaults w :
  dbStatus (database w) = DbUnavailable ->
  initialize_each defaults w = (Ok tt, w).
Proof.
  intros Hh. induction defaults as [|[[key v] dsc] rest IH]; [done|].
  cbn [initialize_each]. monad_unfold.
  rewrite getGatewaySetting_eq, materialize_unhealthy by congruence.
  by rewrite setGatewaySetting_eq, Hh.
Qed.

Lemma initialize_each_failing d defaults w :
  dbStatus (database w) = DbFailing ->
  initialize_each (d :: defaults) w = (Throw (DbError "query failed"), w).
Proof.
  intros Hh. destruct d as [[key v] dsc].
  cbn [initialize_each]. monad_unfold.
  rewrite getGatewaySetting_eq, materialize_unhealthy by congruence.
  by rewrite setGatewaySetting_eq, Hh.
Qed.

(** X14.  [initializeGatewaySettings] does more than fill in what is
    missing: on a healthy database it sets each of the six recognised keys
    to its default value, whatever value the key had, and leaves every
    other key alone.  Without a connection it does nothing; on a failing
    database it throws. *)
Theorem initializeGatewaySettings_resets w :
  match dbStatus (database w) with
  | DbHealthy =>
      exists w', initializeGatewaySettings w = (Ok tt, w') /\
        (forall key v dsc, (key, v, dsc) ∈ gateway_defaults ->
           exists row, gatewaySettings (database w') !! key = Some row /\
                       value row = v) /\
        (forall key, key ∉ gateway_defaults.*1.*1 ->
           gatewaySettings (database w') !! key =
           gatewaySettings (database w) !! key)
  | DbUnavailable => initializeGatewaySettings w = (Ok tt, w)
  | DbFailing =>
      initializeGatewaySettings w = (Throw (DbError "query failed"), w)
  end.
Proof.
  destruct (dbStatus (database w)) eqn:Hh.
  - by apply initialize_each_unavailable.
  - by apply initialize_each_failing.
  - destruct (initialize_each_healthy gateway_defaults w Hh)
      as (w' & E & _ & _ & _ & _ & Hother & Hrows).
    exists w'. split; [done|]. split; [|done].
    intros key v dsc Hin.
    assert (Hnd : NoDup gateway_defaults.*1.*1)
      by (apply (bool_decide_unpack _); vm_compute; exact I).
    destruct (Hrows Hnd key v dsc Hin) as (row & ? & ? & _).
    by exists row.
Qed.

End SettingsExtras.

(** ** The provider operations *)

Section PollerExtras.
Import WebhookPoller.

Lemma string_or_null_idemp o :
  Js.string_or_null (Js.string_or_null o) = Js.string_or_null o.
Proof.
  destruct o as [s|]; [|done]. cbn.
  destruct (Js.truthy_string s) eqn:E; [|done]. cbn. by rewrite E.
Qed.

Lemma getBotToken_token w :
  getBotToken w = (Ok (bot_token (database w)), w).
Proof.
  unfold getBotToken, Db.getTelegramBotToken, Db.getDb, Db.query, bot_token.
  monad_unfold.
  destruct (dbStatus (database w)) eqn:Hh; cbn; try done.
  - by rewrite Hh.
  - rewrite Hh.
    destruct (List.find enabled (channelConfigs (database w))) as [c|].
    + cbn. rewrite string_or_null_idemp.
      by destruct (Js.string_or_null (botToken c)).
    + destruct (head (channelConfigs (database w))) as [c|]; [|done].
      cbn. rewrite string_or_null_idemp.
      by destruct (Js.string_or_null (botToken c)).
Qed.

Lemma fetch_cases req w :
  exists r w', Tg.fetch req w = (r, w') /\ fetch_frame w w' /\
    (served_next w ->
     r = Ok {| resp_ok := true; resp_statusText := "OK";
               resp_json := (Tg.serve req (subscription (telegram w))).2 |} /\
     subscription (telegram w') =
       (Tg.serve req (subscription (telegram w))).1) /\
    (forall resp, r = Ok resp -> resp_ok resp = true ->
       body_ok (resp_json resp) = true -> served_next w).
Proof.
  unfold Tg.fetch, served_next, fetch_frame.
  destruct (script (telegram w)) as [|reply rest].
  - destruct (Tg.serve req (subscription (telegram w))) as [i b] eqn:Es.
    eexists _, _. split; [done|]. cbn. split_and!; try done; lia.
  - destruct (outcome reply) eqn:Eo.
    + eexists _, _. split; [done|]. cbn. split_and!; try done; lia.
    + eexists _, _. split; [done|]. cbn. split_and!; try done; try lia.
      by intros resp [= <-].
    + eexists _, _. split; [done|]. cbn. split_and!; try done; try lia.
      by intros resp [= <-].
    + destruct (Tg.serve req (subscription (telegram w))) as [i b] eqn:Es.
      eexists _, _. split; [done|]. cbn. split_and!; try done; lia.
Qed.


Lemma materialize_None key w : materialize key None w = w.
Proof. unfold materialize. by repeat case_match. Qed.

Lemma checkWebhookStatus_no_token w :
  bot_token (database w) = None ->
  checkWebhookStatus w =
    (Ok (WebhookStatus.mk false None 0 None
           (Some "Bot token not configured")), w).
Proof.
  intros Htok. unfold checkWebhookStatus. monad_unfold.
  by rewrite getBotToken_token, Htok.
Qed.

Lemma resetWebhook_no_token w :
  bot_token (database w) = None -> resetWebhook w = (Ok tt, w).
Proof.
  intros Htok. unfold resetWebhook. monad_unfold.
  rewrite getGatewaySetting_eq, materialize_None.
  destruct (Js.string_or_null _); [|done].
  by rewrite getBotToken_token, Htok.
Qed.

(** X15.  Without a bot token none of the four provider operations sends a
    request: each returns at once, with the world as it was. *)
Theorem no_token_no_request w :
  bot_token (database w) = None ->
  checkWebhookStatus w =
    (Ok (WebhookStatus.mk false None 0 None
           (Some "Bot token not configured")), w) /\
  deleteWebhook w =
    (Ok (DeleteResult.mk false
           "Bot token not found in config. Please configure Telegram channel first."),
     w) /\
  (exists r, applyWebhook w = (Ok r, w) /\
             ApplyResult.success r = false) /\
  resetWebhook w = (Ok tt, w).
Proof.
  intros Htok.
  unfold checkWebhookStatus, deleteWebhook, applyWebhook, resetWebhook.
  monad_unfold.
  rewrite !getBotToken_token, !getGatewaySetting_eq, !materialize_None, Htok.
  split_and!; [done|done| |].
  - destruct (Js.string_or_null _); [|by eexists].
    rewrite getBotToken_token, Htok. by eexists.
  - destruct (Js.string_or_null _); [|done].
    by rewrite getBotToken_token, Htok.
Qed.

(** X16.  When [applyWebhook] reports success, the provider holds the
    stored production URL, which is not empty, and the result names it;
    the database is as it was. *)
Theorem applyWebhook_success w r w' :
  applyWebhook w = (Ok r, w') -> ApplyResult.success r = true ->
  exists u,
    resolve (database w) "production_webhook_url" None = Some u /\
    u <> "" /\ ApplyResult.url r = Some u /\
    url (subscription (telegram w')) = u /\
    database w' = database w /\ os w' = os w.
Proof.
  unfold applyWebhook. monad_unfold.
  rewrite getGatewaySetting_eq, materialize_None.
  destruct (resolve (database w) "production_webhook_url" None)
    as [u|] eqn:Hu; cbn; [|intros; by simplify_eq].
  destruct (Js.truthy_string u) eqn:Htr; cbn; [|intros; by simplify_eq].
  rewrite getBotToken_token.
  destruct (bot_token (database w)); [|intros; by simplify_eq].
  destruct (fetch_cases (SetWebhook u) w)
    as (res & w1 & E & (Hos & Hdb & _) & Hserved & Hback).
  rewrite E. destruct res as [resp|e]; [|intros; by simplify_eq].
  destruct (resp_ok resp) eqn:Hok; cbn; [|intros; by simplify_eq].
  destruct (body_ok (resp_json resp)) eqn:Hbody; intros H Hs;
    simplify_eq.
  exists u. split_and!; try done.
  - by apply truthy_string_true.
  - destruct (Hserved (Hback _ eq_refl Hok Hbody)) as [_ ->]. done.
Qed.

(** X17.  The production URL round trip: on a healthy database with a bot
    token, after [setProductionUrl u] with a non-empty [u], an
    [applyWebhook] that the provider serves succeeds and the provider
    holds [u]. *)
Theorem setProductionUrl_applyWebhook w u :
  dbStatus (database w) = DbHealthy -> u <> "" ->
  bot_token (database w) <> None -> served_next w ->
  exists w1 w',
    Router.setProductionUrl u w = (Ok true, w1) /\
    Router.applyWebhook w1 =
      (Ok (ApplyResult.mk true "Webhook applied successfully" (Some u)),
       w') /\
    url (subscription (telegram w')) = u.
Proof.
  intros Hh Hu Htok Hserved.
  unfold Router.setProductionUrl, Router.applyWebhook, applyWebhook.
  monad_unfold.
  rewrite setGatewaySetting_eq, Hh.
  set (w1 := store "production_webhook_url" u None w).
  exists w1.
  rewrite getGatewaySetting_eq, materialize_None.
  assert (Hres : resolve (database w1) "production_webhook_url" None
                 = Some u) by (by apply resolve_store).
  rewrite Hres. cbn [Js.string_or_null].
  rewrite (proj2 (truthy_string_true u) Hu).
  rewrite getBotToken_token.
  assert (bot_token (database w1) = bot_token (database w)) as -> by done.
  destruct (bot_token (database w)); [|done].
  destruct (fetch_cases (SetWebhook u) w1)
    as (res & w2 & E & _ & Hs & _).
  destruct (Hs Hserved) as [-> Hsub].
  rewrite E. cbn. eexists. split; [done|]. split; [done|].
  by rewrite Hsub.
Qed.

(** X18.  After a successful [deleteWebhook] the next status check that
    the provider serves finds the webhook inactive, with no URL. *)
Theorem deleteWebhook_then_inactive w dr w1 :
  deleteWebhook w = (Ok dr, w1) -> DeleteResult.success dr = true ->
  served_next w1 ->
  exists st w', checkWebhookStatus w1 = (Ok st, w') /\
    WebhookStatus.isActive st = false /\ WebhookStatus.url st = None.
Proof.
  unfold deleteWebhook, checkWebhookStatus. monad_unfold.
  rewrite getBotToken_token.
  destruct (bot_token (database w)) as [tok|] eqn:Htok;
    [|intros; by simplify_eq].
  destruct (fetch_cases DeleteWebhook w)
    as (res & w2 & E & (_ & Hdb & _) & Hserved & Hback).
  rewrite E. destruct res as [resp|e]; [|intros; by simplify_eq].
  destruct (resp_ok resp) eqn:Hok; cbn; [|intros; by simplify_eq].
  destruct (body_ok (resp_json resp)) eqn:Hbody; intros H Hs Hnext;
    simplify_eq.
  destruct (Hserved (Hback _ eq_refl Hok Hbody)) as [_ Hsub].
  rewrite getBotToken_token, Hdb, Htok.
  destruct (fetch_cases GetWebhookInfo w1)
    as (res & w3 & E3 & _ & Hs3 & _).
  destruct (Hs3 Hnext) as [-> _]. rewrite E3. cbn.
  eexists _, _. split; [done|]. rewrite Hsub. cbn. done.
Qed.

End PollerExtras.

(** ** Cycles without a healthy database *)

Section ReconcilerExtras.
Import GatewayProcessManager WebhookPoller.



Lemma bot_token_unhealthy d : dbStatus d <> DbHealthy -> bot_token d = None.
Proof. unfold bot_token. by destruct (dbStatus d). Qed.

(** X19.  On a failing database a cycle does nothing at all: the bot token
    cannot be read, the status record cannot be written, and the cycle ends
    there -- no request to the provider, no restart, no alert. *)
Theorem checkAndRestart_failing_db w :
  dbStatus (database w) = DbFailing ->
  checkAndRestart w = (Ok tt, w).
Proof.
  intros Hh.
  pose proof (checkWebhookStatus_no_token w) as E.
  specialize (E ltac:(apply bot_token_unhealthy; congruence)).
  unfold checkAndRestart. monad_unfold. rewrite E.
  by rewrite insertWebhookStatusLog_eq, Hh.
Qed.

(** X20.  Without a database connection every cycle restarts the gateway:
    the bot token cannot be read, so the webhook counts as inactive; the
    settings fall back to their defaults; no restart is on record, so the
    limit is never reached; and nothing is recorded, nor anyone alerted. *)
Theorem checkAndRestart_unavailable_db w :
  dbStatus (database w) = DbUnavailable ->
  exists rr w1 w',
    restart (Some "webhook_check") w = (Ok rr, w1) /\
    checkAndRestart w = (Ok tt, w') /\
    restart_calls (trace w') = now w :: restart_calls (trace w) /\
    os w' = os w1 /\ database w' = database w /\ alerts w' = alerts w /\
    telegram w' = telegram w.
Proof.
  intros Hh.
  assert (Htok : bot_token (database w) = None)
    by (apply bot_token_unhealthy; congruence).
  pose proof (checkWebhookStatus_no_token w Htok) as E.
  destruct (restart_no_throw (Some "webhook_check") w) as (rr & w1 & Er).
  destruct (restart_frame _ _ _ _ Er) as (Hdb & Hal & Htg & Hn & Hrc).
  exists rr, w1.
  assert (Hcycle : checkAndRestart w =
            (Ok tt, if RestartResult.success rr
                    then set_now (fun t => t + 5000) w1 else w1)).
  { unfold checkAndRestart. monad_unfold. rewrite E.
    cbn [WebhookStatus.isActive negb].
    rewrite insertWebhookStatusLog_eq, Hh.
    rewrite getGatewaySetting_eq, materialize_unhealthy by congruence.
    rewrite resolve_default_unhealthy by congruence.
    cbn [Js.string_or_null Js.truthy_string String.eqb negb Ascii.eqb].
    rewrite bool_decide_eq_true_2 by done. cbn [negb].
    rewrite getRecentRestartAttempts_eq.
    unfold recent_attempts at 1. rewrite Hh.
    rewrite getGatewaySetting_eq, materialize_unhealthy by congruence.
    rewrite resolve_default_unhealthy by congruence.
    change (limit_reached 0 (parse_max (Js.string_or_null (Some "3"))))
      with false. cbv beta iota.
    rewrite Er.
    rewrite insertGatewayRestartLog_eq, Hdb, Hh.
    destruct (RestartResult.success rr); [|done].
    pose proof (resetWebhook_no_token (set_now (fun t => t + 5000) w1))
      as Ereset.
    specialize (Ereset ltac:(cbn; by rewrite Hdb)).
    rewrite Ereset.
    rewrite insertWebhookStatusLog_eq. cbn [database set_now].
    by rewrite Hdb, Hh. }
  eexists. split; [done|]. split; [exact Hcycle|].
  by destruct (RestartResult.success rr).
Qed.

End ReconcilerExtras.

(** ** The router *)

Section RouterExtras.
Import GatewayProcessManager WebhookPoller.

(** X21.  A manual restart is recorded: on a healthy database the
    [restart] mutation appends exactly one restart record, of trigger type
    [manual], with the caller's id and the outcome it returns.  The record
    is stamped, in whole seconds, when the restart has returned: its stamp
    is less than a second before the call at the earliest.  So it counts
    toward the reconciler's limit, and if every earlier restart call has
    its record, so has this one. *)
Theorem manual_restart_recorded openId reason w :
  dbStatus (database w) = DbHealthy ->
  exists r w1 w' rec,
    restart (Some (default "manual" (Js.string_or_null reason))) w =
      (Ok r, w1) /\
    Router.restart openId reason w = (Ok r, w') /\
    gatewayRestartLogs (database w') =
      (gatewayRestartLogs (database w) ++ [rec])%list /\
    triggerType rec = manual /\ triggerUserId rec = Some openId /\
    success rec = RestartResult.success r /\
    durationMs rec = RestartResult.duration r /\
    createdAt rec = now w1 / 1000 /\ now w' = now w1 /\
    now w - 1000 < createdAt rec * 1000 <= now w' /\
    restart_calls (trace w') = now w :: restart_calls (trace w) /\
    (calls_recorded w -> calls_recorded w').
Proof.
  intros Hh. unfold Router.restart. monad_unfold.
  destruct (restart_no_throw
              (Some (default "manual" (Js.string_or_null reason))) w)
    as (r & w1 & E).
  destruct (restart_frame _ _ _ _ E) as (Hdb & _ & _ & Hn & Hrc).
  rewrite E, insertGatewayRestartLog_eq, Hdb, Hh.
  pose proof (Z.mul_div_le (now w1) 1000 ltac:(lia)).
  pose proof (Z.mod_pos_bound (now w1) 1000 ltac:(lia)).
  pose proof (Z.div_mod (now w1) 1000 ltac:(lia)).
  eexists _, _, _, _. split; [done|]. split; [done|]. cbn -[restart_calls].
  rewrite Hdb. split_and!; try done;
    try (change (createdAt (Db.stamp ?t _)) with t; lia).
  intros Hrec T.
  set (w' := set_database _ w1).
  assert (Hrl : gatewayRestartLogs (database w') =
    (gatewayRestartLogs (database w) ++
     [Db.stamp (now w1 / 1000)
        (InsertGatewayRestartLog.mk manual (Some openId)
           (Some (default "Manual restart from dashboard"
                    (Js.string_or_null reason)))
           (Js.number_or_null (RestartResult.oldPid r))
           (Js.number_or_null (RestartResult.newPid r))
           (RestartResult.success r)
           (Js.string_or_null (RestartResult.error r))
           (RestartResult.duration r))])%list).
  { subst w'. cbn. by rewrite Hdb. }
  rewrite (counted_app T w w' _ Hrl).
  change (trace w') with (trace w1). rewrite Hrc.
  specialize (Hrec T). unfold since in *. cbn [List.filter].
  destruct (Z.leb_spec (T - SAFE_WINDOW) (now w)); [|lia].
  rewrite (stamp_in_window T (now w)) by done. cbn [length]. lia.
Qed.

(** X22.  On a failing database the [restart] mutation rejects, although
    the restart itself was carried out. *)
Theorem manual_restart_failing_db openId reason w :
  dbStatus (database w) = DbFailing ->
  exists w',
    Router.restart openId reason w = (Throw (DbError "query failed"), w') /\
    restart_calls (trace w') = now w :: restart_calls (trace w) /\
    gatewayRestartLogs (database w') = gatewayRestartLogs (database w).
Proof.
  intros Hh. unfold Router.restart. monad_unfold.
  destruct (restart_no_throw
              (Some (default "manual" (Js.string_or_null reason))) w)
    as (r & w1 & E).
  destruct (restart_frame _ _ _ _ E) as (Hdb & _ & _ & Hn & Hrc).
  rewrite E, insertGatewayRestartLog_eq, Hdb, Hh.
  eexists. split; [done|]. by rewrite Hdb.
Qed.

Lemma try_catch_unit {A} (m : M A) w :
  exists w', try_catch (m;; mret tt) (fun _ => mret tt) w = (Ok tt, w').
Proof.
  monad_unfold. destruct (m w) as [[a|e] w1]; by eexists.
Qed.

Lemma mode_legs mode w :
  exists w',
    (match mode with
     | Mode.webhook =>
         try_catch (stop;; mret tt) (fun _ => mret tt);;
         try_catch (applyWebhook;; mret tt) (fun _ => mret tt)
     | Mode.gateway =>
         try_catch (deleteWebhook;; mret tt) (fun _ => mret tt);;
         try_catch (start;; mret tt) (fun _ => mret tt)
     end) w = (Ok tt, w') /\
    database w' = database w.
Proof.
  destruct mode.
  - destruct (try_catch_unit deleteWebhook w) as (w1 & E1).
    destruct (try_catch_unit start w1) as (w2 & E2).
    exists w2. split.
    + unfold mbind at 1, M_bind at 1, bind. by rewrite E1.
    + transitivity (database w1).
      * eapply (preserves_try_catch (same database)); [| |exact E2];
          [preserves_tac | intros e; apply (preserves_mret (same database))].
      * eapply (preserves_try_catch (same database)); [| |exact E1];
          [preserves_tac | intros e; apply (preserves_mret (same database))].
  - destruct (try_catch_unit stop w) as (w1 & E1).
    destruct (try_catch_unit applyWebhook w1) as (w2 & E2).
    exists w2. split.
    + unfold mbind at 1, M_bind at 1, bind. by rewrite E1.
    + transitivity (database w1).
      * eapply (preserves_try_catch (same database)); [| |exact E2];
          [preserves_tac | intros e; apply (preserves_mret (same database))].
      * eapply (preserves_try_catch (same database)); [| |exact E1];
          [preserves_tac | intros e; apply (preserves_mret (same database))].
Qed.

Lemma setConnectionMode_unchanged mode w :
  resolve (database w) "telegram_connection_mode" (Some "webhook") =
    Some (Mode.to_string mode) ->
  setConnectionMode mode w =
  (Ok (SetModeResult.mk true "Mode unchanged" None None),
   materialize "telegram_connection_mode" (Some "webhook") w).
Proof.
  intros Hr. unfold setConnectionMode. monad_unfold.
  rewrite getGatewaySetting_eq, Hr.
  by rewrite bool_decide_eq_true_2.
Qed.

Lemma materialize_row key dv w :
  is_Some (gatewaySettings (database w) !! key) ->
  materialize key dv w = w.
Proof.
  intros [row Hrow]. unfold materialize. rewrite Hrow.
  by repeat case_match.
Qed.

(** X23.  Setting the mode twice is setting it once: on a healthy
    database, after [setConnectionMode mode] has returned, the same call
    again answers "Mode unchanged" and leaves the world as it is -- no
    process is stopped or started, no request is sent. *)
Theorem setConnectionMode_idempotent mode w r w' :
  dbStatus (database w) = DbHealthy ->
  setConnectionMode mode w = (Ok r, w') ->
  setConnectionMode mode w' =
    (Ok (SetModeResult.mk true "Mode unchanged" None None), w').
Proof.
  intros Hh H.
  set (key := "telegram_connection_mode").
  assert (Hgoal : resolve (database w') key (Some "webhook") =
                    Some (Mode.to_string mode) /\
                  is_Some (gatewaySettings (database w') !! key)).
  2:{ destruct Hgoal as [Hr Hrow].
      rewrite setConnectionMode_unchanged by done.
      by rewrite materialize_row. }
  unfold setConnectionMode in H.
  apply bind_inv in H as [(cur & w0 & E0 & H)|(e & ? & ?)]; [|done].
  rewrite getGatewaySetting_eq in E0. injection E0 as <- <-.
  fold key in H.
  destruct (materialize_frame key (Some "webhook") w)
    as (_ & _ & _ & _ & _ & Hh0 & _).
  rewrite Hh in Hh0.
  assert (Hrow0 : is_Some (gatewaySettings
                    (database (materialize key (Some "webhook") w)) !! key)).
  { unfold materialize. rewrite Hh.
    destruct (gatewaySettings (database w) !! key) eqn:Hrow.
    - by rewrite Hrow.
    - cbn. by rewrite lookup_insert_eq. }
  assert (Hsame : resolve (database (materialize key (Some "webhook") w))
                    key (Some "webhook") =
                  resolve (database w) key (Some "webhook")).
  { unfold resolve, materialize. rewrite Hh.
    destruct (gatewaySettings (database w) !! key) eqn:Hrow.
    - by rewrite Hh, Hrow.
    - cbn. by rewrite Hh, lookup_insert_eq. }
  set (w0 := materialize key (Some "webhook") w) in *. clearbody w0.
  cbv beta in H. case_bool_decide as Hcur.
  - injection H as <- <-. split; [congruence|done].
  - apply bind_inv in H as [([] & w3 & E & H)|(e & ? & ?)]; [|done].
    destruct (mode_legs mode w0) as (w3' & E' & Hdb).
    rewrite E in E'. injection E' as <-.
    apply bind_inv in H as [([] & w4 & E4 & H)|(e & ? & ?)]; [|done].
    rewrite setGatewaySetting_eq, Hdb, Hh0 in E4. injection E4 as <-.
    injection H as <- <-.
    split.
    + apply resolve_store. congruence.
    + unfold store. cbn. by rewrite lookup_insert_eq.
Qed.

Lemma configureAutoCheck_eq enabled interval autoRestart w :
  dbStatus (database w) = DbHealthy ->
  Router.configureAutoCheck enabled interval autoRestart w =
  (Ok true,
   let w0 := store "auto_restart_enabled" (Router.bool_to_string enabled)
               None w in
   match interval with
   | Some n => store "webhook_check_interval" (Js.toString n) None w0
   | None => w0
   end).
Proof.
  intros Hh. unfold Router.configureAutoCheck. monad_unfold.
  rewrite setGatewaySetting_eq, Hh. cbv zeta.
  set (w0 := store "auto_restart_enabled" _ None w).
  assert (Hh0 : dbStatus (database w0) = DbHealthy) by done.
  clearbody w0.
  destruct interval as [n|]; [|done].
  by rewrite setGatewaySetting_eq, Hh0.
Qed.

(** X24.  Switching auto-restart off takes effect at the next cycle: on a
    healthy database, after [configureAutoCheck] with [enabled = false] a
    cycle neither restarts nor alerts, whatever the webhook's state; with
    [enabled = true] the setting reads true again. *)
Theorem configureAutoCheck_takes_effect enabled interval autoRestart w :
  dbStatus (database w) = DbHealthy ->
  exists w1,
    Router.configureAutoCheck enabled interval autoRestart w
      = (Ok true, w1) /\
    resolve (database w1) "auto_restart_enabled" (Some "true") =
      Some (Router.bool_to_string enabled) /\
    (enabled = false ->
     exists w', checkAndRestart w1 = (Ok tt, w') /\
       trace w' = trace w1 /\ os w' = os w1 /\ alerts w' = alerts w1 /\
       gatewayRestartLogs (database w') =
         gatewayRestartLogs (database w1)).
Proof.
  intros Hh. unfold Router.configureAutoCheck. monad_unfold.
  rewrite setGatewaySetting_eq, Hh.
  set (w0 := store "auto_restart_enabled" (Router.bool_to_string enabled)
               None w).
  assert (Hh0 : dbStatus (database w0) = DbHealthy) by done.
  assert (Hr0 : resolve (database w0) "auto_restart_enabled" (Some "true")
                = Some (Router.bool_to_string enabled))
    by (by apply resolve_store).
  clearbody w0.
  assert (Hcycle : forall w1,
    dbStatus (database w1) = DbHealthy ->
    resolve (database w1) "auto_restart_enabled" (Some "true") =
      Some (Router.bool_to_string enabled) ->
    enabled = false ->
    exists w', checkAndRestart w1 = (Ok tt, w') /\
      trace w' = trace w1 /\ os w' = os w1 /\ alerts w' = alerts w1 /\
      gatewayRestartLogs (database w') = gatewayRestartLogs (database w1)).
  { intros w1 Hh1 Hr1 ->.
    destruct (cycle_healthy w1 Hh1)
      as (st & w2 & w' & _ & E & _ & _ & _ & Hcases).
    exists w'. split; [done|]. rewrite Hr1 in Hcases.
    destruct Hcases as [[_ Hq] | [(_ & Ha & _) | (_ & Ha & _)]];
      [|done|done].
    destruct Hq as (_ & ? & ? & ? & ? & _). done. }
  destruct interval as [n|].
  - rewrite setGatewaySetting_eq, Hh0.
    eexists. split; [done|].
    rewrite resolve_store_ne by done. split; [done|].
    apply Hcycle; [done|]. by rewrite resolve_store_ne.
  - eexists. split; [done|]. split; [done|]. by apply Hcycle.
Qed.

(** X25.  A restart record counts toward the limit for five minutes from
    its stamp, which is the time of the insertion cut down to the whole
    second: on a healthy database, [d] milliseconds after
    [insertGatewayRestartLog] at the time [t], the number that
    [getRecentRestartAttempts(5)] returns is one more than it would have
    been when [d <= 300000 - t mod 1000], and the same afterwards. *)
Theorem restart_record_counts_five_minutes log d w :
  dbStatus (database w) = DbHealthy -> 0 <= d ->
  exists w1,
    Db.insertGatewayRestartLog log w = (Ok tt, w1) /\
    Db.getRecentRestartAttempts 5 (set_now (fun t => t + d) w1) =
      (Ok (recent_attempts (set_now (fun t => t + d) w) +
           (if d <=? 300000 - now w mod 1000 then 1 else 0)),
       set_now (fun t => t + d) w1).
Proof.
  intros Hh Hd. rewrite insertGatewayRestartLog_eq, Hh.
  eexists. split; [done|].
  rewrite getRecentRestartAttempts_eq. f_equal. f_equal.
  unfold recent_attempts.
  cbn [database set_now set_database Db.set_restartLogs dbStatus
       gatewayRestartLogs now].
  rewrite Hh, recent_restarts_app, length_app.
  unfold Db.recent_restarts at 2.
  cbn [List.filter createdAt Db.stamp].
  pose proof (Z.mod_pos_bound (now w) 1000 ltac:(lia)).
  pose proof (Z.div_mod (now w) 1000 ltac:(lia)).
  destruct (Z.leb_spec d (300000 - now w mod 1000)),
           (Z.leb_spec (now w + d - 5 * 60 * 1000) (now w / 1000 * 1000));
    cbn [length]; lia.
Qed.

End RouterExtras.

(** ** getStatus and getLogs *)

Section StatusAndLogs.
Import GatewayProcessManager.

(** X26.  [getStatus] only looks: it returns in every world, with status
    running or stopped -- never error, every step that can fail is caught
    where it is made --, running exactly when the resolved pid is a
    non-zero number that answers the probe; it sends no signal that
    changes a process, spawns nothing, and the clock, the trace, the
    database and the provider are as before.  Only the pid file may
    change. *)
Theorem getStatus_read_only w :
  exists st w', getStatus w = (Ok st, w') /\
    GatewayStatus.status st <> Status.error /\
    (GatewayStatus.status st = Status.running <->
     exists p, Js.number_or_null (resolved_pid w) = Some p /\
               Sys.probe w p = true) /\
    procs (os w') = procs (os w) /\
    spawnQueue (os w') = spawnQueue (os w) /\
    now w' = now w /\ trace w' = trace w /\
    database w' = database w /\ telegram w' = telegram w.
Proof.
  destruct (getStatus w) as [r w'] eqn:E.
  assert (Hdb : database w' = database w).
  { eapply (getStatus_preserves (same database)); [..|exact E]; inv_tac. }
  assert (Htg : telegram w' = telegram w).
  { eapply (getStatus_preserves (same telegram)); [..|exact E]; inv_tac. }
  revert E. unfold getStatus. monad_unfold.
  destruct (getCurrentPid_resolved w)
    as (w1 & E1 & Hp1 & Hq1 & Hn1 & Ht1 & _).
  rewrite E1.
  destruct (Js.number_or_null (resolved_pid w)) as [p|] eqn:Hp.
  - rewrite isProcessRunning_eq, (probe_frame w w1) by done.
    destruct (Sys.probe w p) eqn:Hprobe; cbn [negb].
    + destruct (getProcessMetrics_eq p w1) as (m & ->).
      intros [= <- <-]. eexists _, _. split; [done|].
      split_and!; try done. split; [|done]. intros _. by exists p.
    + destruct (clearPidFile w1) as [r2 w2] eqn:E2.
      pose proof (clearPidFile_keeps _ _ _ E2) as [Ht2 Hq2].
      destruct (clearPidFile_eq w1) as (w2' & E2' & _ & Hp2 & Hn2).
      rewrite E2 in E2'. injection E2' as -> <-.
      intros [= <- <-]. eexists _, _. split; [done|].
      split_and!; try done; try congruence.
      split; [done|]. intros (p' & [= <-] & ?). congruence.
  - intros [= <- <-]. eexists _, _. split; [done|].
    split_and!; try done. split; [done|]. by intros (p' & ? & _).
Qed.

Lemma slice_negative {A} (n : Z) (l : list A) :
  0 < n ->
  JsArray.slice (- n) l = drop (length l - Z.to_nat n) l.
Proof.
  intros Hn. unfold JsArray.slice.
  destruct (Z.ltb_spec (- n) 0); [|lia]. f_equal. lia.
Qed.

Lemma slice_nonnegative {A} (k : Z) (l : list A) :
  0 <= k -> JsArray.slice k l = drop (Z.to_nat k) l.
Proof.
  intros Hk. unfold JsArray.slice.
  destruct (Z.ltb_spec k 0); [lia|].
  destruct (Z.min_spec k (Z.of_nat (length l))) as [[? ->]|[? ->]]; [done|].
  rewrite Nat2Z.id. rewrite !drop_ge; [done|lia|lia].
Qed.

Lemma getLogs_eq readLogFile lines level w :
  getLogs readLogFile lines level w =
  match readLogFile w with
  | (Ok content, w1) =>
      (Ok (JsArray.slice (- lines) (selected_lines level content)), w1)
  | (Throw _, w1) => (Ok [], w1)
  end.
Proof.
  unfold getLogs, selected_lines. monad_unfold.
  destruct (readLogFile w) as [[content|e] w1]; [|done].
  by destruct level as [[]|].
Qed.

Lemma selected_lines_Forall level content :
  Forall (fun line => non_blank line = true /\
            forall l, level = Some l -> l <> LogLevel.all ->
                      level_test l line = true)
    (selected_lines level content).
Proof.
  unfold selected_lines. apply Forall_forall. intros line Hin.
  apply list_elem_of_In in Hin.
  destruct level as [[]|];
    repeat (apply filter_In in Hin as [Hin ?]); split; try done;
    intros l ??; by simplify_eq.
Qed.

(** X27.  [getLogs] never throws; a log that cannot be read gives the empty
    list.  With [lines >= 1] it returns at most [lines] lines, the last
    ones of those selected, in order; every line returned is non-blank and,
    when a level other than [all] is given, carries that level's marker. *)
Theorem getLogs_last_lines readLogFile lines level w :
  1 <= lines ->
  exists ls w', getLogs readLogFile lines level w = (Ok ls, w') /\
    Z.of_nat (length ls) <= lines /\
    Forall (fun line => non_blank line = true /\
              forall l, level = Some l -> l <> LogLevel.all ->
                        level_test l line = true) ls /\
    match readLogFile w with
    | (Ok content, w1) =>
        w' = w1 /\ ls `suffix_of` selected_lines level content /\
        (Z.of_nat (length (selected_lines level content)) <= lines ->
         ls = selected_lines level content)
    | (Throw _, w1) => w' = w1 /\ ls = []
    end.
Proof.
  intros Hl. rewrite getLogs_eq.
  destruct (readLogFile w) as [[content|e] w1].
  - eexists _, _. split; [done|]. rewrite slice_negative by lia.
    split_and!.
    + rewrite length_drop. lia.
    + apply Forall_drop, selected_lines_Forall.
    + done.
    + apply suffix_drop.
    + intros Hlen.
      assert ((length (selected_lines level content) - Z.to_nat lines)%nat
              = 0%nat) as -> by lia.
      done.
  - eexists _, _. split; [done|]. cbn. split_and!; try done. lia.
Qed.

(** X28.  [getLogs] with [lines = 0] does not return zero lines: [-0] is
    [0], and [slice(0)] is the whole list.  With a negative [lines] it
    drops that many lines from the front instead of keeping lines from the
    end. *)
Theorem getLogs_zero_returns_all readLogFile lines level w content w1 :
  lines <= 0 ->
  readLogFile w = (Ok content, w1) ->
  getLogs readLogFile lines level w =
    (Ok (drop (Z.to_nat (- lines)) (selected_lines level content)), w1) /\
  (lines = 0 ->
   getLogs readLogFile lines level w =
     (Ok (selected_lines level content), w1)).
Proof.
  intros Hl E. rewrite getLogs_eq, E.
  rewrite slice_nonnegative by lia. split; [done|].
  intros ->. done.
Qed.

End StatusAndLogs.

(** ** The poller's timer *)

Section PollerServiceExtras.
Import WebhookPoller.

Lemma checkAndRestart_no_throw : no_throw checkAndRestart.
Proof.
  unfold checkAndRestart. apply no_throw_try_catch.
  intros e. apply no_throw_mret.
Qed.

Lemma checkAndRestart_result w a w' :
  checkAndRestart w = (Ok a, w') -> a = tt.
Proof. by destruct a. Qed.

Lemma toString_truthy z : Js.truthy_string (Js.toString z) = true.
Proof.
  unfold Js.truthy_string. apply negb_true_iff, String.eqb_neq,
    toString_nonempty.
Qed.


End PollerServiceExtras.

(** ** On the sample worlds *)

Section OnMoreSamples.
Import GatewayProcessManager Samples MoreSamples.

Lemma stop_terminates_process_witness :
  exists w',
    stop w_stubborn =
      (Ok (StopResult.mk true "Gateway stopped successfully"), w') /\
    Sys.find_proc w' 4242 = None /\ pidFile (os w') = None.
Proof.
  apply (stop_terminates_process w_stubborn 4242 stubborn_proc);
    vm_compute; reflexivity.
Defined.

Lemma start_refuses_second_instance_witness :
  exists w',
    start w_running =
      (Ok (StartResult.mk false (Some 4242)
             ("Gateway is already running with PID " +:+ Js.toString 4242)),
       w') /\
    procs (os w') = procs (os w_running) /\
    spawnQueue (os w') = spawnQueue (os w_running) /\
    now w' = now w_running.
Proof.
  apply (start_refuses_second_instance w_running 4242);
    vm_compute; reflexivity.
Defined.

Lemma start_success_running_witness :
  exists r w', start (w_spawn (gateway_proc true)) = (Ok r, w') /\
    StartResult.pid r = Some 5000 /\ recorded w' = Some 5000 /\
    Sys.probe w' 5000 = true.
Proof.
  set (res := start (w_spawn (gateway_proc true))).
  assert (E : res = (Ok (StartResult.mk true (Some 5000)
                           "Gateway started successfully with PID 5000"),
                     res.2))
    by (vm_compute; reflexivity).
  destruct (start_success_running _ _ _ E eq_refl)
    as (c & q & rest & Hq & Hpid & Hrec & Hprobe & _).
  injection Hpid as <-.
  eexists _, _. split; [exact E|]. split; [reflexivity|].
  split; [exact Hrec | exact Hprobe].
Defined.

Lemma start_failure_leaves_witness :
  (exists r w', start (w_spawn mute_proc) = (Ok r, w') /\
     StartResult.message r =
       "Gateway failed to start within timeout period" /\
     Sys.find_proc w' 5000 = None /\ pidFile (os w') = None) /\
  (exists r w', start (w_spawn_nolog (gateway_proc true)) = (Ok r, w') /\
     StartResult.message r =
       "Failed to start Gateway: Error: EACCES: permission denied" /\
     Sys.find_proc w' 5000 = Some (gateway_proc true) /\
     recorded w' = Some 5000).
Proof.
  split.
  - set (res := start (w_spawn mute_proc)).
    assert (E : res = (Ok (StartResult.mk false None
                             "Gateway failed to start within timeout period"),
                       res.2))
      by (vm_compute; reflexivity).
    eexists _, _. split; [exact E|].
    destruct (start_failure_leaves (w_spawn mute_proc) 5000 mute_proc []
                _ _ ltac:(intros p Hp; vm_compute in Hp; discriminate)
                eq_refl E eq_refl) as (Hm & Hgone).
    split; [exact Hm|]. apply Hgone. reflexivity.
  - set (res := start (w_spawn_nolog (gateway_proc true))).
    assert (E : res = (Ok (StartResult.mk false None
                 "Failed to start Gateway: Error: EACCES: permission denied"),
                       res.2))
      by (vm_compute; reflexivity).
    eexists _, _. split; [exact E|].
    destruct (start_failure_leaves (w_spawn_nolog (gateway_proc true)) 5000
                (gateway_proc true) []
                _ _ ltac:(intros p Hp; vm_compute in Hp; discriminate)
                eq_refl E eq_refl) as (Hm & _ & Hfind & Hrec & _).
    split; [exact Hm|]. split; [|exact Hrec].
    rewrite Hfind. vm_compute. reflexivity.
Defined.

Lemma restart_success_healthy_witness :
  exists r w', restart None (w_spawn (gateway_proc true)) = (Ok r, w') /\
    RestartResult.newPid r = Some 5000 /\
    Sys.probe w' 5000 = true /\ listening w'.
Proof.
  set (res := restart None (w_spawn (gateway_proc true))).
  assert (E : res = (Ok (RestartResult.mk true None (Some 5000) 2000
                           "Gateway restarted successfully in 2000ms" None),
                     res.2))
    by (vm_compute; reflexivity).
  destruct (restart_success_healthy _ _ _ _ E eq_refl)
    as (c & Hpid & _ & Hprobe & Hl & _).
  injection Hpid as <-.
  eexists _, _. split; [exact E|]. split; [reflexivity|].
  split; [exact Hprobe | exact Hl].
Defined.

Lemma wait_loops_bounded_witness :
  (exists b w', waitForShutdown 4242 SHUTDOWN_TIMEOUT w_running
                = (Ok b, w') /\
     os w' = os w_running /\
     now w_running <= now w' <= now w_running + SHUTDOWN_TIMEOUT + 500 /\
     (b = true -> Sys.probe w' 4242 = false)) /\
  (exists b w', waitForStartup 4242 w_running = (Ok b, w') /\
     os w' = os w_running /\
     now w_running <= now w' <= now w_running + STARTUP_TIMEOUT + 1000 /\
     (b = true -> Sys.probe w' 4242 = true /\ listening w')).
Proof.
  apply (wait_loops_bounded 4242 SHUTDOWN_TIMEOUT w_running).
  vm_compute. discriminate.
Defined.

End OnMoreSamples.

Section OnMoreSamplesPoller.
Import GatewayProcessManager WebhookPoller Samples MoreSamples.

Lemma setGatewaySetting_round_trip_witness :
  exists w',
    Db.setGatewaySetting "max_restart_attempts" "5" None w_off
      = (Ok tt, w') /\
    (forall d, Db.getGatewaySetting "max_restart_attempts" d w'
               = (Ok (Some "5"), w')) /\
    gatewaySettings (database w') !! "auto_restart_enabled" =
      gatewaySettings (database w_off) !! "auto_restart_enabled".
Proof.
  destruct (setGatewaySetting_round_trip "max_restart_attempts" "5" None
              w_off eq_refl) as (w' & E & Hget & Hother & _).
  exists w'. split; [exact E|]. split; [exact Hget|].
  apply Hother. discriminate.
Defined.

Lemma getGatewaySetting_first_default_sticks_witness :
  exists w1,
    Db.getGatewaySetting "max_restart_attempts" (Some "3") w_flap
      = (Ok (Some "3"), w1) /\
    Db.getGatewaySetting "max_restart_attempts" (Some "10") w1
      = (Ok (Some "3"), w1).
Proof.
  destruct (getGatewaySetting_first_default_sticks "max_restart_attempts"
              "3" w_flap eq_refl) as (v & w1 & E & Hv & Hlater).
  rewrite (Hv eq_refl) in *.
  exists w1. split; [exact E | apply Hlater].
Defined.

Lemma no_token_no_request_witness :
  checkWebhookStatus w_no_token =
    (Ok (WebhookStatus.mk false None 0 None
           (Some "Bot token not configured")), w_no_token) /\
  resetWebhook w_no_token = (Ok tt, w_no_token).
Proof.
  destruct (no_token_no_request w_no_token eq_refl) as (E1 & _ & _ & E4).
  split; [exact E1 | exact E4].
Defined.

Lemma applyWebhook_success_witness :
  exists r w', applyWebhook w_configured = (Ok r, w') /\
    url (subscription (telegram w')) = "https://prod.example/hook".
Proof.
  set (res := applyWebhook w_configured).
  assert (E : res = (Ok (ApplyResult.mk true "Webhook applied successfully"
                           (Some "https://prod.example/hook")), res.2))
    by (vm_compute; reflexivity).
  destruct (applyWebhook_success _ _ _ E eq_refl)
    as (u & Hu & _ & Hr & Hsub & _).
  injection Hr as <-.
  eexists _, _. split; [exact E | exact Hsub].
Defined.

Lemma setProductionUrl_applyWebhook_witness :
  exists w1 w',
    Router.setProductionUrl "https://prod.example/hook" w_flap
      = (Ok true, w1) /\
    Router.applyWebhook w1 =
      (Ok (ApplyResult.mk true "Webhook applied successfully"
             (Some "https://prod.example/hook")), w') /\
    url (subscription (telegram w')) = "https://prod.example/hook".
Proof.
  apply (setProductionUrl_applyWebhook w_flap "https://prod.example/hook");
    [reflexivity | discriminate | vm_compute; discriminate
    | vm_compute; exact I].
Defined.

Lemma deleteWebhook_then_inactive_witness :
  exists st w',
    checkWebhookStatus (deleteWebhook w_flap).2 = (Ok st, w') /\
    WebhookStatus.isActive st = false /\ WebhookStatus.url st = None.
Proof.
  set (res := deleteWebhook w_flap).
  assert (E : res = (Ok (DeleteResult.mk true
    "Webhook deleted successfully. Gateway can now use getUpdates polling."),
                     res.2))
    by (vm_compute; reflexivity).
  apply (deleteWebhook_then_inactive _ _ _ E eq_refl).
  vm_compute. exact I.
Defined.

Lemma checkAndRestart_failing_db_witness :
  checkAndRestart w_failing = (Ok tt, w_failing).
Proof. apply (checkAndRestart_failing_db w_failing). reflexivity. Defined.

Lemma checkAndRestart_unavailable_db_witness :
  exists w',
    checkAndRestart w_nodb = (Ok tt, w') /\
    restart_calls (trace w') = now w_nodb :: restart_calls (trace w_nodb) /\
    database w' = database w_nodb /\ alerts w' = alerts w_nodb.
Proof.
  destruct (checkAndRestart_unavailable_db w_nodb eq_refl)
    as (rr & w1 & w' & _ & E & Hrc & _ & Hdb & Hal & _).
  exists w'. split; [exact E|]. split; [exact Hrc|].
  split; [exact Hdb | exact Hal].
Defined.

Lemma manual_restart_recorded_witness :
  exists r w' rec,
    Router.restart "owner" None w_busy = (Ok r, w') /\
    gatewayRestartLogs (database w') =
      (gatewayRestartLogs (database w_busy) ++ [rec])%list /\
    triggerType rec = manual /\ triggerUserId rec = Some "owner" /\
    createdAt rec = 1000.
Proof.
  destruct (manual_restart_recorded "owner" None w_busy eq_refl)
    as (r & w1 & w' & rec & E0 & E & Hlogs & Htt & Hid & _ & _ & Hst & _).
  exists r, w', rec. split; [exact E|]. split; [exact Hlogs|].
  split; [exact Htt|]. split; [exact Hid|].
  rewrite Hst. vm_compute in E0. by injection E0 as _ <-.
Defined.

Lemma manual_restart_failing_db_witness :
  exists w',
    Router.restart "owner" None w_failing
      = (Throw (DbError "query failed"), w') /\
    restart_calls (trace w') =
      now w_failing :: restart_calls (trace w_failing).
Proof.
  destruct (manual_restart_failing_db "owner" None w_failing eq_refl)
    as (w' & E & Hrc & _).
  exists w'. split; [exact E | exact Hrc].
Defined.

Lemma setConnectionMode_idempotent_witness :
  setConnectionMode Mode.webhook (setConnectionMode Mode.webhook w_running).2
  = (Ok (SetModeResult.mk true "Mode unchanged" None None),
     (setConnectionMode Mode.webhook w_running).2).
Proof.
  set (res := setConnectionMode Mode.webhook w_running).
  assert (E : res = (Ok (SetModeResult.mk true "Switched to webhook mode"
                           (Some (Some "gateway")) (Some Mode.webhook)),
                     res.2))
    by (vm_compute; reflexivity).
  apply (setConnectionMode_idempotent Mode.webhook w_running _ _ eq_refl E).
Defined.

Lemma configureAutoCheck_takes_effect_witness :
  exists w1 w',
    Router.configureAutoCheck false None None w_flap = (Ok true, w1) /\
    checkAndRestart w1 = (Ok tt, w') /\
    trace w' = trace w1 /\ alerts w' = alerts w1.
Proof.
  destruct (configureAutoCheck_takes_effect false None None w_flap eq_refl)
    as (w1 & E & _ & Hquiet).
  destruct (Hquiet eq_refl) as (w' & E' & Htr & _ & Hal & _).
  exists w1, w'. split; [exact E|]. split; [exact E'|].
  split; [exact Htr | exact Hal].
Defined.

Lemma restart_record_counts_five_minutes_witness :
  exists w1,
    Db.insertGatewayRestartLog
      (InsertGatewayRestartLog.mk manual None None None None true None 2000)
      w_busy = (Ok tt, w1) /\
    Db.getRecentRestartAttempts 5 (set_now (fun t => t + 299501) w1) =
      (Ok 0, set_now (fun t => t + 299501) w1).
Proof.
  destruct (restart_record_counts_five_minutes
              (InsertGatewayRestartLog.mk manual None None None None true
                 None 2000) 299501 w_busy eq_refl ltac:(lia))
    as (w1 & E & Hcount).
  exists w1. split; [exact E | exact Hcount].
Defined.

Lemma getLogs_last_lines_witness :
  exists ls w',
    getLogs read_sample_log 2 None w_flap = (Ok ls, w') /\
    Z.of_nat (length ls) <= 2.
Proof.
  destruct (getLogs_last_lines read_sample_log 2 None w_flap ltac:(lia))
    as (ls & w' & E & Hlen & _).
  exists ls, w'. split; [exact E | exact Hlen].
Defined.

Lemma getLogs_zero_returns_all_witness :
  getLogs read_sample_log 0 (Some LogLevel.error) w_flap =
    (Ok ["[ERROR] poll failed"], w_flap).
Proof.
  apply (proj2 (getLogs_zero_returns_all read_sample_log 0
                  (Some LogLevel.error) w_flap sample_log w_flap
                  ltac:(lia) ltac:(reflexivity))).
  reflexivity.
Defined.


End OnMoreSamplesPoller.
